(** * The adaptive detection pipeline of [vision/yolo_prediction_fast.py]

    A shallow embedding of the capture stage, the inference stage, the
    detection smoother, the performance adaptor, the overlay compositor and
    the orchestrator loop, followed by the properties the design document
    states about them.

    Python values are modelled as the interpreter has them:
    - [int] is [Z];
    - [float] is IEEE binary64, taken from the Standard Library's
      [SpecFloat] with precision 53 and maximal exponent 1024, so that
      rounding, infinities and NaN behave as in CPython;
    - [str] is [string], each character a code point below 256;
    - an exception is a value of [exn], and code that can raise returns a
      [result];
    - [collections.deque(maxlen=n)] and [queue.Queue(maxsize=n)] are lists
      with their capacity written out. *)

From Stdlib Require Import ZArith List Bool String Ascii Lia.
From Stdlib Require Import DecimalString.
From Stdlib Require Import SpecFloat.
Import ListNotations.
Local Open Scope string_scope.
Local Open Scope list_scope.
Local Open Scope Z_scope.

(** ** Exceptions *)

Inductive exn : Type :=
| IndexError
| KeyError
| ValueError
| OverflowError
| ZeroDivisionError
| QueueFull
| QueueEmpty
| OtherError (msg : string).

Inductive result (A : Type) : Type :=
| Ok (a : A)
| Raise (e : exn).

Arguments Ok {A} a.
Arguments Raise {A} e.

Definition bind {A B : Type} (r : result A) (k : A -> result B) : result B :=
  match r with
  | Ok a => k a
  | Raise e => Raise e
  end.

Notation "x <- r ;; k" := (bind r (fun x => k))
  (at level 61, r at next level, right associativity).

(** ** Floats: IEEE binary64 *)

Module PyFloat.

Definition float : Type := spec_float.

Definition prec : Z := 53.
Definition emax : Z := 1024.

Definition add : float -> float -> float := SFadd prec emax.
Definition sub : float -> float -> float := SFsub prec emax.
Definition mul : float -> float -> float := SFmul prec emax.
Definition div : float -> float -> float := SFdiv prec emax.

(** [x < y] and [x <= y]; both are [False] as soon as one side is NaN. *)
Definition ltb : float -> float -> bool := SFltb.
Definition leb : float -> float -> bool := SFleb.

Definition is_inf (x : float) : bool :=
  match x with
  | S754_infinity _ => true
  | _ => false
  end.

(** An integer as an unrounded significand with exponent 0. *)
Definition raw (z : Z) : float :=
  match z with
  | Z0 => S754_zero false
  | Zpos p => S754_finite false p 0
  | Zneg p => S754_finite true p 0
  end.

(** The binary64 nearest to the integer [z] (ties to even). *)
Definition of_Z (z : Z) : float := binary_normalize prec emax z 0 false.

(** The binary64 nearest to the quotient [n / d] for [d <> 0]: the division
    algorithm rounds the exact quotient once, whatever the size of [n] and
    [d]. *)
Definition of_ratio (n d : Z) : float := div (raw n) (raw d).

(** [float(z)], also the implicit conversion of an [int] operand in mixed
    arithmetic: too large an integer raises. *)
Definition of_int (z : Z) : result float :=
  let f := of_Z z in
  if is_inf f then Raise OverflowError else Ok f.

(** [a / b] on two [int]s: the correctly rounded quotient. *)
Definition truediv_int (a b : Z) : result float :=
  if b =? 0 then Raise ZeroDivisionError
  else
    let f := of_ratio a b in
    if is_inf f then Raise OverflowError else Ok f.

(** [int(x)]: truncation toward zero. *)
Definition to_int (x : float) : result Z :=
  match x with
  | S754_zero _ => Ok 0
  | S754_infinity _ => Raise OverflowError
  | S754_nan => Raise ValueError
  | S754_finite s m e =>
      let mag := Z.shiftl (Zpos m) e in
      Ok (if s then - mag else mag)
  end.

(** Decimal literals of the source. *)
Definition f0_5 : float := of_ratio 5 10.
Definition f0_8 : float := of_ratio 8 10.
Definition f1_3 : float := of_ratio 13 10.
Definition f0_35 : float := of_ratio 35 100.
Definition f1_0 : float := of_Z 1.
Definition f3_0 : float := of_Z 3.

(** Rounding of the non-negative rational [n / d] to an integer, ties to
    even, as [format] does on the exact value of a float. *)
Definition round_half_even (n d : Z) : Z :=
  let q := n / d in
  let r := n mod d in
  match 2 * r ?= d with
  | Lt => q
  | Gt => q + 1
  | Eq => if Z.even q then q else q + 1
  end.

Definition digits_of (n : Z) : string :=
  NilZero.string_of_uint (N.to_uint (Z.to_N n)).

Fixpoint zeros (k : nat) : string :=
  match k with
  | O => EmptyString
  | S k' => String "0" (zeros k')
  end.

(** The last [k] decimal digits of [n], padded with zeros on the left. *)
Definition frac_digits (k : nat) (n : Z) : string :=
  let s := digits_of n in
  (zeros (k - String.length s) ++ s)%string.

(** [format(x, ".kf")] for [k >= 1]. *)
Definition format_fixed (k : nat) (x : float) : string :=
  let body (n : Z) :=
    let p := 10 ^ Z.of_nat k in
    (digits_of (n / p) ++ "." ++ frac_digits k (n mod p))%string in
  match x with
  | S754_nan => "nan"
  | S754_infinity s => if s then "-inf" else "inf"
  | S754_zero s => ((if s then "-" else EmptyString) ++ body 0)%string
  | S754_finite s m e =>
      let p := 10 ^ Z.of_nat k in
      let n :=
        if 0 <=? e then Zpos m * 2 ^ e * p
        else round_half_even (Zpos m * p) (2 ^ (- e)) in
      ((if s then "-" else EmptyString) ++ body n)%string
  end.

End PyFloat.

Abbreviation float := PyFloat.float.

(** ** Strings *)

Module PyStr.

(** [str.isspace] on the code points below 256. *)
Definition isspace (c : ascii) : bool :=
  let n := Z.of_nat (nat_of_ascii c) in
  ((9 <=? n) && (n <=? 13)) || ((28 <=? n) && (n <=? 32))
  || (n =? 133) || (n =? 160).

Definition is_empty (s : string) : bool :=
  match s with
  | EmptyString => true
  | String _ _ => false
  end.

(** [s.split()]: the maximal runs of non-space characters, in order. *)
Fixpoint split_from (cur : string) (s : string) : list string :=
  match s with
  | EmptyString => if is_empty cur then [] else [cur]
  | String c rest =>
      if isspace c then
        if is_empty cur then split_from EmptyString rest
        else cur :: split_from EmptyString rest
      else split_from (cur ++ String c EmptyString)%string rest
  end.

Definition split (s : string) : list string := split_from EmptyString s.

(** [parts[0]] and [parts[-1]]. *)
Definition first (parts : list string) : result string :=
  match parts with
  | [] => Raise IndexError
  | p :: _ => Ok p
  end.

Definition last (parts : list string) : result string :=
  match rev parts with
  | [] => Raise IndexError
  | p :: _ => Ok p
  end.

Definition is_digit (c : ascii) : bool :=
  let n := Z.of_nat (nat_of_ascii c) in
  (48 <=? n) && (n <=? 57).

(** Value of a run of decimal digits read after the value [acc]. *)
Fixpoint digits_value (acc : Z) (s : string) : option Z :=
  match s with
  | EmptyString => Some acc
  | String c rest =>
      if is_digit c
      then digits_value (10 * acc + (Z.of_nat (nat_of_ascii c) - 48)) rest
      else None
  end.

(** The part of [s] before the first ['.'] and, when there is one, the part
    after it. *)
Fixpoint cut_at_dot (s : string) : string * option string :=
  match s with
  | EmptyString => (EmptyString, None)
  | String c rest =>
      if Ascii.eqb c "."%char then (EmptyString, Some rest)
      else let '(a, b) := cut_at_dot rest in (String c a, b)
  end.

(** [float(s)] on unsigned and signed plain decimal literals
    ([12], [0.93], [.5], [3.], [-0.25]), which is the form the inference
    stage writes into labels.  Every other string is rejected here; the
    interpreter accepts more (exponents, [inf], [nan], underscores), so the
    properties of the compositor below are proved for an arbitrary parser and
    this one only supplies concrete instances. *)
Definition float_of_decimal (s : string) : result float :=
  let '(neg, body) :=
    match s with
    | String "-" rest => (true, rest)
    | String "+" rest => (false, rest)
    | _ => (false, s)
    end in
  let '(ip, fp) := cut_at_dot body in
  let fp' := match fp with Some f => f | None => EmptyString end in
  if is_empty ip && is_empty fp' then Raise ValueError
  else
    match digits_value 0 (ip ++ fp')%string with
    | None => Raise ValueError
    | Some n =>
        let d := 10 ^ Z.of_nat (String.length fp') in
        Ok (if n =? 0 then S754_zero neg
            else PyFloat.of_ratio (if neg then - n else n) d)
    end.

End PyStr.

(** ** [collections.deque(maxlen=n)] *)

(** [d.append(x)]: the oldest entries leave when the bound is exceeded. *)
Definition deque_append {A : Type} (maxlen : nat) (d : list A) (x : A) : list A :=
  let d' := d ++ [x] in
  skipn (List.length d' - maxlen) d'.

(** ** [queue.Queue(maxsize=n)] *)

Module Queue.

Record t (A : Type) : Type := mk
  { items : list A;
    maxsize : Z }.

Arguments mk {A} items maxsize.
Arguments items {A} _.
Arguments maxsize {A} _.

Definition create (A : Type) (maxsize : Z) : t A := mk [] maxsize.

Definition qsize {A : Type} (q : t A) : Z := Z.of_nat (List.length (items q)).

(** [q.full()]: [0 < maxsize <= qsize]. *)
Definition full {A : Type} (q : t A) : bool :=
  (0 <? maxsize q) && (maxsize q <=? qsize q).

(** What a call of [q.put(x, block=b)] does: it stores the item, raises
    [queue.Full], or waits for a free slot. *)
Inductive put_outcome (A : Type) : Type :=
| Stored (q : t A)
| PutRaises (e : exn)
| Waits.

Arguments Stored {A} q.
Arguments PutRaises {A} e.
Arguments Waits {A}.

Definition put {A : Type} (q : t A) (x : A) (block : bool) : put_outcome A :=
  if full q then (if block then Waits else PutRaises QueueFull)
  else Stored (mk (items q ++ [x]) (maxsize q)).

(** [q.get(block=False)], and [q.get(timeout=...)] when nothing arrives
    before the timeout. *)
Definition get {A : Type} (q : t A) : result (A * t A) :=
  match items q with
  | [] => Raise QueueEmpty
  | x :: rest => Ok (x, mk rest (maxsize q))
  end.

End Queue.

(** ** Settings *)

Definition IMG_SIZE : Z := 416.
Definition CONF_THRES : float := PyFloat.f0_35.
Definition CAM_RES : Z * Z := (1280, 720).
Definition TARGET_FPS : Z := 30.
Definition OVERLAY_FPS : Z := 15.
Definition BUFFER_SIZE : Z := 3.
Definition FRAME_SKIP : Z := 2.
Definition SMOOTHING_FACTOR : float := PyFloat.f0_8.

(** ** Frames, detections, console *)

(** A camera frame in XBGR8888 (four channels) and in RGB. *)
Definition XFrame : Type := list (list (Z * Z * Z * Z)).
Definition Frame : Type := list (list (Z * Z * Z)).

(** [xbgr[:, :, [3, 2, 1]]] *)
Definition to_rgb (xbgr : XFrame) : Frame :=
  map (map (fun p : Z * Z * Z * Z => let '(c0, c1, c2, c3) := p in (c3, c2, c1))) xbgr.

(** A detection is the tuple [(x1, y1, x2, y2, label)]. *)
Definition det : Type := (Z * Z * Z * Z * string)%type.

(** A line written by [print] in an exception handler: the message and the
    exception it reports. *)
Definition console : Type := list (string * exn).

(** How a pass through a thread's loop body ends: the loop goes on
    ([continue], [pass] or falling off the end), it is left by [break], or
    the thread is suspended inside a blocking call. *)
Inductive flow : Type :=
| Next
| Break
| Blocked.

(** [a % b] on [int]s; the sign follows the divisor, as [Z.modulo] does. *)
Definition py_mod (a b : Z) : result Z :=
  if b =? 0 then Raise ZeroDivisionError else Ok (a mod b).

(** ** The capture stage *)

Module FrameCapture.

(** The [except] clauses of [run]. *)
Definition handler (stop : bool) (e : exn) : flow * console :=
  match e with
  | QueueFull => (Next, [])
  | _ => (Break, if stop then [] else [("Frame capture error", e)])
  end.

(** One pass through the body of [while not self.stop_event.is_set()].
    [capture] is what [picam2.capture_array] returns or raises, [stop] what
    [stop_event.is_set()] answers inside the handler. *)
Definition run_body (capture : result XFrame) (stop : bool)
  (frame_queue : Queue.t Frame) : Queue.t Frame * (flow * console) :=
  match capture with
  | Raise e => (frame_queue, handler stop e)
  | Ok xbgr =>
      let rgb := to_rgb xbgr in
      if negb (Queue.full frame_queue) then
        match Queue.put frame_queue rgb false with
        | Queue.Stored q' => (q', (Next, []))
        | Queue.PutRaises e => (frame_queue, handler stop e)
        | Queue.Waits => (frame_queue, (Blocked, []))
        end
      else (frame_queue, (Next, []))
  end.

End FrameCapture.

(** ** The detection model, as the inference stage sees it *)

Record Box : Type := mkBox
  { xyxy : float * float * float * float;
    conf : float;
    cls : float }.

(** One element of what [model(rgb)] returns: the class names, a [dict]
    from class index to name, and the boxes. *)
Record Results : Type := mkResults
  { names : list (Z * string);
    boxes : list Box }.

(** [names[k]] *)
Fixpoint dict_get (d : list (Z * string)) (k : Z) : result string :=
  match d with
  | [] => Raise KeyError
  | (k', v) :: d' => if k' =? k then Ok v else dict_get d' k
  end.

(** ** The inference stage *)

Module YOLOProcessor.

Record t : Type := mk
  { img_size : Z;
    conf_thres : float;
    frame_skip : Z;
    frame_count : Z }.

(** [__init__]; the queues and the stop event are shared objects and are
    passed to [run_body]. *)
Definition init (img_size : Z) (conf_thres : float) (frame_skip : Z) : t :=
  mk img_size conf_thres frame_skip 0.

(** The body of [for b in r.boxes], appending to [dets]. *)
Definition add_box (conf_thres : float) (names : list (Z * string))
  (dets : list det) (b : Box) : result (list det) :=
  let '(x1, y1, x2, y2) := xyxy b in
  let c := conf b in
  k <- PyFloat.to_int (cls b) ;;
  if PyFloat.leb conf_thres c then
    ix1 <- PyFloat.to_int x1 ;;
    iy1 <- PyFloat.to_int y1 ;;
    ix2 <- PyFloat.to_int x2 ;;
    iy2 <- PyFloat.to_int y2 ;;
    name <- dict_get names k ;;
    Ok (dets ++ [(ix1, iy1, ix2, iy2,
                  (name ++ " " ++ PyFloat.format_fixed 2 c)%string)])
  else Ok dets.

Fixpoint add_boxes (conf_thres : float) (names : list (Z * string))
  (dets : list det) (bs : list Box) : result (list det) :=
  match bs with
  | [] => Ok dets
  | b :: bs' =>
      dets' <- add_box conf_thres names dets b ;;
      add_boxes conf_thres names dets' bs'
  end.

(** "Process results": the detections of [results[0]]. *)
Definition process_results (conf_thres : float) (results : list Results)
  : result (list det) :=
  match results with
  | [] => Ok []
  | r :: _ => add_boxes conf_thres (names r) [] (boxes r)
  end.

(** The [except] clauses of [run]. *)
Definition handler (stop : bool) (e : exn) : flow * console :=
  match e with
  | QueueEmpty => (Next, [])
  | QueueFull => (Next, [])
  | _ => (Break, if stop then [] else [("YOLO processing error", e)])
  end.

(** One pass through the body of [while not self.stop_event.is_set()].
    [model] is the detection model; an empty frame queue stands for the
    [get] that times out. *)
Definition run_body (model : Frame -> result (list Results)) (stop : bool)
  (self : t) (frame_queue : Queue.t Frame)
  (result_queue : Queue.t (Frame * list det))
  : t * Queue.t Frame * Queue.t (Frame * list det) * (flow * console) :=
  match Queue.get frame_queue with
  | Raise e => (self, frame_queue, result_queue, handler stop e)
  | Ok (rgb, frame_queue') =>
      let self' :=
        mk (img_size self) (conf_thres self) (frame_skip self)
           (frame_count self + 1) in
      match py_mod (frame_count self') (frame_skip self') with
      | Raise e => (self', frame_queue', result_queue, handler stop e)
      | Ok r =>
          if negb (r =? 0) then (self', frame_queue', result_queue, (Next, []))
          else
            match results <- model rgb ;;
                  process_results (conf_thres self') results with
            | Raise e => (self', frame_queue', result_queue, handler stop e)
            | Ok dets =>
                if negb (Queue.full result_queue) then
                  match Queue.put result_queue (rgb, dets) false with
                  | Queue.Stored q' => (self', frame_queue', q', (Next, []))
                  | Queue.PutRaises e =>
                      (self', frame_queue', result_queue, handler stop e)
                  | Queue.Waits =>
                      (self', frame_queue', result_queue, (Blocked, []))
                  end
                else (self', frame_queue', result_queue, (Next, []))
            end
      end
  end.

End YOLOProcessor.

(** ** The inference loop of [yolo_prediction.py]

    The single-threaded script beside this one runs the same loop over
    [results[0].boxes] inside its [main]; the model applies the confidence
    threshold itself ([conf=CONF_THRES]) and [W, H = CAM_RES]. *)

Module YoloPrediction.

(** The body of [for b in r.boxes], appending to [dets]: every
    coordinate goes through [max(0, min(int(x), W-1))]. *)
Definition add_box (size_wh : Z * Z) (names : list (Z * string))
  (dets : list det) (b : Box) : result (list det) :=
  let '(W, H) := size_wh in
  let '(x1, y1, x2, y2) := xyxy b in
  let c := conf b in
  k <- PyFloat.to_int (cls b) ;;
  ix1 <- PyFloat.to_int x1 ;;
  iy1 <- PyFloat.to_int y1 ;;
  ix2 <- PyFloat.to_int x2 ;;
  iy2 <- PyFloat.to_int y2 ;;
  name <- dict_get names k ;;
  Ok (dets ++ [(Z.max 0 (Z.min ix1 (W - 1)), Z.max 0 (Z.min iy1 (H - 1)),
                Z.max 0 (Z.min ix2 (W - 1)), Z.max 0 (Z.min iy2 (H - 1)),
                (name ++ " " ++ PyFloat.format_fixed 2 c)%string)]).

Fixpoint add_boxes (size_wh : Z * Z) (names : list (Z * string))
  (dets : list det) (bs : list Box) : result (list det) :=
  match bs with
  | [] => Ok dets
  | b :: bs' =>
      dets' <- add_box size_wh names dets b ;;
      add_boxes size_wh names dets' bs'
  end.

(** The detections of [results[0]]. *)
Definition process_results (size_wh : Z * Z) (results : list Results)
  : result (list det) :=
  match results with
  | [] => Ok []
  | r :: _ => add_boxes size_wh (names r) [] (boxes r)
  end.

End YoloPrediction.

(** ** The detection smoother *)

Module DetectionSmoother.

Record t : Type := mk
  { smoothing_factor : float;
    max_history : nat;
    detection_history : list (list det) }.

Definition init (smoothing_factor : float) (max_history : nat) : t :=
  mk smoothing_factor max_history [].

(** The test of the inner loop:
    [label.split()[0] == hlabel.split()[0] and abs(x1 - hx1) < 50
     and abs(y1 - hy1) < 50]. *)
Definition similar (d hist_det : det) : result bool :=
  let '(x1, y1, x2, y2, label) := d in
  let '(hx1, hy1, hx2, hy2, hlabel) := hist_det in
  a <- PyStr.first (PyStr.split label) ;;
  b <- PyStr.first (PyStr.split hlabel) ;;
  Ok (String.eqb a b && (Z.abs (x1 - hx1) <? 50) && (Z.abs (y1 - hy1) <? 50)).

(** [for hist_det in hist_dets: ...] *)
Fixpoint scan_dets (d : det) (similar_dets : list det) (hist_dets : list det)
  : result (list det) :=
  match hist_dets with
  | [] => Ok similar_dets
  | hist_det :: rest =>
      s <- similar d hist_det ;;
      scan_dets d (if s then similar_dets ++ [hist_det] else similar_dets) rest
  end.

(** [for hist_dets in self.detection_history: ...] *)
Fixpoint scan_history (d : det) (similar_dets : list det)
  (history : list (list det)) : result (list det) :=
  match history with
  | [] => Ok similar_dets
  | hist_dets :: rest =>
      similar_dets' <- scan_dets d similar_dets hist_dets ;;
      scan_history d similar_dets' rest
  end.

Definition sum (l : list Z) : Z := fold_left Z.add l 0.

(** [sum(d[i] for d in similar_dets) / len(similar_dets)] *)
Definition average (coord : det -> Z) (similar_dets : list det) : result float :=
  PyFloat.truediv_int (sum (map coord similar_dets))
                      (Z.of_nat (List.length similar_dets)).

(** [int(x * (1 - self.smoothing_factor) + avg * self.smoothing_factor)] *)
Definition blend (smoothing_factor : float) (x : Z) (avg : float) : result Z :=
  fx <- PyFloat.of_int x ;;
  PyFloat.to_int
    (PyFloat.add
       (PyFloat.mul fx (PyFloat.sub PyFloat.f1_0 smoothing_factor))
       (PyFloat.mul avg smoothing_factor)).

Definition d_x1 (d : det) : Z := let '(x1, _, _, _, _) := d in x1.
Definition d_y1 (d : det) : Z := let '(_, y1, _, _, _) := d in y1.
Definition d_x2 (d : det) : Z := let '(_, _, x2, _, _) := d in x2.
Definition d_y2 (d : det) : Z := let '(_, _, _, y2, _) := d in y2.
Definition d_label (d : det) : string := let '(_, _, _, _, label) := d in label.

(** The body of [for det in current_dets]: the detection that is appended
    to [smoothed_dets]. *)
Definition smooth_one (smoothing_factor : float) (history : list (list det))
  (d : det) : result det :=
  let '(x1, y1, x2, y2, label) := d in
  similar_dets <- scan_history d [] history ;;
  match similar_dets with
  | [] => Ok d
  | _ :: _ =>
      avg_x1 <- average d_x1 similar_dets ;;
      avg_y1 <- average d_y1 similar_dets ;;
      avg_x2 <- average d_x2 similar_dets ;;
      avg_y2 <- average d_y2 similar_dets ;;
      smooth_x1 <- blend smoothing_factor x1 avg_x1 ;;
      smooth_y1 <- blend smoothing_factor y1 avg_y1 ;;
      smooth_x2 <- blend smoothing_factor x2 avg_x2 ;;
      smooth_y2 <- blend smoothing_factor y2 avg_y2 ;;
      Ok (smooth_x1, smooth_y1, smooth_x2, smooth_y2, label)
  end.

Fixpoint smooth_all (smoothing_factor : float) (history : list (list det))
  (smoothed_dets : list det) (current_dets : list det) : result (list det) :=
  match current_dets with
  | [] => Ok smoothed_dets
  | d :: rest =>
      d' <- smooth_one smoothing_factor history d ;;
      smooth_all smoothing_factor history (smoothed_dets ++ [d']) rest
  end.

(** [smooth_detections]: the smoother after the call, and what the call
    returns or raises. *)
Definition smooth_detections (self : t) (current_dets : list det)
  : t * result (list det) :=
  let history :=
    deque_append (max_history self) (detection_history self) current_dets in
  let self' := mk (smoothing_factor self) (max_history self) history in
  if (List.length history <? 2)%nat then (self', Ok current_dets)
  else (self', smooth_all (smoothing_factor self) history [] current_dets).

End DetectionSmoother.

(** ** The performance adaptor *)

Module PerformanceAdaptor.

Record t : Type := mk
  { target_fps : float;
    adjustment_interval : float;
    last_adjustment : float;
    fps_history : list float;
    current_skip : Z;
    current_img_size : Z }.

(** [__init__]; [now] is the reading of [time.time()].  An [int] passed as
    [target_fps] is held as the float it becomes in [target_fps * 0.8]. *)
Definition init (target_fps adjustment_interval now : float) : t :=
  mk target_fps adjustment_interval now [] FRAME_SKIP IMG_SIZE.

(** [sum(self.fps_history)]: additions from the left, starting at [0], each
    one rounded (CPython up to 3.11; later versions carry a correction
    term, which can change the last bit of a sum that is not exact). *)
Definition fsum (l : list float) : float :=
  fold_left PyFloat.add l (PyFloat.of_Z 0).

(** [sum(self.fps_history) / len(self.fps_history)] on a window that is not
    empty. *)
Definition avg (fps_history : list float) : float :=
  PyFloat.div (fsum fps_history)
              (PyFloat.of_Z (Z.of_nat (List.length fps_history))).

(** The condition of the outer [if], on the window after the append. *)
Definition gate (self : t) (fps_history : list float) (now : float) : bool :=
  PyFloat.leb (adjustment_interval self)
              (PyFloat.sub now (last_adjustment self))
  && (5 <=? List.length fps_history)%nat.

(** "Adaptive adjustments": the two knobs after the inner [if]/[elif]. *)
Definition adjust (self : t) (avg_fps : float) : Z * Z :=
  if PyFloat.ltb avg_fps (PyFloat.mul (target_fps self) PyFloat.f0_8) then
    if current_skip self <? 4 then
      (current_skip self + 1, current_img_size self)
    else if 320 <? current_img_size self then
      (current_skip self, Z.max 320 (current_img_size self - 96))
    else (current_skip self, current_img_size self)
  else if PyFloat.ltb (PyFloat.mul (target_fps self) PyFloat.f1_3) avg_fps then
    if 1 <? current_skip self then
      (current_skip self - 1, current_img_size self)
    else if current_img_size self <? IMG_SIZE then
      (current_skip self, Z.min IMG_SIZE (current_img_size self + 96))
    else (current_skip self, current_img_size self)
  else (current_skip self, current_img_size self).

(** [update_performance]; [now] is the reading of [time.time()] inside the
    call.  The messages it prints are not part of the state and are left
    out. *)
Definition update_performance (self : t) (fps now : float) : t * (Z * Z) :=
  let fps_history := deque_append 8 (fps_history self) fps in
  if gate self fps_history now then
    let '(skip, size) := adjust self (avg fps_history) in
    (mk (target_fps self) (adjustment_interval self) now fps_history skip size,
     (skip, size))
  else
    (mk (target_fps self) (adjustment_interval self) (last_adjustment self)
        fps_history (current_skip self) (current_img_size self),
     (current_skip self, current_img_size self)).

End PerformanceAdaptor.

(** ** The overlay compositor *)

Module Overlay.

Definition color : Type := (Z * Z * Z * Z)%type.

(** The calls made on [ImageDraw.Draw(img)]. *)
Inductive draw_op : Type :=
| Rectangle (box : Z * Z * Z * Z) (fill outline : option color) (width : Z)
| Text (xy : Z * Z) (text : string) (fill : color).

(** An RGBA image: its size and the drawing calls made on it since
    [Image.new("RGBA", (w, h), (0, 0, 0, 0))], oldest first.  What a call
    does to the pixels, and whether Pillow accepts its arguments, is left
    to Pillow. *)
Record image : Type := mkImage
  { size : Z * Z;
    ops : list draw_op }.

Definition draw (img : image) (new_ops : list draw_op) : image :=
  mkImage (size img) (ops img ++ new_ops).

Section WithFont.

(** [float(s)] on a string, [None] when it raises [ValueError]. *)
Variable py_float : string -> option float.

(** The width and height [d.textbbox((0, 0), s, font=font)[2:]]. *)
Variable textbbox : string -> Z * Z.

(** The [try] block of the loop body: [true] when it ends in [continue]. *)
Definition skipped (label : string) : bool :=
  let parts := PyStr.split label in
  if (1 <? List.length parts)%nat then
    match PyStr.last parts with
    | Ok p =>
        match py_float p with
        | Some c => PyFloat.ltb c PyFloat.f0_5
        | None => false
        end
    | Raise _ => false
    end
  else false.

Definition outline_rectangle (d : det) : draw_op :=
  let '(x1, y1, x2, y2, label) := d in
  Rectangle (x1, y1, x2, y2) None (Some (0, 255, 0, 255)) 2.

(** The two calls under [if box_area > 2000]. *)
Definition label_ops (d : det) : list draw_op :=
  let '(x1, y1, x2, y2, label) := d in
  let '(tw, th) := textbbox label in
  let ylab := Z.max 0 (y1 - th - 4) in
  [ Rectangle (x1, ylab, x1 + tw + 4, ylab + th + 2) (Some (0, 255, 0, 180)) None 1;
    Text (x1 + 2, ylab) label (0, 0, 0, 255) ].

Definition box_area (d : det) : Z :=
  let '(x1, y1, x2, y2, label) := d in
  (x2 - x1) * (y2 - y1).

(** The body of [for (x1, y1, x2, y2, label) in dets]. *)
Definition draw_detection (img : image) (d : det) : image :=
  let '(x1, y1, x2, y2, label) := d in
  if skipped label then img
  else
    let img := draw img [outline_rectangle d] in
    if 2000 <? box_area d then draw img (label_ops d) else img.

(** "Simplified FPS display" *)
Definition draw_fps (img : image) (fps : option float) : image :=
  match fps with
  | None => img
  | Some f =>
      let s := ("FPS: " ++ PyFloat.format_fixed 1 f)%string in
      let '(tw, th) := textbbox s in
      draw img
        [ Rectangle (8, 8, 8 + tw + 6, 8 + th + 4) (Some (0, 0, 0, 140)) None 1;
          Text (10, 10) s (255, 255, 255, 255) ]
  end.

Definition make_overlay (size_wh : Z * Z) (dets : list det) (fps : option float)
  : image :=
  let img := mkImage size_wh [] in
  let img := fold_left draw_detection dets img in
  draw_fps img fps.

End WithFont.

End Overlay.

(** ** The orchestrator *)

Module Main.

(** The objects [main] creates and the locals of its loop.  [capture_alive]
    and [processor_alive] tell whether the thread is still inside its loop;
    [skip_size] holds the locals [current_skip, current_img_size], which
    [main] assigns and never reads; [overlay] is the image last handed to
    [picam2.set_overlay]. *)
Record t : Type := mk
  { frame_queue : Queue.t Frame;
    result_queue : Queue.t (Frame * list det);
    processor : YOLOProcessor.t;
    capture_alive : bool;
    processor_alive : bool;
    printed : console;
    t_prev : float;
    frames : Z;
    shown_fps : float;
    last_overlay : float;
    latest_dets : list det;
    smoother : DetectionSmoother.t;
    adaptor : PerformanceAdaptor.t;
    skip_size : option (Z * Z);
    overlay : option Overlay.image }.

(** The state when [main] enters its loop: [now] is read by
    [t_prev = time.time()], [now'] by the adaptor's constructor. *)
Definition start (now now' : float) : t :=
  mk (Queue.create Frame BUFFER_SIZE)
     (Queue.create (Frame * list det) BUFFER_SIZE)
     (YOLOProcessor.init IMG_SIZE CONF_THRES FRAME_SKIP)
     true true []
     now 0 (PyFloat.of_Z 0) (PyFloat.of_Z 0) []
     (DetectionSmoother.init SMOOTHING_FACTOR 5)
     (PerformanceAdaptor.init (PyFloat.of_Z 12) PyFloat.f3_0 now')
     None None.

Section WithEnvironment.

Variable model : Frame -> result (list Results).
Variable py_float : string -> option float.
Variable textbbox : string -> Z * Z.

(** One pass of the capture thread. *)
Definition capture_step (capture : result XFrame) (stop : bool) (p : t) : t :=
  if capture_alive p then
    let '(q, (f, out)) := FrameCapture.run_body capture stop (frame_queue p) in
    mk q (result_queue p) (processor p)
       (match f with Next => true | _ => false end) (processor_alive p)
       (printed p ++ out)
       (t_prev p) (frames p) (shown_fps p) (last_overlay p) (latest_dets p)
       (smoother p) (adaptor p) (skip_size p) (overlay p)
  else p.

(** One pass of the inference thread. *)
Definition infer_step (stop : bool) (p : t) : t :=
  if processor_alive p then
    let '(self, fq, rq, (f, out)) :=
      YOLOProcessor.run_body model stop (processor p) (frame_queue p)
        (result_queue p) in
    mk fq rq self
       (capture_alive p) (match f with Next => true | _ => false end)
       (printed p ++ out)
       (t_prev p) (frames p) (shown_fps p) (last_overlay p) (latest_dets p)
       (smoother p) (adaptor p) (skip_size p) (overlay p)
  else p.

(** One pass through the body of [while True] in [main]: [now] is read by
    [now = time.time()], [now'] inside [update_performance].  An exception
    leaves the loop; the state is the one reached when it was raised. *)
Definition display_step (now now' : float) (p : t) : t * option exn :=
  (* result_queue.get(block=False) and the smoother *)
  let '(rq, sm, latest, raised) :=
    match Queue.get (result_queue p) with
    | Raise _ => (result_queue p, smoother p, latest_dets p, None)
    | Ok ((rgb, dets), rq') =>
        let '(sm', r) := DetectionSmoother.smooth_detections (smoother p) dets in
        match r with
        | Ok smoothed => (rq', sm', smoothed, None)
        | Raise e => (rq', sm', latest_dets p, Some e)
        end
    end in
  let p1 :=
    mk (frame_queue p) rq (processor p) (capture_alive p) (processor_alive p)
       (printed p) (t_prev p) (frames p) (shown_fps p) (last_overlay p) latest
       sm (adaptor p) (skip_size p) (overlay p) in
  match raised with
  | Some e => (p1, Some e)
  | None =>
      let frames1 := frames p + 1 in
      (* FPS calculation and performance adaptation *)
      let r2 :=
        if PyFloat.leb PyFloat.f1_0 (PyFloat.sub now (t_prev p)) then
          n <- PyFloat.of_int frames1 ;;
          let fps := PyFloat.div n (PyFloat.sub now (t_prev p)) in
          let '(ad, ks) :=
            PerformanceAdaptor.update_performance (adaptor p) fps now' in
          Ok (now, 0, fps, ad, Some ks)
        else Ok (t_prev p, frames1, shown_fps p, adaptor p, skip_size p) in
      match r2 with
      | Raise e =>
          (mk (frame_queue p) rq (processor p) (capture_alive p)
              (processor_alive p) (printed p) (t_prev p) frames1 (shown_fps p)
              (last_overlay p) latest sm (adaptor p) (skip_size p) (overlay p),
           Some e)
      | Ok (t_prev2, frames2, fps2, ad2, ks2) =>
          (* overlay update *)
          let '(ov, last) :=
            if PyFloat.leb (PyFloat.div PyFloat.f1_0 (PyFloat.of_Z OVERLAY_FPS))
                           (PyFloat.sub now (last_overlay p))
            then (Some (Overlay.make_overlay py_float textbbox CAM_RES latest
                          (Some fps2)),
                  now)
            else (overlay p, last_overlay p) in
          (mk (frame_queue p) rq (processor p) (capture_alive p)
              (processor_alive p) (printed p) t_prev2 frames2 fps2 last latest
              sm ad2 ks2 ov,
           None)
      end
  end.

(** What the scheduler and the environment decide: which thread makes its
    next pass, with what the camera delivers or what the clock reads. *)
Inductive event : Type :=
| Capture (capture : result XFrame)
| Infer
| Display (now now' : float).

(** The pipeline while [main] is inside its loop; the stop event is not set
    there. *)
Definition step (p : t) (ev : event) : t * option exn :=
  match ev with
  | Capture c => (capture_step c false p, None)
  | Infer => (infer_step false p, None)
  | Display now now' => display_step now now' p
  end.

(** The events in order, up to the first exception that leaves [main]'s
    loop. *)
Fixpoint run (p : t) (evs : list event) : t * option exn :=
  match evs with
  | [] => (p, None)
  | ev :: rest =>
      match step p ev with
      | (p', None) => run p' rest
      | (p', Some e) => (p', Some e)
      end
  end.

End WithEnvironment.

End Main.

(** * Vocabulary of the properties *)

(** The adaptor after a sequence of [update_performance] calls, each given
    as the measured fps and the clock reading inside the call. *)
Definition adaptor_after (self : PerformanceAdaptor.t)
  (calls : list (float * float)) : PerformanceAdaptor.t :=
  fold_left
    (fun s c => fst (PerformanceAdaptor.update_performance s (fst c) (snd c)))
    calls self.

(** The knobs of the adaptor inside their ranges, the resolution being one
    of the two values 96 apart. *)
Definition knobs_ok (self : PerformanceAdaptor.t) : Prop :=
  1 <= PerformanceAdaptor.current_skip self <= 4 /\
  (PerformanceAdaptor.current_img_size self = 320
   \/ PerformanceAdaptor.current_img_size self = IMG_SIZE).

(** The two directions of an adjustment, as [update_performance] tests
    them on the average [a] of its window. *)
Definition degrades (self : PerformanceAdaptor.t) (a : float) : Prop :=
  PyFloat.ltb a (PyFloat.mul (PerformanceAdaptor.target_fps self) PyFloat.f0_8)
  = true.

Definition improves (self : PerformanceAdaptor.t) (a : float) : Prop :=
  PyFloat.ltb a (PyFloat.mul (PerformanceAdaptor.target_fps self) PyFloat.f0_8)
  = false
  /\ PyFloat.ltb (PyFloat.mul (PerformanceAdaptor.target_fps self) PyFloat.f1_3) a
     = true.

(** An adaptor built with [target_fps=12] that has seen four samples of
    3.0 fps, and its fifth call ten seconds after construction. *)
Definition slow_adaptor : PerformanceAdaptor.t :=
  PerformanceAdaptor.mk (PyFloat.of_Z 12) PyFloat.f3_0 (PyFloat.of_Z 1000)
    [PyFloat.f3_0; PyFloat.f3_0; PyFloat.f3_0; PyFloat.f3_0] FRAME_SKIP IMG_SIZE.

(** An adaptor built with [target_fps=12] whose window holds five samples
    of 3.0 fps, ten seconds after its last adjustment. *)
Definition settled_slow_adaptor : PerformanceAdaptor.t :=
  PerformanceAdaptor.mk (PyFloat.of_Z 12) PyFloat.f3_0 (PyFloat.of_Z 1000)
    (repeat PyFloat.f3_0 5) FRAME_SKIP IMG_SIZE.

(** The same with a full window of eight samples of 3.0 fps. *)
Definition full_slow_adaptor : PerformanceAdaptor.t :=
  PerformanceAdaptor.mk (PyFloat.of_Z 12) PyFloat.f3_0 (PyFloat.of_Z 1000)
    (repeat PyFloat.f3_0 8) FRAME_SKIP IMG_SIZE.

(** A channel that holds no more than its capacity. *)
Definition within_capacity {A : Type} (q : Queue.t A) : Prop :=
  Queue.maxsize q = BUFFER_SIZE /\ Queue.qsize q <= BUFFER_SIZE.

(** A channel at its capacity. *)
Definition at_capacity {A : Type} (q : Queue.t A) : Prop :=
  Queue.maxsize q = BUFFER_SIZE /\ Queue.qsize q = BUFFER_SIZE.

(** The inference stage with its frame counter advanced by one. *)
Definition counted (self : YOLOProcessor.t) : YOLOProcessor.t :=
  YOLOProcessor.mk (YOLOProcessor.img_size self) (YOLOProcessor.conf_thres self)
    (YOLOProcessor.frame_skip self) (YOLOProcessor.frame_count self + 1).

(** A 1x1 frame from the camera, and a frame channel holding three of them. *)
Definition tiny_xbgr : XFrame := [[(255, 10, 20, 30)]].
Definition tiny_rgb : Frame := to_rgb tiny_xbgr.
Definition full_frame_queue : Queue.t Frame :=
  Queue.mk [tiny_rgb; tiny_rgb; tiny_rgb] BUFFER_SIZE.

(** A channel with its single producer and its consumer running
    concurrently, each call on the queue being atomic.  The producer is
    either before its [full()] test ([None]) or between a test that found
    room and the [put] of the item it holds; the consumer may take an item
    at any moment. *)
Inductive channel_step {A : Type}
  : Queue.t A * option A -> Queue.t A * option A -> Prop :=
| producer_finds_full (q : Queue.t A) (x : A) :
    Queue.full q = true -> channel_step (q, None) (q, None)
| producer_finds_room (q : Queue.t A) (x : A) :
    Queue.full q = false -> channel_step (q, None) (q, Some x)
| producer_puts (q q' : Queue.t A) (x : A) :
    Queue.put q x false = Queue.Stored q' ->
    channel_step (q, Some x) (q', None)
| producer_put_raises (q : Queue.t A) (x : A) (e : exn) :
    Queue.put q x false = Queue.PutRaises e ->
    channel_step (q, Some x) (q, None)
| consumer_gets (q q' : Queue.t A) (y : A) (held : option A) :
    Queue.get q = Ok (y, q') -> channel_step (q, held) (q', held).

Inductive channel_reachable {A : Type} : Queue.t A * option A -> Prop :=
| channel_created : channel_reachable (Queue.create A BUFFER_SIZE, None)
| channel_moved (s s' : Queue.t A * option A) :
    channel_reachable s -> channel_step s s' -> channel_reachable s'.

Definition channels_ok (p : Main.t) : Prop :=
  within_capacity (Main.frame_queue p) /\ within_capacity (Main.result_queue p).

(** Every coordinate of a detection inside the frame, axis by axis. *)
Definition clamped (wh : Z * Z) (d : det) : Prop :=
  let '(w, h) := wh in
  let '(x1, y1, x2, y2, _) := d in
  (0 <= x1 < w /\ 0 <= x2 < w) /\ (0 <= y1 < h /\ 0 <= y2 < h).

(** Box coordinates inside a frame of the given width and height. *)
Definition in_frame (wh : Z * Z) (c : Z * Z * Z * Z) : Prop :=
  let '(w, h) := wh in
  let '(x1, y1, x2, y2) := c in
  (0 <= x1 <= x2 /\ x2 < w) /\ (0 <= y1 <= y2 /\ y2 < h).

Definition coords (d : det) : Z * Z * Z * Z :=
  let '(x1, y1, x2, y2, _) := d in (x1, y1, x2, y2).

(** The four coordinates of a model box, each passed through [int]. *)
Definition box_ints (b : Box) : result (Z * Z * Z * Z) :=
  let '(x1, y1, x2, y2) := xyxy b in
  ix1 <- PyFloat.to_int x1 ;;
  iy1 <- PyFloat.to_int y1 ;;
  ix2 <- PyFloat.to_int x2 ;;
  iy2 <- PyFloat.to_int y2 ;;
  Ok (ix1, iy1, ix2, iy2).

(** [conf >= conf_thres] *)
Definition confident (conf_thres : float) (b : Box) : bool :=
  PyFloat.leb conf_thres (conf b).

(** The boxes of [results[0]]. *)
Definition boxes_of (results : list Results) : list Box :=
  match results with
  | [] => []
  | r :: _ => boxes r
  end.

(** A detection model that answers every frame with one box reaching
    outside a 1280x720 frame, with confidence 0.9. *)
Definition wild_model (_ : Frame) : result (list Results) :=
  Ok [mkResults [(0, "person")]
        [mkBox (PyFloat.of_Z (-5), PyFloat.of_Z (-3),
                PyFloat.of_Z 2000, PyFloat.of_Z 900)
               (PyFloat.of_ratio 9 10) (PyFloat.of_Z 0)]].

(** A parser and font metrics for concrete runs: plain decimal literals,
    and a font six pixels wide and eleven high. *)
Definition decimal_float (s : string) : option float :=
  match PyStr.float_of_decimal s with
  | Ok f => Some f
  | Raise _ => None
  end.

Definition fixed_font (s : string) : Z * Z :=
  (6 * Z.of_nat (String.length s), 11).

(** The inference stage after one frame under [FRAME_SKIP = 2], so that its
    next frame is inferred; a frame channel with one frame; the result
    channel as created, and after the box of [wild_model] was published. *)
Definition ready_processor : YOLOProcessor.t :=
  counted (YOLOProcessor.init IMG_SIZE CONF_THRES FRAME_SKIP).

Definition one_frame_queue : Queue.t Frame := Queue.mk [tiny_rgb] BUFFER_SIZE.

Definition empty_results : Queue.t (Frame * list det) :=
  Queue.create (Frame * list det) BUFFER_SIZE.

Definition full_results : Queue.t (Frame * list det) :=
  Queue.mk [(tiny_rgb, []); (tiny_rgb, []); (tiny_rgb, [])] BUFFER_SIZE.

Definition wild_results : Queue.t (Frame * list det) :=
  Queue.mk [(tiny_rgb, [(-5, -3, 2000, 900, "person 0.90")])] BUFFER_SIZE.

(** A detection model that answers every frame with the box
    [{10, 10, 50, 50, "person", 0.9}]. *)
Definition calm_model (_ : Frame) : result (list Results) :=
  Ok [mkResults [(0, "person")]
        [mkBox (PyFloat.of_Z 10, PyFloat.of_Z 10, PyFloat.of_Z 50, PyFloat.of_Z 50)
               (PyFloat.of_ratio 9 10) (PyFloat.of_Z 0)]].

(** A pass of [main]'s loop at [halves / 2] seconds on the clock. *)
Definition display_at (halves : Z) : Main.event :=
  Main.Display (PyFloat.of_ratio halves 2) (PyFloat.of_ratio halves 2).

(** Ten passes of [main]'s loop half a second apart, from 1000.5 s to
    1005.0 s: the display runs at 2 fps. *)
Definition slow_display : list Main.event :=
  map display_at [2001; 2002; 2003; 2004; 2005; 2006; 2007; 2008; 2009; 2010].

(** Two frames captured and two passes of the inference thread. *)
Definition two_frames : list Main.event :=
  [Main.Capture (Ok tiny_xbgr); Main.Capture (Ok tiny_xbgr); Main.Infer; Main.Infer].

(** [main] entering its loop at 1000.0 s. *)
Definition pipeline_start : Main.t := Main.start (PyFloat.of_Z 1000) (PyFloat.of_Z 1000).

Definition pipeline_run (model : Frame -> result (list Results))
  (evs : list Main.event) : Main.t :=
  fst (Main.run model decimal_float fixed_font pipeline_start evs).

(** Two classes of the COCO names whose first word is the same, a glove and
    a bat ten pixels apart as the model reports them, and the detections
    the inference stage makes of them. *)
Definition coco_names : list (Z * string) :=
  [(0, "person"); (2, "car"); (34, "baseball bat"); (35, "baseball glove")].

Definition glove_box : Box :=
  mkBox (PyFloat.of_Z 100, PyFloat.of_Z 100, PyFloat.of_Z 200, PyFloat.of_Z 200)
        (PyFloat.of_ratio 9 10) (PyFloat.of_Z 35).

Definition bat_box : Box :=
  mkBox (PyFloat.of_Z 110, PyFloat.of_Z 110, PyFloat.of_Z 150, PyFloat.of_Z 150)
        (PyFloat.of_ratio 9 10) (PyFloat.of_Z 34).

Definition glove : det := (100, 100, 200, 200, "baseball glove 0.90").
Definition bat : det := (110, 110, 150, 150, "baseball bat 0.90").

(** The smoother as [main] builds it. *)
Definition fresh_smoother : DetectionSmoother.t :=
  DetectionSmoother.init SMOOTHING_FACTOR 5.

(** The compositor's filter in the words of the design: the confidence the
    trailing token of a label parses to, and whether it is below the floor
    of 0.5. *)
Definition trailing_confidence (py_float : string -> option float)
  (label : string) : option float :=
  match PyStr.last (PyStr.split label) with
  | Ok p => py_float p
  | Raise _ => None
  end.

Definition below_floor (py_float : string -> option float) (label : string)
  : bool :=
  match trailing_confidence py_float label with
  | Some c => PyFloat.ltb c PyFloat.f0_5
  | None => false
  end.

(** A label of two tokens or more. *)
Definition several_tokens (label : string) : bool :=
  (1 <? List.length (PyStr.split label))%nat.

(** What the design draws for a detection that passes the filter: the
    outlined rectangle, and the label when the box area exceeds 2000. *)
Definition box_ops (textbbox : string -> Z * Z) (d : det)
  : list Overlay.draw_op :=
  Overlay.outline_rectangle d
  :: (if 2000 <? Overlay.box_area d then Overlay.label_ops textbbox d else []).

(** The FPS readout on its own. *)
Definition fps_ops (textbbox : string -> Z * Z) (fps : option float)
  : list Overlay.draw_op :=
  Overlay.ops (Overlay.draw_fps textbbox (Overlay.mkImage (0, 0) []) fps).

(** A large box whose label is the single token "0.30". *)
Definition bare_confidence : det := (10, 10, 100, 100, "0.30").

(** ** A constant detection stream *)

(** The smoother after [n] calls of [smooth_detections] with the same
    detection set [D], and what call number [n + 1] returns. *)
Fixpoint smoother_after (n : nat) (self : DetectionSmoother.t) (D : list det)
  : DetectionSmoother.t :=
  match n with
  | O => self
  | S n' =>
      fst (DetectionSmoother.smooth_detections (smoother_after n' self D) D)
  end.

Definition next_output (n : nat) (self : DetectionSmoother.t) (D : list det)
  : result (list det) :=
  snd (DetectionSmoother.smooth_detections (smoother_after n self D) D).

(** The same labels and every coordinate within one pixel. *)
Definition within_rounding (d o : det) : Prop :=
  DetectionSmoother.d_label o = DetectionSmoother.d_label d
  /\ Z.abs (DetectionSmoother.d_x1 o - DetectionSmoother.d_x1 d) <= 1
  /\ Z.abs (DetectionSmoother.d_y1 o - DetectionSmoother.d_y1 d) <= 1
  /\ Z.abs (DetectionSmoother.d_x2 o - DetectionSmoother.d_x2 d) <= 1
  /\ Z.abs (DetectionSmoother.d_y2 o - DetectionSmoother.d_y2 d) <= 1.

(** "After enough iterations the returned set equals [D], with no drift
    beyond integer rounding." *)
Definition settles_on_input (D : list det) : Prop :=
  exists N : nat,
    forall n : nat, (N <= n)%nat ->
      exists out,
        next_output n fresh_smoother D = Ok out /\ Forall2 within_rounding D out.

(** Two people forty pixels apart in one frame. *)
Definition crowd : list det :=
  [(0, 0, 10, 10, "person 0.90"); (40, 40, 100, 100, "person 0.90")].

Definition crowd_smoothed : list det :=
  [(16, 16, 46, 46, "person 0.90"); (24, 24, 64, 64, "person 0.90")].

(** The conditions under which a constant stream is returned unchanged:
    every label has a token, every coordinate fits in 52 bits, and no two
    entries of the set are of the same leading label token with corners
    [(x1, y1)] less than 50 pixels apart on both axes. *)
Definition labelled (d : det) : Prop :=
  PyStr.split (DetectionSmoother.d_label d) <> [].

Definition in_52_bits (d : det) : Prop :=
  Z.abs (DetectionSmoother.d_x1 d) < 2 ^ 52
  /\ Z.abs (DetectionSmoother.d_y1 d) < 2 ^ 52
  /\ Z.abs (DetectionSmoother.d_x2 d) < 2 ^ 52
  /\ Z.abs (DetectionSmoother.d_y2 d) < 2 ^ 52.

Definition near (d h : det) : Prop :=
  let '(x1, y1, _, _, label) := d in
  let '(hx1, hy1, _, _, hlabel) := h in
  (exists token rest hrest,
      PyStr.split label = token :: rest /\ PyStr.split hlabel = token :: hrest)
  /\ Z.abs (x1 - hx1) < 50
  /\ Z.abs (y1 - hy1) < 50.

Definition separate (D : list det) : Prop :=
  ForallOrdPairs (fun d h => ~ near d h) D.

(** The same in the terms of the code: the smoother's test answers
    [False]. *)
Definition dissimilar (d h : det) : Prop :=
  DetectionSmoother.similar d h = Ok false.

Definition far_apart (D : list det) : Prop := ForallOrdPairs dissimilar D.

(** A person, a car whose corner is five pixels from the person's, a
    second person two hundred pixels away, and a person far outside any
    frame. *)
Definition street : list det :=
  [ (10, 10, 50, 50, "person 0.90");
    (15, 12, 300, 200, "car 0.80");
    (210, 10, 260, 90, "person 0.85");
    (9000, 20000, 9100, 20100, "person 0.75") ].

(** A coordinate of 53 bits, [5 * 2^50 + 9]. *)
Definition wide_coordinate : Z := 5629499534213129.

(** ** Rounding in binary64, by integer arithmetic *)

(** [m / 2^n] rounded to the nearest integer, ties to even. *)
Definition rne (m n : Z) : Z :=
  let q := m / 2 ^ n in
  match 2 * (m mod 2 ^ n) ?= 2 ^ n with
  | Lt => q
  | Eq => if Z.even q then q else q + 1
  | Gt => q + 1
  end.

(** ** Vocabulary of the further properties *)

(** The last [n] entries of a list. *)
Definition lastn {A : Type} (n : nat) (l : list A) : list A :=
  skipn (List.length l - n) l.

(** The smoother after a sequence of [smooth_detections] calls, one per
    detection set, whether or not a call raised. *)
Definition smoother_fed (self : DetectionSmoother.t) (inputs : list (list det))
  : DetectionSmoother.t :=
  fold_left (fun s D => fst (DetectionSmoother.smooth_detections s D))
            inputs self.

(** A smoother that keeps a single detection set. *)
Definition forgetful_smoother : DetectionSmoother.t :=
  DetectionSmoother.init SMOOTHING_FACTOR 1.

(** A detection set with one label made of spaces only. *)
Definition blank_label : det := (5, 5, 9, 9, "  ").

(** The number of calls of a run in which the gate of [update_performance]
    was met. *)
Fixpoint evaluations (self : PerformanceAdaptor.t) (calls : list (float * float))
  : nat :=
  match calls with
  | [] => 0
  | c :: rest =>
      ((if PerformanceAdaptor.gate self
             (deque_append 8 (PerformanceAdaptor.fps_history self) (fst c))
             (snd c)
        then 1 else 0)
       + evaluations
           (fst (PerformanceAdaptor.update_performance self (fst c) (snd c)))
           rest)%nat
  end.

(** A run in which every evaluation finds the average of the window below
    0.8 times the target, and one in which every evaluation finds it above
    1.3 times the target. *)
Fixpoint always_slow (self : PerformanceAdaptor.t) (calls : list (float * float))
  : Prop :=
  match calls with
  | [] => True
  | c :: rest =>
      let window :=
        deque_append 8 (PerformanceAdaptor.fps_history self) (fst c) in
      (PerformanceAdaptor.gate self window (snd c) = true ->
       degrades self (PerformanceAdaptor.avg window))
      /\ always_slow
           (fst (PerformanceAdaptor.update_performance self (fst c) (snd c)))
           rest
  end.

Fixpoint always_fast (self : PerformanceAdaptor.t) (calls : list (float * float))
  : Prop :=
  match calls with
  | [] => True
  | c :: rest =>
      let window :=
        deque_append 8 (PerformanceAdaptor.fps_history self) (fst c) in
      (PerformanceAdaptor.gate self window (snd c) = true ->
       improves self (PerformanceAdaptor.avg window))
      /\ always_fast
           (fst (PerformanceAdaptor.update_performance self (fst c) (snd c)))
           rest
  end.

(** The adaptor as [main] builds it at 1000.0 s, and a stream of the same
    fps sample once a second from 1001.0 s on. *)
Definition main_adaptor : PerformanceAdaptor.t :=
  PerformanceAdaptor.init (PyFloat.of_Z 12) PyFloat.f3_0 (PyFloat.of_Z 1000).

Definition steady_stream (fps : float) (seconds : list Z) : list (float * float) :=
  map (fun t => (fps, PyFloat.of_Z t)) seconds.

Definition eleven_seconds : list Z :=
  [1001; 1002; 1003; 1004; 1005; 1006; 1007; 1008; 1009; 1010; 1011].

(** The frame channel after the capture thread made one pass for each of
    the frames the camera delivered, with no consumer in between. *)
Definition capture_frames (xs : list XFrame) (q : Queue.t Frame) : Queue.t Frame :=
  fold_left (fun q x => fst (FrameCapture.run_body (Ok x) false q)) xs q.

(** Camera frames told apart by the value of one channel. *)
Definition numbered_xbgr (n : Z) : XFrame := [[(255, 0, 0, n)]].

(** [n] passes of the inference thread, ended early by a [break]. *)
Fixpoint infer_passes (model : Frame -> result (list Results)) (n : nat)
  (self : YOLOProcessor.t) (fq : Queue.t Frame) (rq : Queue.t (Frame * list det))
  : YOLOProcessor.t * Queue.t Frame * Queue.t (Frame * list det) * flow :=
  match n with
  | O => (self, fq, rq, Next)
  | S n' =>
      let '(self', fq', rq', (f, _)) :=
        YOLOProcessor.run_body model false self fq rq in
      match f with
      | Next => infer_passes model n' self' fq' rq'
      | _ => (self', fq', rq', f)
      end
  end.

(** The frames the decimation lets through, out of frames that arrive
    when the counter stands at [c]: those whose ordinal is a multiple of
    [k]. *)
Fixpoint decimated (k c : Z) (frames : list Frame) : list Frame :=
  match frames with
  | [] => []
  | f :: rest =>
      if (c + 1) mod k =? 0 then f :: decimated k (c + 1) rest
      else decimated k (c + 1) rest
  end.

(** What the inference stage makes of a frame. *)
Definition detect (model : Frame -> result (list Results)) (conf_thres : float)
  (rgb : Frame) : result (list det) :=
  results <- model rgb ;;
  YOLOProcessor.process_results conf_thres results.

(** A box the loop over the boxes cannot get past: its class index does
    not convert to an [int], or it is confident and a coordinate does not
    convert or its class index has no name. *)
Definition bad_box (conf_thres : float) (names : list (Z * string)) (b : Box)
  : Prop :=
  (exists e, PyFloat.to_int (cls b) = Raise e)
  \/ (confident conf_thres b = true
      /\ ((exists e, box_ints b = Raise e)
          \/ exists k, PyFloat.to_int (cls b) = Ok k
                       /\ dict_get names k = Raise KeyError)).

(** A model that reports a confident box of a class it has no name for. *)
Definition nameless_model (_ : Frame) : result (list Results) :=
  Ok [mkResults [(0, "person")]
        [mkBox (PyFloat.of_Z 10, PyFloat.of_Z 10, PyFloat.of_Z 50, PyFloat.of_Z 50)
               (PyFloat.of_ratio 9 10) (PyFloat.of_Z 7)]].

(** Every label waiting in the result channel or held in the smoother's
    history has a token. *)
Definition labels_ok (p : Main.t) : Prop :=
  Forall (fun item : Frame * list det => Forall labelled (snd item))
         (Queue.items (Main.result_queue p))
  /\ Forall (Forall labelled)
            (DetectionSmoother.detection_history (Main.smoother p)).




(** A small box with a high score and one with a low score. *)
Definition small_sure : det := (10, 10, 30, 30, "person 0.90").
Definition large_unsure : det := (10, 10, 100, 100, "person 0.40").

(** ** Confidences as they are printed and read back *)

(** The numeral [format(c, ".2f")] writes for [n] hundredths. *)
Definition two_decimals (n : Z) : string :=
  (PyFloat.digits_of (n / 100) ++ "." ++ PyFloat.frac_digits 2 (n mod 100))%string.

(** The number of hundredths a confidence that is not negative prints as:
    its exact value times 100, rounded to an integer, ties to even. *)
Definition hundredths (c : float) : option Z :=
  match c with
  | S754_zero false => Some 0
  | S754_finite false m e =>
      Some (if 0 <=? e then Zpos m * 2 ^ e * 100
            else PyFloat.round_half_even (Zpos m * 100) (2 ^ (- e)))
  | _ => None
  end.

(** The numeral of [n] hundredths is one word, and read back as a float it
    is below 0.5 exactly when [n < 50]. *)
Definition score_reads_back (n : Z) : bool :=
  match PyStr.split (two_decimals n) with
  | [t] => String.eqb t (two_decimals n)
  | _ => false
  end
  && match decimal_float (two_decimals n) with
     | Some v => Bool.eqb (PyFloat.ltb v PyFloat.f0_5) (n <? 50)
     | None => false
     end.

Fixpoint scores_read_back (k : nat) : bool :=
  match k with
  | O => score_reads_back 0
  | S k' => score_reads_back (Z.of_nat k) && scores_read_back k'
  end.

(** A confidence a little below one half that prints as 0.50. *)
Definition nearly_half : float := PyFloat.of_ratio 4951 10000.

(** ** What the adaptor measures *)

(** Two pipelines with the same clock: the same tick time, pass counter,
    displayed fps, adaptor, and time of the last overlay. *)
Definition same_clock (p q : Main.t) : Prop :=
  Main.t_prev p = Main.t_prev q
  /\ Main.frames p = Main.frames q
  /\ Main.shown_fps p = Main.shown_fps q
  /\ Main.last_overlay p = Main.last_overlay q
  /\ Main.adaptor p = Main.adaptor q
  /\ Main.skip_size p = Main.skip_size q.

(** * Properties *)

(** ** The numeric layer on values CPython prints *)

(** [0.8], [1 - 0.8], [12 * 0.8] and [12 * 1.3] are
    [3602879701896397 / 2^52], [900719925474099 / 2^52],
    [1351079888211149 / 2^47] (9.600000000000001) and
    [2195504818343117 / 2^47] (15.600000000000001). *)
Example float_constants :
  PyFloat.f0_8 = S754_finite false (2 * 3602879701896397) (-53)
  /\ PyFloat.sub PyFloat.f1_0 PyFloat.f0_8
     = S754_finite false (8 * 900719925474099) (-55)
  /\ PyFloat.mul (PyFloat.of_Z 12) PyFloat.f0_8
     = S754_finite false (4 * 1351079888211149) (-49)
  /\ PyFloat.mul (PyFloat.of_Z 12) PyFloat.f1_3
     = S754_finite false (4 * 2195504818343117) (-49).
Proof. repeat split; vm_compute; reflexivity. Qed.

(** [int(-7.9)], [int(7.9)], [f"{0.135:.2f}"], [f"{2.675:.2f}"],
    [f"{-0.05:.1f}"] and [f"{29.97:.1f}"]. *)
Example float_conversions :
  PyFloat.to_int (PyFloat.of_ratio (-79) 10) = Ok (-7)
  /\ PyFloat.to_int (PyFloat.of_ratio 79 10) = Ok 7
  /\ PyFloat.format_fixed 2 (PyFloat.of_ratio 135 1000) = "0.14"
  /\ PyFloat.format_fixed 2 (PyFloat.of_ratio 2675 1000) = "2.67"
  /\ PyFloat.format_fixed 1 (PyFloat.of_ratio (-5) 100) = "-0.1"
  /\ PyFloat.format_fixed 1 (PyFloat.of_ratio 2997 100) = "30.0".
Proof. repeat split; vm_compute; reflexivity. Qed.

(** [split] on a label with runs of spaces and on the empty string;
    [float] on a decimal literal and on a token that is no number. *)
Example string_functions :
  PyStr.split "  baseball bat   0.90 " = ["baseball"; "bat"; "0.90"]
  /\ PyStr.split EmptyString = []
  /\ PyStr.float_of_decimal "0.30" = Ok (PyFloat.of_ratio 3 10)
  /\ PyStr.float_of_decimal "n/a" = Raise ValueError.
Proof. repeat split; vm_compute; reflexivity. Qed.

(** ** The performance adaptor *)

Section Adaptor.

Import PerformanceAdaptor.

Lemma adjust_cases (self : t) (a : float) :
  forall k s, adjust self a = (k, s) ->
    (k = current_skip self /\ s = current_img_size self)
    \/ (current_skip self < 4 /\ k = current_skip self + 1
        /\ s = current_img_size self)
    \/ (4 <= current_skip self /\ 320 < current_img_size self
        /\ k = current_skip self /\ s = Z.max 320 (current_img_size self - 96))
    \/ (1 < current_skip self /\ k = current_skip self - 1
        /\ s = current_img_size self)
    \/ (current_skip self <= 1 /\ current_img_size self < IMG_SIZE
        /\ k = current_skip self /\ s = Z.min IMG_SIZE (current_img_size self + 96)).
Proof.
  intros k s. unfold adjust.
  destruct (PyFloat.ltb a _).
  - destruct (Z.ltb_spec (current_skip self) 4).
    + intros E; inversion E; subst. right; left. lia.
    + destruct (Z.ltb_spec 320 (current_img_size self)).
      * intros E; inversion E; subst. right; right; left. lia.
      * intros E; inversion E; subst. left. lia.
  - destruct (PyFloat.ltb _ a).
    + destruct (Z.ltb_spec 1 (current_skip self)).
      * intros E; inversion E; subst. right; right; right; left. lia.
      * destruct (Z.ltb_spec (current_img_size self) IMG_SIZE).
        -- intros E; inversion E; subst. right; right; right; right. lia.
        -- intros E; inversion E; subst. left. lia.
    + intros E; inversion E; subst. left. lia.
Qed.

Lemma update_performance_knobs (self : t) (fps now : float) :
  let self' := fst (update_performance self fps now) in
  (current_skip self', current_img_size self')
  = snd (update_performance self fps now)
  /\ (gate self (deque_append 8 (fps_history self) fps) now = false ->
      current_skip self' = current_skip self
      /\ current_img_size self' = current_img_size self)
  /\ (gate self (deque_append 8 (fps_history self) fps) now = true ->
      (current_skip self', current_img_size self')
      = adjust self (avg (deque_append 8 (fps_history self) fps))).
Proof.
  unfold update_performance.
  destruct (gate self _ now).
  - destruct (adjust self _) as [k s]. cbn. repeat split; try discriminate; auto.
  - cbn. repeat split; try discriminate; auto.
Qed.

Lemma knobs_ok_update (self : t) (fps now : float) :
  knobs_ok self -> knobs_ok (fst (update_performance self fps now)).
Proof.
  intros [Hk Hs].
  destruct (update_performance_knobs self fps now) as (_ & Hoff & Hon).
  destruct (gate self _ now).
  - specialize (Hon eq_refl).
    destruct (adjust self _) as [k s] eqn:E.
    inversion Hon as [[Ek Es]].
    unfold knobs_ok. rewrite Ek, Es.
    apply adjust_cases in E. unfold IMG_SIZE in *.
    destruct E as [E|[E|[E|[E|E]]]]; lia.
  - destruct (Hoff eq_refl) as [Ek Es].
    unfold knobs_ok. rewrite Ek, Es. auto.
Qed.

Lemma knobs_ok_after (calls : list (float * float)) :
  forall self, knobs_ok self -> knobs_ok (adaptor_after self calls).
Proof.
  induction calls as [|c calls IH]; intros self H; cbn; auto.
  apply IH. now apply knobs_ok_update.
Qed.

(** C5. From the state [__init__] builds, whatever the target, the interval
    and the sequence of fps inputs and clock readings: the decimation factor
    stays in [1, 4], the resolution stays in [320, IMG_SIZE], and one more
    call leaves the resolution where it is or moves it by exactly 96. *)
Theorem adaptor_knobs_stay_in_range :
  forall (target interval t0 : float) (calls : list (float * float)),
    let self := adaptor_after (init target interval t0) calls in
    1 <= current_skip self <= 4
    /\ 320 <= current_img_size self <= IMG_SIZE
    /\ forall fps now,
        let self' := fst (update_performance self fps now) in
        current_img_size self' = current_img_size self
        \/ current_img_size self' = current_img_size self + 96
        \/ current_img_size self' = current_img_size self - 96.
Proof.
  intros target interval t0 calls self.
  assert (H : knobs_ok self).
  { apply knobs_ok_after. unfold knobs_ok, init, FRAME_SKIP; cbn. lia. }
  destruct H as [Hk Hs].
  split; [exact Hk|]. split; [unfold IMG_SIZE in *; lia|].
  intros fps now self'.
  destruct (update_performance_knobs self fps now) as (_ & Hoff & Hon).
  fold self' in Hoff, Hon.
  destruct (gate self _ now).
  - specialize (Hon eq_refl).
    destruct (adjust self _) as [k s] eqn:E.
    inversion Hon as [[Ek Es]]. rewrite Es.
    apply adjust_cases in E. unfold IMG_SIZE in *.
    destruct E as [E|[E|[E|[E|E]]]]; lia.
  - destruct (Hoff eq_refl) as [_ Es]. left. exact Es.
Qed.

Lemma gate_spec (self : t) (window : list float) (now : float) :
  gate self window now = true <->
  PyFloat.leb (adjustment_interval self)
              (PyFloat.sub now (last_adjustment self)) = true
  /\ (5 <= List.length window)%nat.
Proof.
  unfold gate. rewrite andb_true_iff, Nat.leb_le. tauto.
Qed.

Lemma deque_append_last {A : Type} (n : nat) (l : list A) (x : A) :
  exists dropped,
    l ++ [x] = dropped ++ deque_append n l x
    /\ List.length (deque_append n l x) = Nat.min n (S (List.length l)).
Proof.
  unfold deque_append.
  exists (firstn (List.length (l ++ [x]) - n) (l ++ [x])). split.
  - symmetry. apply firstn_skipn.
  - rewrite length_skipn, length_app. cbn [List.length]. lia.
Qed.

Lemma deque_append_constant {A : Type} (n : nat) (l : list A) (x : A) :
  Forall (eq x) l ->
  deque_append n l x = repeat x (Nat.min n (S (List.length l))).
Proof.
  intros F.
  assert (E : l ++ [x] = repeat x (S (List.length l))).
  { replace (S (List.length l)) with (List.length l + 1)%nat by lia.
    rewrite repeat_app. cbn [repeat]. f_equal.
    induction F as [|y l <- _ IH]; cbn; [reflexivity|]. now rewrite <- IH. }
  unfold deque_append. rewrite E, repeat_length.
  remember (S (List.length l)) as m. clear.
  assert (G : forall k j : nat, skipn k (repeat x (k + j)) = repeat x j).
  { induction k as [|k IH]; intros j; cbn; auto. }
  destruct (Nat.le_gt_cases m n) as [H|H].
  - replace (m - n)%nat with 0%nat by lia.
    replace (Nat.min n m) with m by lia. reflexivity.
  - replace (Nat.min n m) with n by lia.
    replace (repeat x m) with (repeat x ((m - n) + n)) by (f_equal; lia).
    apply G.
Qed.

Lemma avg_slow_window (m : nat) :
  (5 <= m <= 8)%nat -> avg (repeat PyFloat.f3_0 m) = PyFloat.f3_0.
Proof.
  intros H.
  do 5 (destruct m as [|m]; [lia|]).
  do 4 (destruct m as [|m]; [vm_compute; reflexivity|]). lia.
Qed.

(** C6, as the code has it.  (1) In a constant stream of 3.0 fps with a
    target of 12: when the stored samples are all 3.0, at least four of
    them are stored, the sample of the call is 3.0, the interval has
    elapsed and the decimation factor is below 4, the call leaves the
    adaptor with the decimation factor plus one and the resolution it had,
    stamps the adjustment with the current time, and returns these two
    knobs.  (2) Every call, with [a] the float sum of the last eight
    samples, the new one included, added from the left and divided by
    their number, and the gate being "interval elapsed and at least five
    samples": the returned pair is the pair of knobs of the new state;
    with the gate met and [a < 0.8 * target], the decimation factor rises
    by one while it is below 4 (resolution unchanged), and at 4 the
    resolution drops by 96, not below 320, while it is above 320; with the
    gate met and [a > 1.3 * target], the decimation factor falls by one while
    it is above 1 (resolution unchanged), and at 1 the resolution rises by
    96, not above [IMG_SIZE], while it is below [IMG_SIZE]; in every other
    case both knobs are unchanged; so the two knobs never change in the
    same call. *)
Theorem low_fps_raises_decimation_first :
  (forall (self : t) (fps now : float),
      target_fps self = PyFloat.of_Z 12 ->
      Forall (eq PyFloat.f3_0) (fps_history self) ->
      (4 <= List.length (fps_history self))%nat ->
      fps = PyFloat.f3_0 ->
      PyFloat.leb (adjustment_interval self)
                  (PyFloat.sub now (last_adjustment self)) = true ->
      current_skip self < 4 ->
      let self' := fst (update_performance self fps now) in
      current_skip self' = current_skip self + 1
      /\ current_img_size self' = current_img_size self
      /\ last_adjustment self' = now
      /\ snd (update_performance self fps now)
         = (current_skip self + 1, current_img_size self))
  /\ (forall (self : t) (fps now : float),
        let window := lastn 8 (fps_history self ++ [fps]) in
        let a :=
          PyFloat.div (fold_left PyFloat.add window (PyFloat.of_Z 0))
                      (PyFloat.of_Z (Z.of_nat (List.length window))) in
        let met :=
          PyFloat.leb (adjustment_interval self)
                      (PyFloat.sub now (last_adjustment self)) = true
          /\ (5 <= List.length window)%nat in
        let low :=
          PyFloat.ltb a (PyFloat.mul (target_fps self) PyFloat.f0_8) = true in
        let high :=
          PyFloat.ltb a (PyFloat.mul (target_fps self) PyFloat.f0_8) = false
          /\ PyFloat.ltb (PyFloat.mul (target_fps self) PyFloat.f1_3) a = true in
        let k := current_skip self in
        let s := current_img_size self in
        let self' := fst (update_performance self fps now) in
        let k' := current_skip self' in
        let s' := current_img_size self' in
        snd (update_performance self fps now) = (k', s')
        /\ (met -> low -> k < 4 -> k' = k + 1 /\ s' = s)
        /\ (met -> low -> 4 <= k -> 320 < s ->
            k' = k /\ s' = Z.max 320 (s - 96))
        /\ (met -> low -> 4 <= k -> s <= 320 -> k' = k /\ s' = s)
        /\ (met -> high -> 1 < k -> k' = k - 1 /\ s' = s)
        /\ (met -> high -> k <= 1 -> s < IMG_SIZE ->
            k' = k /\ s' = Z.min IMG_SIZE (s + 96))
        /\ (met -> high -> k <= 1 -> IMG_SIZE <= s -> k' = k /\ s' = s)
        /\ (~ met \/ (~ low /\ ~ high) -> k' = k /\ s' = s)
        /\ (k' = k \/ s' = s)).
Proof.
  split.
  - intros self fps now Ht Hf Hn -> Hi Hk self'. subst self'.
    unfold update_performance.
    rewrite (deque_append_constant 8 (fps_history self) PyFloat.f3_0 Hf).
    unfold gate. rewrite Hi, repeat_length.
    replace (5 <=? Nat.min 8 (S (List.length (fps_history self))))%nat
      with true by (symmetry; apply Nat.leb_le; lia).
    cbn [andb]. rewrite avg_slow_window by lia.
    unfold adjust. rewrite Ht.
    replace (PyFloat.ltb PyFloat.f3_0 (PyFloat.mul (PyFloat.of_Z 12) PyFloat.f0_8))
      with true by (vm_compute; reflexivity).
    apply Z.ltb_lt in Hk. rewrite Hk. cbn. auto.
  - intros self fps now window a met low high k s self' k' s'.
    assert (G : gate self window now = true <-> met) by apply gate_spec.
    subst self' k' s'. unfold update_performance.
    change (deque_append 8 (fps_history self) fps) with window.
    destruct (gate self window now) eqn:E.
    + assert (M : met) by (apply G; reflexivity).
      change (avg window) with a.
      unfold adjust. fold k s. subst low high.
      destruct (PyFloat.ltb a (PyFloat.mul (target_fps self) PyFloat.f0_8)).
      * destruct (Z.ltb_spec k 4); [|destruct (Z.ltb_spec 320 s)]; cbn;
          repeat split; intros; try lia; try tauto;
          try match goal with H : _ /\ _ |- _ => destruct H; discriminate end;
          try match goal with
              | H : _ \/ _ |- _ =>
                  destruct H as [?|[H _]]; [tauto|exfalso; apply H; reflexivity]
              end.
      * destruct (PyFloat.ltb (PyFloat.mul (target_fps self) PyFloat.f1_3) a).
        -- destruct (Z.ltb_spec 1 k); [|destruct (Z.ltb_spec s IMG_SIZE)]; cbn;
             repeat split; intros; try lia; try discriminate; try tauto;
             try match goal with
                 | H : _ \/ _ |- _ =>
                     destruct H as [?|[_ H]]; [tauto|exfalso; apply H; auto]
                 end.
        -- cbn. repeat split; intros; try discriminate; try tauto;
             try match goal with H : _ /\ _ |- _ => destruct H; discriminate end.
    + assert (M : ~ met) by (intros M; apply G in M; discriminate).
      cbn. repeat split; intros; try tauto.
Qed.

Lemma low_fps_raises_decimation_first_witness :
  (current_skip
     (fst (update_performance slow_adaptor PyFloat.f3_0 (PyFloat.of_Z 1010))) = 3
   /\ current_img_size
        (fst (update_performance slow_adaptor PyFloat.f3_0 (PyFloat.of_Z 1010)))
      = 416
   /\ last_adjustment
        (fst (update_performance slow_adaptor PyFloat.f3_0 (PyFloat.of_Z 1010)))
      = PyFloat.of_Z 1010
   /\ snd (update_performance slow_adaptor PyFloat.f3_0 (PyFloat.of_Z 1010))
      = (3, 416))
  /\ (current_skip
        (fst (update_performance full_slow_adaptor PyFloat.f3_0 (PyFloat.of_Z 1010)))
      = 3
      /\ current_img_size
           (fst (update_performance full_slow_adaptor PyFloat.f3_0
                   (PyFloat.of_Z 1010)))
         = 416
      /\ last_adjustment
           (fst (update_performance full_slow_adaptor PyFloat.f3_0
                   (PyFloat.of_Z 1010)))
         = PyFloat.of_Z 1010
      /\ snd (update_performance full_slow_adaptor PyFloat.f3_0 (PyFloat.of_Z 1010))
         = (3, 416)).
Proof.
  split.
  - apply (proj1 low_fps_raises_decimation_first slow_adaptor PyFloat.f3_0
             (PyFloat.of_Z 1010)).
    + reflexivity.
    + repeat constructor.
    + vm_compute. lia.
    + reflexivity.
    + vm_compute. reflexivity.
    + vm_compute. reflexivity.
  - apply (proj1 low_fps_raises_decimation_first full_slow_adaptor PyFloat.f3_0
             (PyFloat.of_Z 1010)).
    + reflexivity.
    + repeat constructor.
    + vm_compute. lia.
    + reflexivity.
    + vm_compute. reflexivity.
    + vm_compute. reflexivity.
Defined.

(** C6, as stated, fails: the window holds five samples averaging 3.0 with
    a target of 12, the interval has elapsed and the decimation factor is
    2; the next call brings a sample of 100 fps, the average of the window
    it evaluates is above [1.3 * 12], and the decimation factor falls to
    1. *)
Lemma fast_sample_after_slow_window_lowers_decimation :
  (5 <= List.length (fps_history settled_slow_adaptor))%nat
  /\ avg (fps_history settled_slow_adaptor) = PyFloat.f3_0
  /\ target_fps settled_slow_adaptor = PyFloat.of_Z 12
  /\ PyFloat.leb (adjustment_interval settled_slow_adaptor)
       (PyFloat.sub (PyFloat.of_Z 1010) (last_adjustment settled_slow_adaptor))
     = true
  /\ current_skip settled_slow_adaptor = 2
  /\ current_img_size settled_slow_adaptor = 416
  /\ update_performance settled_slow_adaptor (PyFloat.of_Z 100) (PyFloat.of_Z 1010)
     = (mk (PyFloat.of_Z 12) PyFloat.f3_0 (PyFloat.of_Z 1010)
           (repeat PyFloat.f3_0 5 ++ [PyFloat.of_Z 100]) 1 416,
        (1, 416)).
Proof.
  repeat split; vm_compute; reflexivity.
Qed.

(** C7. [update_performance] always appends the sample to the window: the
    new window is the end of the old one followed by the sample, cut to the
    last eight.  Its gate is: at least 5 samples in the window, the new one
    counted, and at least [adjustment_interval] elapsed since the last
    adjustment.  When the gate is met the timestamp becomes the current
    time, whatever the average; when it is not met the timestamp and both
    knobs are unchanged; so the knobs change only when the gate is met.
    Target and interval are never changed. *)
Theorem adaptor_gate :
  forall (self : t) (fps now : float),
    let self' := fst (update_performance self fps now) in
    let met :=
      PyFloat.leb (adjustment_interval self)
                  (PyFloat.sub now (last_adjustment self)) = true
      /\ (5 <= S (List.length (fps_history self)))%nat in
    (exists dropped,
        fps_history self ++ [fps] = dropped ++ fps_history self'
        /\ List.length (fps_history self')
           = Nat.min 8 (S (List.length (fps_history self))))
    /\ (met -> last_adjustment self' = now)
    /\ (~ met ->
        last_adjustment self' = last_adjustment self
        /\ current_skip self' = current_skip self
        /\ current_img_size self' = current_img_size self)
    /\ ((current_skip self' <> current_skip self
         \/ current_img_size self' <> current_img_size self) -> met)
    /\ target_fps self' = target_fps self
    /\ adjustment_interval self' = adjustment_interval self.
Proof.
  intros self fps now self' met.
  pose (window := deque_append 8 (fps_history self) fps).
  destruct (deque_append_last 8 (fps_history self) fps) as (dropped & Hd & Hl).
  fold window in Hd, Hl.
  assert (G : gate self window now = true <-> met).
  { rewrite gate_spec. subst met. rewrite Hl. split; intros [A B]; split; auto; lia. }
  subst self'. unfold update_performance. fold window.
  destruct (gate self window now) eqn:E.
  - assert (M : met) by (apply G; reflexivity).
    destruct (adjust self (avg window)) as [k s]. cbn.
    split; [exists dropped; auto|]. split; [reflexivity|].
    split; [intros N; contradiction|]. split; [intros _; exact M|]. auto.
  - assert (M : ~ met) by (intros M; apply G in M; discriminate).
    cbn. split; [exists dropped; auto|]. split; [intros N; contradiction|].
    split; [auto|]. split; [intros [N|N]; congruence|]. auto.
Qed.

End Adaptor.

(** ** The bounded channels *)

Ltac break_match :=
  match goal with
  | |- context [match ?x with _ => _ end] => destruct x eqn:?
  end.

Lemma full_at_capacity {A : Type} (q : Queue.t A) :
  at_capacity q -> Queue.full q = true.
Proof.
  intros [Hm Hs]. unfold Queue.full. rewrite Hm, Hs. reflexivity.
Qed.

Lemma put_nonblocking {A : Type} (q : Queue.t A) (x : A) :
  Queue.put q x false <> Queue.Waits.
Proof.
  unfold Queue.put. destruct (Queue.full q); discriminate.
Qed.

Lemma put_stored {A : Type} (q q' : Queue.t A) (x : A) (b : bool) :
  Queue.put q x b = Queue.Stored q' ->
  Queue.maxsize q' = Queue.maxsize q
  /\ Queue.qsize q' = Queue.qsize q + 1
  /\ (0 < Queue.maxsize q -> Queue.qsize q < Queue.maxsize q).
Proof.
  unfold Queue.put. destruct (Queue.full q) eqn:F.
  - destruct b; discriminate.
  - intros E. inversion E; subst. unfold Queue.qsize; cbn.
    rewrite length_app; cbn. repeat split; try lia.
    intros Hpos. unfold Queue.full in F.
    apply andb_false_iff in F. destruct F as [F|F].
    + apply Z.ltb_ge in F. lia.
    + apply Z.leb_gt in F. unfold Queue.qsize in F. lia.
Qed.

Lemma put_within_capacity {A : Type} (q q' : Queue.t A) (x : A) (b : bool) :
  within_capacity q -> Queue.put q x b = Queue.Stored q' -> within_capacity q'.
Proof.
  intros [Hm Hs] E. apply put_stored in E. destruct E as (Em & Es & Hlt).
  unfold within_capacity. rewrite Em, Es, Hm in *.
  split; [reflexivity|]. unfold BUFFER_SIZE in *. lia.
Qed.

Lemma get_within_capacity {A : Type} (q q' : Queue.t A) (x : A) :
  within_capacity q -> Queue.get q = Ok (x, q') -> within_capacity q'.
Proof.
  intros [Hm Hs]. unfold Queue.get. destruct (Queue.items q) eqn:I; [discriminate|].
  intros E. inversion E; subst. unfold within_capacity, Queue.qsize in *; cbn.
  rewrite I in Hs. cbn [List.length] in Hs. split; [exact Hm|lia].
Qed.

Lemma capture_body_capacity (c : result XFrame) (stop : bool) (q : Queue.t Frame) :
  within_capacity q -> within_capacity (fst (FrameCapture.run_body c stop q)).
Proof.
  intros H. unfold FrameCapture.run_body.
  repeat break_match; cbn; auto.
  eapply put_within_capacity; eauto.
Qed.

Lemma capture_body_never_blocks (c : result XFrame) (stop : bool) (q : Queue.t Frame) :
  fst (snd (FrameCapture.run_body c stop q)) <> Blocked.
Proof.
  unfold FrameCapture.run_body, FrameCapture.handler.
  repeat break_match; cbn; try discriminate.
  exfalso. eapply put_nonblocking; eauto.
Qed.

Lemma processor_body_capacity (model : Frame -> result (list Results))
  (stop : bool) (self : YOLOProcessor.t) (fq : Queue.t Frame)
  (rq : Queue.t (Frame * list det)) :
  within_capacity fq -> within_capacity rq ->
  forall self' fq' rq' out,
    YOLOProcessor.run_body model stop self fq rq = (self', fq', rq', out) ->
    within_capacity fq' /\ within_capacity rq'.
Proof.
  intros Hf Hr self' fq' rq' out. unfold YOLOProcessor.run_body.
  repeat break_match; intros E; inversion E; subst; split; auto;
    try (eapply get_within_capacity; eauto; fail);
    try (eapply put_within_capacity; eauto; fail).
Qed.

Lemma processor_body_never_blocks (model : Frame -> result (list Results))
  (stop : bool) (self : YOLOProcessor.t) (fq : Queue.t Frame)
  (rq : Queue.t (Frame * list det)) :
  fst (snd (YOLOProcessor.run_body model stop self fq rq)) <> Blocked.
Proof.
  unfold YOLOProcessor.run_body, YOLOProcessor.handler.
  repeat break_match; cbn; try discriminate.
  exfalso. eapply put_nonblocking; eauto.
Qed.

Lemma get_not_full {A : Type} (q q' : Queue.t A) (x : A) :
  Queue.full q = false -> Queue.get q = Ok (x, q') -> Queue.full q' = false.
Proof.
  unfold Queue.get. destruct (Queue.items q) eqn:I; [discriminate|].
  intros F E. inversion E; subst. unfold Queue.full, Queue.qsize in *; cbn.
  rewrite I in F. cbn [List.length] in F.
  apply andb_false_iff in F. apply andb_false_iff.
  destruct F as [F|F]; [left; exact F|right].
  apply Z.leb_gt in F. apply Z.leb_gt. lia.
Qed.

Lemma channel_invariant {A : Type} (s : Queue.t A * option A) :
  channel_reachable s ->
  within_capacity (fst s) /\ (snd s <> None -> Queue.full (fst s) = false).
Proof.
  induction 1 as [|s s' R [IHc IHh] St].
  - cbn. split; [|congruence]. unfold within_capacity; cbn.
    unfold BUFFER_SIZE. split; [reflexivity|lia].
  - destruct St; cbn in *.
    + auto.
    + split; auto.
    + split; [eapply put_within_capacity; eauto|congruence].
    + split; [auto|congruence].
    + split; [eapply get_within_capacity; eauto|].
      intros Hh. eapply get_not_full; eauto.
Qed.

Section Pipeline.

Variable model : Frame -> result (list Results).
Variable py_float : string -> option float.
Variable textbbox : string -> Z * Z.

Lemma capture_step_channels (c : result XFrame) (stop : bool) (p : Main.t) :
  channels_ok p -> channels_ok (Main.capture_step c stop p).
Proof.
  intros [Hf Hr]. unfold Main.capture_step.
  destruct (Main.capture_alive p); [|split; auto].
  pose proof (capture_body_capacity c stop _ Hf) as H.
  destruct (FrameCapture.run_body c stop (Main.frame_queue p)) as [q [f out]].
  split; cbn in *; auto.
Qed.

Lemma infer_step_channels (stop : bool) (p : Main.t) :
  channels_ok p -> channels_ok (Main.infer_step model stop p).
Proof.
  intros [Hf Hr]. unfold Main.infer_step.
  destruct (Main.processor_alive p); [|split; auto].
  destruct (YOLOProcessor.run_body model stop (Main.processor p)
              (Main.frame_queue p) (Main.result_queue p))
    as [[[self fq] rq] [f out]] eqn:E.
  apply processor_body_capacity in E; auto.
Qed.

Lemma display_step_channels (now now' : float) (p : Main.t) :
  channels_ok p ->
  channels_ok (fst (Main.display_step py_float textbbox now now' p)).
Proof.
  intros [Hf Hr]. unfold Main.display_step.
  assert (Hq : within_capacity
                 (match Queue.get (Main.result_queue p) with
                  | Ok (_, rq') => rq'
                  | Raise _ => Main.result_queue p
                  end)).
  { destruct (Queue.get (Main.result_queue p)) as [[x rq']|e] eqn:G; auto.
    eapply get_within_capacity; eauto. }
  destruct (Queue.get (Main.result_queue p)) as [[[rgb dets] rq']|e] eqn:G.
  - destruct (DetectionSmoother.smooth_detections (Main.smoother p) dets)
      as [sm' [smoothed|e]]; cbn.
    + repeat break_match; split; cbn; auto.
    + split; cbn; auto.
  - repeat break_match; split; cbn; auto.
Qed.

Lemma run_channels (evs : list Main.event) :
  forall p, channels_ok p ->
    channels_ok (fst (Main.run model py_float textbbox p evs)).
Proof.
  induction evs as [|ev evs IH]; intros p H; cbn; auto.
  assert (H' : channels_ok (fst (Main.step model py_float textbbox p ev))).
  { destruct ev; cbn.
    - now apply capture_step_channels.
    - now apply infer_step_channels.
    - now apply display_step_channels. }
  destruct (Main.step model py_float textbbox p ev) as [p' [e|]]; cbn in *; auto.
Qed.

End Pipeline.

(** C8. A publish on a channel that holds [BUFFER_SIZE] items leaves the
    channel as it is, prints nothing, raises nothing and goes on to the next
    pass: in the capture stage for every captured frame, in the inference
    stage for every frame that reached the publish.  Neither stage is ever
    suspended in a [put].  In every run of the pipeline both channels hold
    at most [BUFFER_SIZE] items, and so does a channel whose producer and
    consumer interleave call by call, where a [put] that follows a [full()]
    test that found room is never refused. *)
Theorem publish_on_full_channel :
  (forall (xbgr : XFrame) (stop : bool) (fq : Queue.t Frame),
      at_capacity fq ->
      FrameCapture.run_body (Ok xbgr) stop fq = (fq, (Next, [])))
  /\ (forall (model : Frame -> result (list Results)) (stop : bool)
        (self : YOLOProcessor.t) (fq fq' : Queue.t Frame)
        (rq : Queue.t (Frame * list det)) (rgb : Frame) (dets : list det),
        at_capacity rq ->
        Queue.get fq = Ok (rgb, fq') ->
        py_mod (YOLOProcessor.frame_count self + 1)
               (YOLOProcessor.frame_skip self) = Ok 0 ->
        (results <- model rgb ;;
         YOLOProcessor.process_results (YOLOProcessor.conf_thres self) results)
        = Ok dets ->
        YOLOProcessor.run_body model stop self fq rq
        = (counted self, fq', rq, (Next, [])))
  /\ (forall (c : result XFrame) (stop : bool) (fq : Queue.t Frame),
        fst (snd (FrameCapture.run_body c stop fq)) <> Blocked)
  /\ (forall (model : Frame -> result (list Results)) (stop : bool)
        (self : YOLOProcessor.t) (fq : Queue.t Frame)
        (rq : Queue.t (Frame * list det)),
        fst (snd (YOLOProcessor.run_body model stop self fq rq)) <> Blocked)
  /\ (forall (model : Frame -> result (list Results))
        (py_float : string -> option float) (textbbox : string -> Z * Z)
        (now now' : float) (evs : list Main.event),
        let p := fst (Main.run model py_float textbbox (Main.start now now') evs) in
        Queue.qsize (Main.frame_queue p) <= BUFFER_SIZE
        /\ Queue.qsize (Main.result_queue p) <= BUFFER_SIZE)
  /\ (forall (A : Type) (q : Queue.t A) (held : option A),
        channel_reachable (q, held) ->
        Queue.qsize q <= BUFFER_SIZE
        /\ forall x, held = Some x -> exists q', Queue.put q x false = Queue.Stored q').
Proof.
  split; [|split; [|split; [|split; [|split]]]].
  - intros xbgr stop fq H. unfold FrameCapture.run_body.
    rewrite (full_at_capacity _ H). reflexivity.
  - intros model stop self fq fq' rq rgb dets H G M D.
    unfold YOLOProcessor.run_body. rewrite G. cbn [YOLOProcessor.frame_count
      YOLOProcessor.frame_skip YOLOProcessor.conf_thres].
    rewrite M. cbn [Z.eqb negb]. rewrite D.
    rewrite (full_at_capacity _ H). reflexivity.
  - apply capture_body_never_blocks.
  - apply processor_body_never_blocks.
  - intros model py_float textbbox now now' evs p.
    assert (H : channels_ok p).
    { apply run_channels. split; split; cbn; unfold BUFFER_SIZE; try reflexivity; lia. }
    destruct H as [[_ Hf] [_ Hr]]. auto.
  - intros A q held R. apply channel_invariant in R. cbn in R.
    destruct R as [[_ Hs] Hh]. split; [exact Hs|].
    intros x E. unfold Queue.put. rewrite Hh by congruence. eauto.
Qed.

Lemma publish_on_full_channel_witness :
  (at_capacity full_frame_queue
   /\ FrameCapture.run_body (Ok tiny_xbgr) false full_frame_queue
      = (full_frame_queue, (Next, [])))
  /\ (at_capacity full_results
      /\ YOLOProcessor.run_body calm_model false ready_processor
           one_frame_queue full_results
         = (counted ready_processor, Queue.mk [] BUFFER_SIZE, full_results,
            (Next, []))).
Proof.
  assert (H : at_capacity full_frame_queue) by (split; reflexivity).
  assert (H' : at_capacity full_results) by (split; reflexivity).
  split; (split; [assumption|]).
  - exact (proj1 publish_on_full_channel tiny_xbgr false full_frame_queue H).
  - apply (proj1 (proj2 publish_on_full_channel) calm_model false
             ready_processor one_frame_queue (Queue.mk [] BUFFER_SIZE)
             full_results tiny_rgb [(10, 10, 50, 50, "person 0.90")] H').
    + reflexivity.
    + reflexivity.
    + vm_compute. reflexivity.
Defined.

(** ** The inference stage *)

Lemma add_box_cases (thres : float) (names : list (Z * string))
  (dets dets' : list det) (b : Box) :
  YOLOProcessor.add_box thres names dets b = Ok dets' ->
  (confident thres b = true
   /\ exists d, dets' = dets ++ [d] /\ box_ints b = Ok (coords d))
  \/ (confident thres b = false /\ dets' = dets).
Proof.
  unfold YOLOProcessor.add_box, confident, box_ints.
  destruct (xyxy b) as [[[x1 y1] x2] y2].
  destruct (PyFloat.to_int (cls b)) as [k|e]; cbn [bind]; [|discriminate].
  destruct (PyFloat.leb thres (conf b)).
  - destruct (PyFloat.to_int x1) as [ix1|e]; cbn [bind]; [|discriminate].
    destruct (PyFloat.to_int y1) as [iy1|e]; cbn [bind]; [|discriminate].
    destruct (PyFloat.to_int x2) as [ix2|e]; cbn [bind]; [|discriminate].
    destruct (PyFloat.to_int y2) as [iy2|e]; cbn [bind]; [|discriminate].
    destruct (dict_get names k) as [name|e]; cbn [bind]; [|discriminate].
    intros E. inversion E; subst. left. split; [reflexivity|].
    eexists. split; [reflexivity|reflexivity].
  - intros E. inversion E; subst. right. auto.
Qed.

Lemma add_boxes_truncates (thres : float) (names : list (Z * string))
  (bs : list Box) :
  forall dets out,
    YOLOProcessor.add_boxes thres names dets bs = Ok out ->
    exists new,
      out = dets ++ new
      /\ Forall2 (fun b d => box_ints b = Ok (coords d))
                 (filter (confident thres) bs) new.
Proof.
  induction bs as [|b bs IH]; intros dets out; cbn.
  - intros E. inversion E; subst. exists []. rewrite app_nil_r. auto.
  - destruct (YOLOProcessor.add_box thres names dets b) as [dets'|e] eqn:B;
      cbn [bind]; [|discriminate].
    intros E. apply IH in E. destruct E as (new & -> & F).
    apply add_box_cases in B.
    destruct B as [(C & d & -> & Hd)|(C & ->)]; rewrite C.
    + exists (d :: new). rewrite <- app_assoc. split; [reflexivity|].
      constructor; auto.
    + exists new. auto.
Qed.

Lemma process_results_truncates (thres : float) (results : list Results)
  (dets : list det) :
  YOLOProcessor.process_results thres results = Ok dets ->
  Forall2 (fun b d => box_ints b = Ok (coords d))
          (filter (confident thres) (boxes_of results)) dets.
Proof.
  unfold YOLOProcessor.process_results, boxes_of.
  destruct results as [|r rest].
  - intros E. inversion E; subst. constructor.
  - intros E. apply add_boxes_truncates in E.
    destruct E as (new & -> & F). exact F.
Qed.

Lemma put_stored_items {A : Type} (q q' : Queue.t A) (x : A) (b : bool) :
  Queue.put q x b = Queue.Stored q' -> Queue.items q' = Queue.items q ++ [x].
Proof.
  unfold Queue.put. destruct (Queue.full q); [destruct b; discriminate|].
  intros E. inversion E; subst. reflexivity.
Qed.

Lemma sibling_add_box_clamped (wh : Z * Z) (names : list (Z * string))
  (dets dets' : list det) (b : Box) :
  0 < fst wh -> 0 < snd wh ->
  YoloPrediction.add_box wh names dets b = Ok dets' ->
  Forall (clamped wh) dets -> Forall (clamped wh) dets'.
Proof.
  destruct wh as [W H]. cbn [fst snd]. intros HW HH.
  unfold YoloPrediction.add_box.
  destruct (xyxy b) as [[[x1 y1] x2] y2].
  destruct (PyFloat.to_int (cls b)) as [k|e]; cbn [bind]; [|discriminate].
  destruct (PyFloat.to_int x1) as [ix1|e]; cbn [bind]; [|discriminate].
  destruct (PyFloat.to_int y1) as [iy1|e]; cbn [bind]; [|discriminate].
  destruct (PyFloat.to_int x2) as [ix2|e]; cbn [bind]; [|discriminate].
  destruct (PyFloat.to_int y2) as [iy2|e]; cbn [bind]; [|discriminate].
  destruct (dict_get names k) as [name|e]; cbn [bind]; [|discriminate].
  intros E F. inversion E; subst. apply Forall_app. split; [exact F|].
  constructor; [|constructor]. unfold clamped. lia.
Qed.

Lemma sibling_add_boxes_clamped (wh : Z * Z) (names : list (Z * string))
  (bs : list Box) :
  0 < fst wh -> 0 < snd wh ->
  forall dets out,
    YoloPrediction.add_boxes wh names dets bs = Ok out ->
    Forall (clamped wh) dets -> Forall (clamped wh) out.
Proof.
  intros HW HH. induction bs as [|b bs IH]; intros dets out; cbn.
  - intros E F. inversion E; subst. exact F.
  - destruct (YoloPrediction.add_box wh names dets b) as [dets'|e] eqn:B;
      cbn [bind]; [|discriminate].
    intros E F. eapply IH; eauto. eapply sibling_add_box_clamped; eauto.
Qed.

(** C2 does not hold of the code.  In the pipeline as [main] builds it, a
    model box with corners (-5, -3) and (2000, 900) and confidence 0.9 is
    published as it is, outside the 1280x720 frame: the loop only applies
    [int] to the coordinates.  The loop of [yolo_prediction.py], the same
    statements in the same order, passes every coordinate through
    [max(0, min(int(x), W-1))]: there the same box becomes
    (0, 0, 1279, 719), and every detection that loop yields has its four
    coordinates inside the frame. *)
Theorem published_box_outside_frame :
  Main.result_queue (pipeline_run wild_model two_frames)
  = Queue.mk [(tiny_rgb, [(-5, -3, 2000, 900, "person 0.90")])] BUFFER_SIZE
  /\ ~ in_frame CAM_RES (-5, -3, 2000, 900)
  /\ (results <- wild_model tiny_rgb ;;
      YoloPrediction.process_results CAM_RES results)
     = Ok [(0, 0, 1279, 719, "person 0.90")]
  /\ in_frame CAM_RES (0, 0, 1279, 719)
  /\ (forall (W H : Z) (results : list Results) (dets : list det),
        0 < W -> 0 < H ->
        YoloPrediction.process_results (W, H) results = Ok dets ->
        Forall (fun d : det =>
                  let '(x1, y1, x2, y2, _) := d in
                  (0 <= x1 < W /\ 0 <= x2 < W) /\ (0 <= y1 < H /\ 0 <= y2 < H))
               dets).
Proof.
  split; [vm_compute; reflexivity|].
  split; [cbn; lia|].
  split; [vm_compute; reflexivity|].
  split; [cbn; lia|].
  intros W H results dets HW HH E.
  assert (F : Forall (clamped (W, H)) dets).
  { unfold YoloPrediction.process_results in E.
    destruct results as [|r rest].
    - inversion E; subst. constructor.
    - eapply (sibling_add_boxes_clamped (W, H)); eauto. }
  eapply Forall_impl; [|exact F].
  intros [[[[x1 y1] x2] y2] label]. exact (fun K => K).
Qed.

(** ** The decimation factor of the inference stage *)

Lemma processor_body_frame_skip (model : Frame -> result (list Results))
  (stop : bool) (self : YOLOProcessor.t) (fq : Queue.t Frame)
  (rq : Queue.t (Frame * list det)) :
  forall self' fq' rq' out,
    YOLOProcessor.run_body model stop self fq rq = (self', fq', rq', out) ->
    YOLOProcessor.frame_skip self' = YOLOProcessor.frame_skip self.
Proof.
  intros self' fq' rq' out. unfold YOLOProcessor.run_body.
  repeat break_match; intros E; inversion E; subst; reflexivity.
Qed.

Lemma step_frame_skip (model : Frame -> result (list Results))
  (py_float : string -> option float) (textbbox : string -> Z * Z)
  (p : Main.t) (ev : Main.event) :
  YOLOProcessor.frame_skip
    (Main.processor (fst (Main.step model py_float textbbox p ev)))
  = YOLOProcessor.frame_skip (Main.processor p).
Proof.
  destruct ev; cbn.
  - unfold Main.capture_step. repeat break_match; reflexivity.
  - unfold Main.infer_step. destruct (Main.processor_alive p); [|reflexivity].
    destruct (YOLOProcessor.run_body _ _ _ _ _) as [[[self fq] rq] [f out]] eqn:E.
    cbn. eapply processor_body_frame_skip; eauto.
  - unfold Main.display_step. repeat break_match; reflexivity.
Qed.

Lemma run_frame_skip (model : Frame -> result (list Results))
  (py_float : string -> option float) (textbbox : string -> Z * Z)
  (evs : list Main.event) :
  forall p,
    YOLOProcessor.frame_skip
      (Main.processor (fst (Main.run model py_float textbbox p evs)))
    = YOLOProcessor.frame_skip (Main.processor p).
Proof.
  induction evs as [|ev evs IH]; intros p; cbn; [reflexivity|].
  pose proof (step_frame_skip model py_float textbbox p ev) as H.
  destruct (Main.step model py_float textbbox p ev) as [p' [e|]]; cbn in *.
  - exact H.
  - rewrite IH. exact H.
Qed.

(** C1 does not hold of the code.  In every run of the pipeline the
    inference stage decimates by the [FRAME_SKIP] it was constructed with:
    [main] stores what [update_performance] returns in two locals and hands
    nothing to the stage.  In the run below the display shows 2 fps for five
    seconds, the adaptor raises its decimation factor to 3, and the
    inference stage then infers its second frame, although 2 is not a
    multiple of 3. *)
Theorem decimation_factor_fixed_at_construction :
  (forall (model : Frame -> result (list Results))
     (py_float : string -> option float) (textbbox : string -> Z * Z)
     (now now' : float) (evs : list Main.event),
      YOLOProcessor.frame_skip
        (Main.processor
           (fst (Main.run model py_float textbbox (Main.start now now') evs)))
      = FRAME_SKIP)
  /\ (let p := pipeline_run calm_model slow_display in
      PerformanceAdaptor.current_skip (Main.adaptor p) = 3
      /\ Main.skip_size p = Some (3, 416)
      /\ YOLOProcessor.frame_skip (Main.processor p) = 2)
  /\ (let p := pipeline_run calm_model (slow_display ++ two_frames) in
      PerformanceAdaptor.current_skip (Main.adaptor p) = 3
      /\ YOLOProcessor.frame_count (Main.processor p) = 2
      /\ 2 mod 3 <> 0
      /\ Queue.items (Main.result_queue p)
         = [(tiny_rgb, [(10, 10, 50, 50, "person 0.90")])]).
Proof.
  split; [|split].
  - intros. rewrite run_frame_skip. reflexivity.
  - vm_compute. repeat split; reflexivity.
  - vm_compute. repeat split; try reflexivity. discriminate.
Qed.

(** ** The detection smoother *)

Lemma similar_same_first_token (d h : det) :
  DetectionSmoother.similar d h = Ok true ->
  PyStr.first (PyStr.split (DetectionSmoother.d_label d))
  = PyStr.first (PyStr.split (DetectionSmoother.d_label h)).
Proof.
  destruct d as [[[[x1 y1] x2] y2] label], h as [[[[hx1 hy1] hx2] hy2] hlabel].
  unfold DetectionSmoother.similar, DetectionSmoother.d_label.
  destruct (PyStr.first (PyStr.split label)) as [a|e]; cbn [bind]; [|discriminate].
  destruct (PyStr.first (PyStr.split hlabel)) as [b|e]; cbn [bind]; [|discriminate].
  intros E. inversion E as [H].
  apply andb_true_iff in H. destruct H as [H _].
  apply andb_true_iff in H. destruct H as [H _].
  apply String.eqb_eq in H. now subst.
Qed.

(** C3 does not hold of the code.  The inference stage labels a glove
    "baseball glove 0.90" and a bat "baseball bat 0.90"; the smoother
    compares the first word of the labels only, so the glove of the frame
    before is among the detections averaged for the bat, and the bat comes
    out at (106, 106, 170, 170) instead of (110, 110, 150, 150). *)
Theorem smoother_blends_baseball_bat_with_glove :
  YOLOProcessor.process_results CONF_THRES [mkResults coco_names [glove_box]]
  = Ok [glove]
  /\ YOLOProcessor.process_results CONF_THRES [mkResults coco_names [bat_box]]
     = Ok [bat]
  /\ DetectionSmoother.d_label glove <> DetectionSmoother.d_label bat
  /\ (let s1 := fst (DetectionSmoother.smooth_detections fresh_smoother [glove]) in
      let s2 := fst (DetectionSmoother.smooth_detections s1 [bat]) in
      DetectionSmoother.scan_history bat []
        (DetectionSmoother.detection_history s2)
      = Ok [glove; bat]
      /\ snd (DetectionSmoother.smooth_detections s1 [bat])
         = Ok [(106, 106, 170, 170, "baseball bat 0.90")]).
Proof.
  split; [vm_compute; reflexivity|].
  split; [vm_compute; reflexivity|].
  split; [discriminate|].
  split; vm_compute; reflexivity.
Qed.

(** ** The overlay compositor *)

Section Compositor.

Variable py_float : string -> option float.
Variable textbbox : string -> Z * Z.

Lemma skipped_spec (label : string) :
  Overlay.skipped py_float label
  = several_tokens label && below_floor py_float label.
Proof.
  unfold Overlay.skipped, several_tokens, below_floor, trailing_confidence.
  destruct (1 <? List.length (PyStr.split label))%nat; [|reflexivity].
  destruct (PyStr.last (PyStr.split label)); reflexivity.
Qed.

Lemma draw_detection_ops (img : Overlay.image) (d : det) :
  Overlay.draw_detection py_float textbbox img d
  = Overlay.draw img
      (if Overlay.skipped py_float (DetectionSmoother.d_label d) then []
       else box_ops textbbox d).
Proof.
  destruct d as [[[[x1 y1] x2] y2] label].
  unfold Overlay.draw_detection, box_ops, Overlay.draw; cbn [DetectionSmoother.d_label].
  destruct (Overlay.skipped py_float label).
  - rewrite app_nil_r. destruct img; reflexivity.
  - destruct (2000 <? Overlay.box_area _); cbn [Overlay.size Overlay.ops].
    + rewrite <- app_assoc. reflexivity.
    + reflexivity.
Qed.

Lemma draw_detections_ops (dets : list det) :
  forall img,
    fold_left (Overlay.draw_detection py_float textbbox) dets img
    = Overlay.draw img
        (flat_map
           (fun d =>
              if Overlay.skipped py_float (DetectionSmoother.d_label d) then []
              else box_ops textbbox d)
           dets).
Proof.
  induction dets as [|d dets IH]; intros img; cbn [fold_left flat_map].
  - unfold Overlay.draw. rewrite app_nil_r. destruct img; reflexivity.
  - rewrite IH, draw_detection_ops. unfold Overlay.draw; cbn [Overlay.size Overlay.ops].
    rewrite <- app_assoc. reflexivity.
Qed.

Lemma draw_fps_ops (img : Overlay.image) (fps : option float) :
  Overlay.ops (Overlay.draw_fps textbbox img fps)
  = Overlay.ops img ++ fps_ops textbbox fps.
Proof.
  unfold fps_ops, Overlay.draw_fps. destruct fps as [f|].
  - destruct (textbbox _) as [tw th]. reflexivity.
  - cbn. rewrite app_nil_r. reflexivity.
Qed.

Lemma make_overlay_ops (size_wh : Z * Z) (dets : list det) (fps : option float) :
  Overlay.ops (Overlay.make_overlay py_float textbbox size_wh dets fps)
  = flat_map
      (fun d =>
         if Overlay.skipped py_float (DetectionSmoother.d_label d) then []
         else box_ops textbbox d)
      dets
    ++ fps_ops textbbox fps.
Proof.
  unfold Overlay.make_overlay.
  rewrite draw_fps_ops, draw_detections_ops. reflexivity.
Qed.

End Compositor.

Section CompositorCalls.

Variable py_float : string -> option float.
Variable textbbox : string -> Z * Z.

Lemma box_ops_calls (x1 y1 x2 y2 : Z) (label : string) :
  box_ops textbbox (x1, y1, x2, y2, label)
  = Overlay.Rectangle (x1, y1, x2, y2) None (Some (0, 255, 0, 255)) 2
    :: (if 2000 <? (x2 - x1) * (y2 - y1)
        then
          [ Overlay.Rectangle
              (x1, Z.max 0 (y1 - snd (textbbox label) - 4),
               x1 + fst (textbbox label) + 4,
               Z.max 0 (y1 - snd (textbbox label) - 4)
               + snd (textbbox label) + 2)
              (Some (0, 255, 0, 180)) None 1;
            Overlay.Text (x1 + 2, Z.max 0 (y1 - snd (textbbox label) - 4))
                         label (0, 0, 0, 255) ]
        else []).
Proof.
  unfold box_ops, Overlay.outline_rectangle, Overlay.label_ops, Overlay.box_area.
  destruct (textbbox label) as [tw th]. reflexivity.
Qed.

Lemma fps_ops_calls (fps : option float) :
  fps_ops textbbox fps
  = match fps with
    | None => []
    | Some f =>
        let s := ("FPS: " ++ PyFloat.format_fixed 1 f)%string in
        [ Overlay.Rectangle
            (8, 8, 8 + fst (textbbox s) + 6, 8 + snd (textbbox s) + 4)
            (Some (0, 0, 0, 140)) None 1;
          Overlay.Text (10, 10) s (255, 255, 255, 255) ]
    end.
Proof.
  unfold fps_ops, Overlay.draw_fps. destruct fps as [f|]; [|reflexivity].
  cbn zeta. destruct (textbbox _) as [tw th]. reflexivity.
Qed.

End CompositorCalls.

(** C9, as the code has it.  Whatever [float] makes of a token and whatever
    the font: the drawing calls of [make_overlay] are, detection by
    detection and in order, nothing for a detection whose label has at
    least two tokens and whose trailing token parses to a confidence below
    0.5, and for every other detection the rectangle [x1, y1, x2, y2]
    outlined in green with width 2, followed, exactly when
    [(x2 - x1) * (y2 - y1) > 2000], by the filled label box and the label
    text at [(x1 + 2, max(0, y1 - th - 4))]; the FPS readout comes last. *)
Theorem overlay_filters_low_confidence :
  forall (py_float : string -> option float) (textbbox : string -> Z * Z)
    (size_wh : Z * Z) (dets : list det) (fps : option float),
    Overlay.ops (Overlay.make_overlay py_float textbbox size_wh dets fps)
    = flat_map
        (fun d : det =>
           let '(x1, y1, x2, y2, label) := d in
           if several_tokens label && below_floor py_float label then []
           else
             Overlay.Rectangle (x1, y1, x2, y2) None (Some (0, 255, 0, 255)) 2
             :: (if 2000 <? (x2 - x1) * (y2 - y1)
                 then
                   [ Overlay.Rectangle
                       (x1, Z.max 0 (y1 - snd (textbbox label) - 4),
                        x1 + fst (textbbox label) + 4,
                        Z.max 0 (y1 - snd (textbbox label) - 4)
                        + snd (textbbox label) + 2)
                       (Some (0, 255, 0, 180)) None 1;
                     Overlay.Text
                       (x1 + 2, Z.max 0 (y1 - snd (textbbox label) - 4))
                       label (0, 0, 0, 255) ]
                 else []))
        dets
      ++ match fps with
         | None => []
         | Some f =>
             let s := ("FPS: " ++ PyFloat.format_fixed 1 f)%string in
             [ Overlay.Rectangle
                 (8, 8, 8 + fst (textbbox s) + 6, 8 + snd (textbbox s) + 4)
                 (Some (0, 0, 0, 140)) None 1;
               Overlay.Text (10, 10) s (255, 255, 255, 255) ]
         end.
Proof.
  intros. rewrite make_overlay_ops, fps_ops_calls. f_equal.
  apply flat_map_ext. intros [[[[x1 y1] x2] y2] label].
  rewrite skipped_spec. cbn [DetectionSmoother.d_label].
  destruct (several_tokens label && below_floor py_float label);
    [reflexivity|apply box_ops_calls].
Qed.

(** C9, as stated, fails on a label of a single token: "0.30" parses to a
    confidence below 0.5, and the box is drawn with its label. *)
Lemma single_token_low_confidence_is_drawn :
  below_floor decimal_float (DetectionSmoother.d_label bare_confidence) = true
  /\ Overlay.ops
       (Overlay.make_overlay decimal_float fixed_font CAM_RES [bare_confidence] None)
     = [ Overlay.Rectangle (10, 10, 100, 100) None (Some (0, 255, 0, 255)) 2;
         Overlay.Rectangle (10, 0, 38, 13) (Some (0, 255, 0, 180)) None 1;
         Overlay.Text (12, 0) "0.30" (0, 0, 0, 255) ].
Proof.
  split; vm_compute; reflexivity.
Qed.

(** C10. A detection whose label is a single token (or has none), or whose
    last token [float] rejects, passes the compositor's filter: the loop
    body draws the rectangle [x1, y1, x2, y2] outlined in green with width
    2, then, exactly when the box area exceeds 2000, the filled label box
    and the label text at [(x1 + 2, max(0, y1 - th - 4))]; and in every
    overlay made from a list that holds the detection these calls are
    present. *)
Theorem overlay_filter_fails_open :
  forall (py_float : string -> option float) (textbbox : string -> Z * Z)
    (x1 y1 x2 y2 : Z) (label : string),
    ((List.length (PyStr.split label) <= 1)%nat
     \/ exists p, PyStr.last (PyStr.split label) = Ok p /\ py_float p = None) ->
    let rectangle :=
      Overlay.Rectangle (x1, y1, x2, y2) None (Some (0, 255, 0, 255)) 2 in
    let ylab := Z.max 0 (y1 - snd (textbbox label) - 4) in
    let label_box :=
      Overlay.Rectangle
        (x1, ylab, x1 + fst (textbbox label) + 4, ylab + snd (textbbox label) + 2)
        (Some (0, 255, 0, 180)) None 1 in
    let label_text := Overlay.Text (x1 + 2, ylab) label (0, 0, 0, 255) in
    (forall img,
        Overlay.ops
          (Overlay.draw_detection py_float textbbox img (x1, y1, x2, y2, label))
        = Overlay.ops img
          ++ rectangle
             :: (if 2000 <? (x2 - x1) * (y2 - y1)
                 then [label_box; label_text] else [])
        /\ Overlay.size
             (Overlay.draw_detection py_float textbbox img (x1, y1, x2, y2, label))
           = Overlay.size img)
    /\ (forall size_wh dets fps,
          In (x1, y1, x2, y2, label) dets ->
          let drawn :=
            Overlay.ops (Overlay.make_overlay py_float textbbox size_wh dets fps) in
          In rectangle drawn
          /\ (2000 < (x2 - x1) * (y2 - y1) ->
              In label_box drawn /\ In label_text drawn)).
Proof.
  intros py_float textbbox x1 y1 x2 y2 label H rectangle ylab label_box label_text.
  assert (S : Overlay.skipped py_float label = false).
  { unfold Overlay.skipped. destruct H as [H|(p & Hp & Hn)].
    - apply Nat.ltb_ge in H. rewrite H. reflexivity.
    - rewrite Hp, Hn. destruct (_ <? _)%nat; reflexivity. }
  pose proof (box_ops_calls textbbox x1 y1 x2 y2 label) as B.
  fold ylab in B. fold rectangle label_box label_text in B.
  split.
  - intros img. rewrite draw_detection_ops. cbn [DetectionSmoother.d_label].
    rewrite S, B. split; reflexivity.
  - intros size_wh dets fps Hin drawn. subst drawn.
    rewrite make_overlay_ops.
    assert (I : incl (box_ops textbbox (x1, y1, x2, y2, label))
                  (flat_map
                     (fun d0 =>
                        if Overlay.skipped py_float (DetectionSmoother.d_label d0)
                        then [] else box_ops textbbox d0) dets)).
    { intros op Hop. apply in_flat_map. exists (x1, y1, x2, y2, label).
      split; [exact Hin|]. cbn [DetectionSmoother.d_label]. rewrite S. exact Hop. }
    rewrite B in I. split.
    + apply in_or_app. left. apply I. left. reflexivity.
    + intros Ha. apply Z.ltb_lt in Ha. rewrite Ha in I.
      split; apply in_or_app; left; apply I; cbn; auto.
Qed.

Lemma overlay_filter_fails_open_witness :
  Overlay.ops
    (Overlay.draw_detection decimal_float fixed_font
       (Overlay.mkImage CAM_RES []) (10, 10, 100, 100, "person"))
  = [ Overlay.Rectangle (10, 10, 100, 100) None (Some (0, 255, 0, 255)) 2;
      Overlay.Rectangle (10, 0, 50, 13) (Some (0, 255, 0, 180)) None 1;
      Overlay.Text (12, 0) "person" (0, 0, 0, 255) ]
  /\ Overlay.ops
       (Overlay.draw_detection decimal_float fixed_font
          (Overlay.mkImage CAM_RES []) (10, 10, 40, 40, "person n/a"))
     = [ Overlay.Rectangle (10, 10, 40, 40) None (Some (0, 255, 0, 255)) 2 ].
Proof.
  split.
  - apply (proj1 (overlay_filter_fails_open decimal_float fixed_font
                    10 10 100 100 "person"
                    (or_introl (le_n 1)))
             (Overlay.mkImage CAM_RES [])).
  - apply (proj1 (overlay_filter_fails_open decimal_float fixed_font
                    10 10 40 40 "person n/a"
                    (or_intror (ex_intro _ "n/a" (conj eq_refl eq_refl))))
             (Overlay.mkImage CAM_RES [])).
Defined.

(** ** The smoother under a constant stream *)

Lemma crowd_history_saturates (n : nat) :
  smoother_after (5 + n) fresh_smoother crowd
  = smoother_after 5 fresh_smoother crowd.
Proof.
  induction n as [|n IH].
  - reflexivity.
  - replace (5 + S n)%nat with (S (5 + n)) by lia.
    cbn [smoother_after]. rewrite IH. vm_compute. reflexivity.
Qed.

Lemma crowd_output (n : nat) :
  (5 <= n)%nat -> next_output n fresh_smoother crowd = Ok crowd_smoothed.
Proof.
  intros H. replace n with (5 + (n - 5))%nat by lia.
  unfold next_output. rewrite crowd_history_saturates.
  vm_compute. reflexivity.
Qed.

(** C4, as stated, fails: with two people forty pixels apart in every
    frame, every call from the second on returns the boxes pulled toward
    each other by sixteen pixels and more, so the output never settles on
    the input. *)
Lemma constant_crowd_never_settles :
  next_output 1 fresh_smoother crowd = Ok crowd_smoothed
  /\ ~ settles_on_input crowd.
Proof.
  split; [vm_compute; reflexivity|].
  intros [N H].
  destruct (H (Nat.max N 5) (Nat.le_max_l N 5)) as (out & E & F).
  rewrite crowd_output in E by apply Nat.le_max_r.
  inversion E; subst out.
  inversion F as [|d o ds os W _]; subst.
  destruct W as (_ & W & _). cbn in W. lia.
Qed.

(** ** Rounding in binary64 *)

Section Rounding.

Lemma digits2_pos_size (p : positive) : digits2_pos p = Pos.size p.
Proof. induction p as [p IH|p IH|]; cbn; congruence. Qed.

Lemma digits2_pos_log2 (p : positive) :
  Zpos (digits2_pos p) = Z.log2 (Zpos p) + 1.
Proof.
  rewrite digits2_pos_size. destruct p as [p|p|]; cbn; try reflexivity;
    rewrite Pos.add_1_r; reflexivity.
Qed.

Lemma digits2_pos_bounds (p : positive) (k : Z) :
  2 ^ (k - 1) <= Zpos p < 2 ^ k -> Zpos (digits2_pos p) = k.
Proof.
  intros H. rewrite digits2_pos_log2.
  assert (0 < k).
  { destruct (Z_lt_le_dec 0 k) as [|N]; [assumption|].
    assert (2 ^ k <= 1).
    { destruct (Z.eq_dec k 0) as [->|]; [cbn; lia|].
      rewrite Z.pow_neg_r by lia. lia. }
    lia. }
  rewrite (Z.log2_unique (Zpos p) (k - 1)); [lia|lia|].
  replace (Z.succ (k - 1)) with k by lia. exact H.
Qed.

Lemma digits2_pos_range (p : positive) :
  2 ^ (Zpos (digits2_pos p) - 1) <= Zpos p < 2 ^ Zpos (digits2_pos p).
Proof.
  rewrite digits2_pos_log2.
  replace (Z.log2 (Zpos p) + 1 - 1) with (Z.log2 (Zpos p)) by lia.
  pose proof (Z.log2_spec (Zpos p) ltac:(lia)) as H.
  replace (Z.succ (Z.log2 (Zpos p))) with (Z.log2 (Zpos p) + 1) in H by lia.
  exact H.
Qed.

Lemma iter_pos_nat {A : Type} (f : A -> A) (p : positive) :
  forall x, iter_pos f p x = Nat.iter (Pos.to_nat p) f x.
Proof.
  induction p as [p IH|p IH|]; intros x; cbn [iter_pos].
  - rewrite !IH, Pos2Nat.inj_xI.
    replace (S (2 * Pos.to_nat p)) with (Pos.to_nat p + (Pos.to_nat p + 1))%nat
      by lia.
    rewrite !Nat.iter_add. reflexivity.
  - rewrite !IH, Pos2Nat.inj_xO.
    replace (2 * Pos.to_nat p)%nat with (Pos.to_nat p + Pos.to_nat p)%nat by lia.
    now rewrite Nat.iter_add.
  - reflexivity.
Qed.

Lemma shr_1_nonneg (m : Z) (r s : bool) :
  0 <= m ->
  shr_1 (Build_shr_record m r s) = Build_shr_record (m / 2) (Z.odd m) (r || s).
Proof.
  intros H. destruct m as [|p|p]; [reflexivity| |lia].
  destruct p as [p|p|]; cbn [shr_1 Z.odd].
  - f_equal. rewrite Pos2Z.inj_xI, Z.mul_comm, Z.div_add_l by lia.
    cbn. lia.
  - f_equal. rewrite Pos2Z.inj_xO, Z.mul_comm, Z.div_mul by lia. reflexivity.
  - reflexivity.
Qed.

Lemma shr_iter (m : Z) (k : nat) :
  0 <= m ->
  Nat.iter (S k) shr_1 (Build_shr_record m false false)
  = Build_shr_record (m / 2 ^ Z.of_nat (S k))
      (Z.odd (m / 2 ^ Z.of_nat k))
      (negb (m mod 2 ^ Z.of_nat k =? 0)).
Proof.
  intros H. induction k as [|k IH].
  - cbn [Nat.iter]. rewrite shr_1_nonneg by assumption.
    change (2 ^ Z.of_nat 1) with 2. change (2 ^ Z.of_nat 0) with 1.
    rewrite Z.div_1_r, Z.mod_1_r. reflexivity.
  - change (Nat.iter (S (S k)) shr_1 (Build_shr_record m false false))
      with (shr_1 (Nat.iter (S k) shr_1 (Build_shr_record m false false))).
    rewrite IH.
    assert (P : 0 < 2 ^ Z.of_nat k) by (apply Z.pow_pos_nonneg; lia).
    assert (E1 : 2 ^ Z.of_nat (S k) = 2 ^ Z.of_nat k * 2).
    { rewrite Nat2Z.inj_succ, Z.pow_succ_r by lia. lia. }
    assert (E2 : 2 ^ Z.of_nat (S (S k)) = 2 ^ Z.of_nat (S k) * 2).
    { rewrite (Nat2Z.inj_succ (S k)), Z.pow_succ_r by lia. lia. }
    rewrite shr_1_nonneg by (apply Z.div_pos; lia).
    f_equal.
    + rewrite E2, Z.div_div by lia. reflexivity.
    + rewrite E1. rewrite Z.rem_mul_r by lia.
      pose proof (Z.mod_pos_bound m (2 ^ Z.of_nat k) P) as B1.
      pose proof (Z.mod_pos_bound (m / 2 ^ Z.of_nat k) 2 ltac:(lia)) as B2.
      rewrite (Zmod_odd (m / 2 ^ Z.of_nat k)) in *.
      destruct (Z.odd (m / 2 ^ Z.of_nat k)); cbn [orb].
      * symmetry. apply negb_true_iff, Z.eqb_neq. lia.
      * rewrite Z.mul_0_r, Z.add_0_r. reflexivity.
Qed.

Lemma shr_exact (m : Z) (p : positive) :
  0 <= m ->
  let R := iter_pos shr_1 p (Build_shr_record m false false) in
  round_nearest_even (shr_m R) (loc_of_shr_record R) = rne m (Zpos p).
Proof.
  intros H R. subst R. rewrite iter_pos_nat.
  destruct (Pos2Nat.is_succ p) as [k Hk]. rewrite Hk, shr_iter by assumption.
  assert (Ep : Zpos p = Z.of_nat k + 1) by lia.
  unfold rne. rewrite Ep.
  replace (Z.of_nat (S k)) with (Z.of_nat k + 1) by lia.
  assert (P : 0 < 2 ^ Z.of_nat k) by (apply Z.pow_pos_nonneg; lia).
  assert (E1 : 2 ^ (Z.of_nat k + 1) = 2 ^ Z.of_nat k * 2).
  { rewrite Z.pow_add_r by lia. reflexivity. }
  assert (Hr : m mod 2 ^ (Z.of_nat k + 1)
               = m mod 2 ^ Z.of_nat k
                 + 2 ^ Z.of_nat k * (if Z.odd (m / 2 ^ Z.of_nat k) then 1 else 0)).
  { rewrite E1, Z.rem_mul_r by lia. now rewrite (Zmod_odd (m / 2 ^ Z.of_nat k)). }
  rewrite Hr.
  pose proof (Z.mod_pos_bound m (2 ^ Z.of_nat k) P) as B1.
  cbn [shr_m loc_of_shr_record].
  destruct (Z.odd (m / 2 ^ Z.of_nat k));
    destruct (Z.eqb_spec (m mod 2 ^ Z.of_nat k) 0) as [Z0|N0];
    cbn [negb loc_of_shr_record round_nearest_even];
    destruct (Z.compare_spec
                (2 * (m mod 2 ^ Z.of_nat k + 2 ^ Z.of_nat k * 1))
                (2 ^ (Z.of_nat k + 1)));
    destruct (Z.compare_spec
                (2 * (m mod 2 ^ Z.of_nat k + 2 ^ Z.of_nat k * 0))
                (2 ^ (Z.of_nat k + 1)));
    try reflexivity; lia.
Qed.

Lemma rne_bounds (m n : Z) :
  0 < n -> m / 2 ^ n <= rne m n <= m / 2 ^ n + 1.
Proof.
  intros H. unfold rne.
  destruct (_ ?= _); [destruct (Z.even _)| |]; lia.
Qed.

Lemma rne_error (m n : Z) :
  0 < n -> - 2 ^ n <= 2 * (rne m n * 2 ^ n - m) <= 2 ^ n.
Proof.
  intros H.
  assert (P : 0 < 2 ^ n) by (apply Z.pow_pos_nonneg; lia).
  pose proof (Z.div_mod m (2 ^ n) ltac:(lia)) as D.
  pose proof (Z.mod_pos_bound m (2 ^ n) P) as B.
  unfold rne.
  destruct (Z.compare_spec (2 * (m mod 2 ^ n)) (2 ^ n)) as [E|L|G];
    [destruct (Z.even _)| |]; nia.
Qed.

Lemma rne_near (q k n : Z) :
  0 < n -> Z.even q = true -> - 2 ^ n <= 2 * k <= 2 ^ n ->
  rne (q * 2 ^ n + k) n = q.
Proof.
  intros H Ev B.
  assert (P : 0 < 2 ^ n) by (apply Z.pow_pos_nonneg; lia).
  assert (P2 : 2 ^ n = 2 * 2 ^ (n - 1)).
  { rewrite <- Z.pow_succ_r by lia. f_equal. lia. }
  unfold rne.
  destruct (Z_le_gt_dec 0 k) as [K|K].
  - assert (Hq : (q * 2 ^ n + k) / 2 ^ n = q).
    { rewrite Z.div_add_l by lia. rewrite Z.div_small by lia. lia. }
    assert (Hr : (q * 2 ^ n + k) mod 2 ^ n = k).
    { rewrite Z.add_comm, Z.mod_add by lia. apply Z.mod_small. lia. }
    rewrite Hq, Hr, Ev.
    destruct (Z.compare_spec (2 * k) (2 ^ n)); [reflexivity|reflexivity|lia].
  - assert (Hq : (q * 2 ^ n + k) / 2 ^ n = q - 1).
    { replace (q * 2 ^ n + k) with ((q - 1) * 2 ^ n + (2 ^ n + k)) by lia.
      rewrite Z.div_add_l by lia. rewrite Z.div_small by lia. lia. }
    assert (Hr : (q * 2 ^ n + k) mod 2 ^ n = 2 ^ n + k).
    { replace (q * 2 ^ n + k) with ((2 ^ n + k) + (q - 1) * 2 ^ n) by lia.
      rewrite Z.mod_add by lia. apply Z.mod_small. lia. }
    rewrite Hq, Hr.
    assert (Od : Z.even (q - 1) = false).
    { rewrite Z.even_sub, Ev. reflexivity. }
    rewrite Od.
    destruct (Z.compare_spec (2 * (2 ^ n + k)) (2 ^ n)); lia.
Qed.

Lemma rne_multiple (q n : Z) : 0 < n -> rne (q * 2 ^ n) n = q.
Proof.
  intros H.
  assert (P : 0 < 2 ^ n) by (apply Z.pow_pos_nonneg; lia).
  unfold rne. rewrite Z.div_mul, Z.mod_mul by lia.
  destruct (Z.compare_spec (2 * 0) (2 ^ n)); [lia|reflexivity|lia].
Qed.

(** Rounding a significand of [53 + n] bits to 53 bits, in the range of
    the normal numbers and away from overflow. *)
Lemma binary_round_aux_shift (s : bool) (m : positive) (e n : Z) :
  Zpos (digits2_pos m) = 53 + n -> 0 < n ->
  -1074 <= e + n <= 971 ->
  rne (Zpos m) n < 2 ^ 53 ->
  binary_round_aux 53 1024 s (Zpos m) e loc_Exact
  = S754_finite s (Z.to_pos (rne (Zpos m) n)) (e + n).
Proof.
  intros Hd Hn He Hq.
  pose proof (digits2_pos_range m) as Rm. rewrite Hd in Rm.
  assert (P : 0 < 2 ^ n) by (apply Z.pow_pos_nonneg; lia).
  assert (Q : 2 ^ 52 <= Zpos m / 2 ^ n).
  { apply Z.div_le_lower_bound; [lia|].
    replace (53 + n - 1) with (n + 52) in Rm by lia.
    rewrite Z.pow_add_r in Rm by lia. lia. }
  pose proof (rne_bounds (Zpos m) n Hn) as Rq.
  destruct n as [|p|p]; try lia.
  unfold binary_round_aux, shr_fexp.
  cbn [Zdigits2]. rewrite Hd.
  assert (F : fexp 53 1024 (53 + Zpos p + e) - e = Zpos p).
  { unfold fexp, emin. lia. }
  rewrite F. cbn [shr shr_record_of_loc].
  rewrite shr_exact by lia.
  remember (rne (Zpos m) (Zpos p)) as q eqn:Eq.
  destruct q as [|q|q]; try lia.
  cbn [Zdigits2].
  assert (Dq : Zpos (digits2_pos q) = 53) by (apply digits2_pos_bounds; lia).
  rewrite Dq.
  assert (F2 : fexp 53 1024 (53 + (e + Zpos p)) - (e + Zpos p) = 0).
  { unfold fexp, emin. lia. }
  rewrite F2. cbn [shr shr_m].
  replace (e + Zpos p <=? 1024 - 53) with true
    by (symmetry; apply Z.leb_le; lia).
  reflexivity.
Qed.

(** A significand of at most 53 bits is kept as it is. *)
Lemma binary_round_aux_keep (s : bool) (m : positive) (e : Z) :
  Zpos (digits2_pos m) <= 53 -> -1074 <= e <= 971 ->
  binary_round_aux 53 1024 s (Zpos m) e loc_Exact = S754_finite s m e.
Proof.
  intros Hd He.
  unfold binary_round_aux, shr_fexp. cbn [Zdigits2].
  assert (F : fexp 53 1024 (Zpos (digits2_pos m) + e) - e <= 0).
  { unfold fexp, emin. lia. }
  destruct (fexp 53 1024 (Zpos (digits2_pos m) + e) - e) as [|p|p] eqn:E;
    try lia; cbn [shr shr_record_of_loc shr_m loc_of_shr_record
                  round_nearest_even Zdigits2];
    rewrite E; cbn [shr shr_m];
    replace (e <=? 1024 - 53) with true by (symmetry; apply Z.leb_le; lia);
    reflexivity.
Qed.

Lemma pos_iter_xO (m d : positive) : Zpos (Pos.iter xO m d) = Zpos m * 2 ^ Zpos d.
Proof.
  rewrite <- Z.shiftl_mul_pow2 by lia. cbn [Z.shiftl].
  apply Pos.iter_swap_gen. reflexivity.
Qed.

End Rounding.

Section Operations.

Lemma cond_Zopp_pos (s : bool) (c : positive) :
  cond_Zopp s (Zpos c) = if s then Zneg c else Zpos c.
Proof. destruct s; reflexivity. Qed.

Lemma to_pos_mul_pow2 (c : positive) (n : Z) :
  0 <= n -> Zpos (Z.to_pos (Zpos c * 2 ^ n)) = Zpos c * 2 ^ n.
Proof.
  intros H. apply Z2Pos.id.
  assert (0 < 2 ^ n) by (apply Z.pow_pos_nonneg; lia). lia.
Qed.

(** [float(c)] for an integer of at most 53 bits: the integer itself, with
    a significand of 53 bits. *)
Lemma of_Z_normal (s : bool) (c : positive) (d : Z) :
  Zpos (digits2_pos c) = d -> d <= 53 ->
  PyFloat.of_Z (cond_Zopp s (Zpos c))
  = S754_finite s (Z.to_pos (Zpos c * 2 ^ (53 - d))) (d - 53).
Proof.
  intros Hd Le.
  pose proof (digits2_pos_range c) as R. rewrite Hd in R.
  assert (D0 : 0 < d) by (rewrite <- Hd; lia).
  assert (B : binary_round 53 1024 s c 0
              = S754_finite s (Z.to_pos (Zpos c * 2 ^ (53 - d))) (d - 53)).
  { unfold binary_round. rewrite Hd.
    assert (F : fexp 53 1024 (d + 0) = d - 53) by (unfold fexp, emin; lia).
    rewrite F. unfold shl_align.
    destruct (d - 53 - 0) as [|k|k] eqn:E; try lia.
    - replace (53 - d) with 0 by lia. replace (d - 53) with 0 by lia.
      rewrite binary_round_aux_keep by lia.
      change (2 ^ 0) with 1. rewrite Z.mul_1_r. reflexivity.
    - assert (Ek : Zpos k = 53 - d) by lia.
      assert (V : Zpos (Pos.iter xO c k) = Zpos c * 2 ^ (53 - d)).
      { rewrite pos_iter_xO, Ek. reflexivity. }
      rewrite binary_round_aux_keep.
      + f_equal. rewrite <- V. reflexivity.
      + assert (Zpos (digits2_pos (Pos.iter xO c k)) = 53); [|lia].
        apply digits2_pos_bounds. rewrite V.
        replace (2 ^ (53 - 1)) with (2 ^ (d - 1) * 2 ^ (53 - d))
          by (rewrite <- Z.pow_add_r by lia; f_equal; lia).
        replace (2 ^ 53) with (2 ^ d * 2 ^ (53 - d))
          by (rewrite <- Z.pow_add_r by lia; f_equal; lia).
        assert (0 < 2 ^ (53 - d)) by (apply Z.pow_pos_nonneg; lia).
        nia.
      + lia. }
  unfold PyFloat.of_Z, binary_normalize, PyFloat.prec, PyFloat.emax.
  rewrite cond_Zopp_pos. destruct s; exact B.
Qed.

(** The product of two finite floats whose exact product has [53 + n]
    bits. *)
Lemma mul_finite (s1 s2 : bool) (m1 m2 : positive) (e1 e2 n : Z) :
  2 ^ (52 + n) <= Zpos m1 * Zpos m2 < 2 ^ (53 + n) -> 0 < n ->
  -1074 <= e1 + e2 + n <= 971 ->
  rne (Zpos m1 * Zpos m2) n < 2 ^ 53 ->
  PyFloat.mul (S754_finite s1 m1 e1) (S754_finite s2 m2 e2)
  = S754_finite (xorb s1 s2) (Z.to_pos (rne (Zpos m1 * Zpos m2) n)) (e1 + e2 + n).
Proof.
  intros B Hn He Hq. unfold PyFloat.mul, SFmul, PyFloat.prec, PyFloat.emax.
  rewrite (binary_round_aux_shift _ _ _ n); try assumption.
  - rewrite Pos2Z.inj_mul. reflexivity.
  - apply digits2_pos_bounds. rewrite Pos2Z.inj_mul.
    replace (53 + n - 1) with (52 + n) by lia. exact B.
Qed.

(** The sum of two finite floats of the same sign, the first with the
    smaller exponent, whose exact sum has [53 + n] bits. *)
Lemma add_same_sign (s : bool) (ma mb : positive) (ea eb n : Z) :
  ea <= eb ->
  let Ns := Zpos ma + Zpos mb * 2 ^ (eb - ea) in
  2 ^ (52 + n) <= Ns < 2 ^ (53 + n) -> 0 < n ->
  -1074 <= ea + n <= 971 ->
  rne Ns n < 2 ^ 53 ->
  PyFloat.add (S754_finite s ma ea) (S754_finite s mb eb)
  = S754_finite s (Z.to_pos (rne Ns n)) (ea + n).
Proof.
  intros Le Ns B Hn He Hq.
  unfold PyFloat.add, SFadd, PyFloat.prec, PyFloat.emax.
  replace (Z.min ea eb) with ea by lia.
  assert (A1 : fst (shl_align ma ea ea) = ma).
  { unfold shl_align. rewrite Z.sub_diag. reflexivity. }
  assert (A2 : Zpos (fst (shl_align mb eb ea)) = Zpos mb * 2 ^ (eb - ea)).
  { unfold shl_align. destruct (ea - eb) as [|k|k] eqn:E; cbn [fst].
    - replace (eb - ea) with 0 by lia. cbn. lia.
    - lia.
    - rewrite pos_iter_xO. f_equal. f_equal. lia. }
  rewrite A1.
  assert (SumE : cond_Zopp s (Zpos ma)
                 + cond_Zopp s (Zpos (fst (shl_align mb eb ea)))
                 = cond_Zopp s Ns).
  { subst Ns. rewrite <- A2. destruct s; cbn [cond_Zopp]; lia. }
  rewrite SumE.
  assert (P : 0 < Ns).
  { assert (0 < 2 ^ (52 + n)) by (apply Z.pow_pos_nonneg; lia). lia. }
  destruct Ns as [|N|N] eqn:EN; try lia.
  assert (Dg : Zpos (digits2_pos N) = 53 + n).
  { apply digits2_pos_bounds. replace (53 + n - 1) with (52 + n) by lia. exact B. }
  assert (R : binary_round 53 1024 s N ea
              = S754_finite s (Z.to_pos (rne (Zpos N) n)) (ea + n)).
  { unfold binary_round. rewrite Dg.
    assert (F : fexp 53 1024 (53 + n + ea) = n + ea) by (unfold fexp, emin; lia).
    rewrite F. unfold shl_align.
    destruct (n + ea - ea) as [|k|k] eqn:E; try lia.
    apply binary_round_aux_shift; assumption. }
  unfold binary_normalize. rewrite cond_Zopp_pos. destruct s; exact R.
Qed.

(** [int(x)] on a float that holds an integer. *)
Lemma to_int_integer (s : bool) (c : positive) (d : Z) :
  0 < d <= 53 ->
  PyFloat.to_int (S754_finite s (Z.to_pos (Zpos c * 2 ^ (53 - d))) (d - 53))
  = Ok (cond_Zopp s (Zpos c)).
Proof.
  intros H. unfold PyFloat.to_int.
  rewrite to_pos_mul_pow2 by lia.
  assert (E : Z.shiftl (Zpos c * 2 ^ (53 - d)) (d - 53) = Zpos c).
  { replace (d - 53) with (- (53 - d)) by lia.
    rewrite Z.shiftl_opp_r, Z.shiftr_div_pow2 by lia.
    apply Z.div_mul. assert (0 < 2 ^ (53 - d)) by (apply Z.pow_pos_nonneg; lia). lia. }
  rewrite E. destruct s; reflexivity.
Qed.

(** The average of [k] copies of an integer of at most 52 bits is the
    integer. *)
Lemma truediv_int_copies (s : bool) (k c : positive) (d : Z) :
  Zpos (digits2_pos c) = d -> d <= 52 ->
  PyFloat.truediv_int (Zpos k * cond_Zopp s (Zpos c)) (Zpos k)
  = Ok (S754_finite s (Z.to_pos (Zpos c * 2 ^ (53 - d))) (d - 53)).
Proof.
  intros Hd Le.
  pose proof (digits2_pos_range c) as Rc. rewrite Hd in Rc.
  assert (D0 : 0 < d) by (rewrite <- Hd; lia).
  unfold PyFloat.truediv_int. cbn [Z.eqb].
  assert (Q : PyFloat.of_ratio (Zpos k * cond_Zopp s (Zpos c)) (Zpos k)
              = S754_finite s (Z.to_pos (Zpos c * 2 ^ (53 - d))) (d - 53));
    [|rewrite Q; reflexivity].
  unfold PyFloat.of_ratio.
  assert (Raw : PyFloat.raw (Zpos k * cond_Zopp s (Zpos c))
                = S754_finite s (k * c) 0).
  { destruct s; reflexivity. }
  rewrite Raw. cbn [PyFloat.raw].
  unfold PyFloat.div, SFdiv, SFdiv_core_binary, PyFloat.prec, PyFloat.emax.
  cbn [Zdigits2]. rewrite xorb_false_r.
  (* the digits of the numerator *)
  pose proof (digits2_pos_log2 (k * c)) as L1.
  pose proof (digits2_pos_log2 k) as L2.
  pose proof (digits2_pos_log2 c) as L3.
  pose proof (Z.log2_mul_below (Zpos k) (Zpos c) ltac:(lia) ltac:(lia)) as Lb.
  pose proof (Z.log2_mul_above (Zpos k) (Zpos c) ltac:(lia) ltac:(lia)) as La.
  rewrite Pos2Z.inj_mul in L1.
  set (d1 := Zpos (digits2_pos (k * c))) in *.
  set (d2 := Zpos (digits2_pos k)) in *.
  assert (HD : d1 - d2 = d - 1 \/ d1 - d2 = d) by lia.
  replace (d1 + 0 - (d2 + 0)) with (d1 - d2) by lia.
  assert (F : Z.min (fexp 53 1024 (d1 - d2)) (0 - 0) = d1 - d2 - 53).
  { unfold fexp, emin. lia. }
  rewrite F.
  assert (Sh : 0 - 0 - (d1 - d2 - 53) = 53 - (d1 - d2)) by lia.
  rewrite Sh.
  assert (Sp : 0 < 53 - (d1 - d2)) by lia.
  destruct (53 - (d1 - d2)) as [|sh|sh] eqn:Esh; try lia.
  rewrite Z.shiftl_mul_pow2 by lia.
  assert (P : 0 < 2 ^ Zpos sh) by (apply Z.pow_pos_nonneg; lia).
  assert (DE : Z.div_eucl (Zpos (k * c) * 2 ^ Zpos sh) (Zpos k)
               = (Zpos c * 2 ^ Zpos sh, 0)).
  { pose proof (Z.div_eucl_eq (Zpos (k * c) * 2 ^ Zpos sh) (Zpos k) ltac:(lia)) as E.
    pose proof (Z.mod_pos_bound (Zpos (k * c) * 2 ^ Zpos sh) (Zpos k) ltac:(lia)) as M.
    unfold Z.modulo in M.
    destruct (Z.div_eucl (Zpos (k * c) * 2 ^ Zpos sh) (Zpos k)) as [q r].
    rewrite Pos2Z.inj_mul in E.
    assert (r = 0 /\ q = Zpos c * 2 ^ Zpos sh) as [-> ->]; [|reflexivity].
    assert (Zpos k * (Zpos c * 2 ^ Zpos sh - q) = r) by lia.
    assert (Zpos c * 2 ^ Zpos sh - q = 0) by nia.
    lia. }
  rewrite DE.
  assert (NL : new_location (Zpos k) 0 = loc_Exact).
  { unfold new_location, new_location_even, new_location_odd.
    destruct (Z.even (Zpos k)); reflexivity. }
  rewrite NL.
  rewrite <- (to_pos_mul_pow2 c (Zpos sh)) by lia.
  destruct HD as [HD|HD].
  - (* one bit too many: the last bit is a zero *)
    assert (Es : Zpos sh = (53 - d) + 1) by lia.
    rewrite (binary_round_aux_shift _ _ _ 1).
    + rewrite to_pos_mul_pow2 by lia. rewrite Es.
      rewrite Z.pow_add_r by lia. rewrite Z.mul_assoc.
      rewrite rne_multiple by lia. f_equal. lia.
    + apply digits2_pos_bounds. rewrite to_pos_mul_pow2 by lia. rewrite Es.
      replace (53 + 1 - 1) with (d + (53 - d)) by lia.
      replace (53 + 1) with (d + (53 - d + 1)) by lia.
      replace (2 ^ (d + (53 - d))) with (2 ^ (d - 1) * 2 ^ (53 - d + 1))
        by (rewrite <- Z.pow_add_r by lia; f_equal; lia).
      rewrite (Z.pow_add_r 2 d) by lia.
      assert (0 < 2 ^ (53 - d + 1)) by (apply Z.pow_pos_nonneg; lia).
      nia.
    + lia.
    + lia.
    + rewrite to_pos_mul_pow2 by lia. rewrite Es.
      rewrite Z.pow_add_r by lia. rewrite Z.mul_assoc.
      rewrite rne_multiple by lia.
      replace (2 ^ 53) with (2 ^ d * 2 ^ (53 - d))
        by (rewrite <- Z.pow_add_r by lia; f_equal; lia).
      assert (0 < 2 ^ (53 - d)) by (apply Z.pow_pos_nonneg; lia).
      nia.
  - assert (Es : Zpos sh = 53 - d) by lia.
    rewrite binary_round_aux_keep.
    + rewrite Es. f_equal. lia.
    + assert (Zpos (digits2_pos (Z.to_pos (Zpos c * 2 ^ Zpos sh))) = 53); [|lia].
      apply digits2_pos_bounds. rewrite to_pos_mul_pow2 by lia. rewrite Es.
      replace (2 ^ (53 - 1)) with (2 ^ (d - 1) * 2 ^ (53 - d))
        by (rewrite <- Z.pow_add_r by lia; f_equal; lia).
      replace (2 ^ 53) with (2 ^ d * 2 ^ (53 - d))
        by (rewrite <- Z.pow_add_r by lia; f_equal; lia).
      assert (0 < 2 ^ (53 - d)) by (apply Z.pow_pos_nonneg; lia).
      nia.
    + lia.
Qed.

End Operations.

Section Blend.

(** The significands of [0.8] and of [1 - 0.8], both of 53 bits:
    [0.8] is held as [7205759403792794 / 2^53] and [1 - 0.8], computed
    without rounding, as [7205759403792792 / 2^55]; the two add up to 1. *)
Lemma smoothing_constants :
  SMOOTHING_FACTOR = S754_finite false 7205759403792794 (-53)
  /\ PyFloat.sub PyFloat.f1_0 SMOOTHING_FACTOR
     = S754_finite false 7205759403792792 (-55).
Proof. split; vm_compute; reflexivity. Qed.

Ltac pow2_numerals :=
  repeat match goal with
         | |- context [2 ^ ?e] =>
             let v := eval vm_compute in (2 ^ e) in change (2 ^ e) with v
         | H : context [2 ^ ?e] |- _ =>
             let v := eval vm_compute in (2 ^ e) in change (2 ^ e) with v in H
         end.

(** One case of [blend_significand]: [na] and [nb] bits are dropped from
    the two products. *)
Lemma blend_significand_case (mc na nb : Z) :
  2 ^ 52 < mc < 2 ^ 53 -> Z.even mc = true ->
  (na = 52 /\ nb = 52 /\ mc * 7205759403792794 < 2 ^ 105)
  \/ (na = 52 /\ nb = 53
      /\ mc * 7205759403792792 < 2 ^ 105 <= mc * 7205759403792794)
  \/ (na = 53 /\ nb = 53 /\ 2 ^ 105 <= mc * 7205759403792792) ->
  let qa := rne (mc * 7205759403792792) na in
  let qb := rne (mc * 7205759403792794) nb in
  let Ns := qa + qb * 2 ^ (2 + nb - na) in
  (52 <= na <= nb /\ nb <= 53)
  /\ 2 ^ (52 + na) <= mc * 7205759403792792 < 2 ^ (53 + na)
  /\ 2 ^ (52 + nb) <= mc * 7205759403792794 < 2 ^ (53 + nb)
  /\ 0 < qa < 2 ^ 53 /\ 0 < qb < 2 ^ 53
  /\ 2 ^ (52 + (55 - na)) <= Ns < 2 ^ (53 + (55 - na))
  /\ rne Ns (55 - na) = mc.
Proof.
  intros R Ev Cases qa qb Ns.
  pose proof Ev as Ev'. apply Z.even_spec in Ev'. destruct Ev' as [h Eh].
  pose proof (rne_error (mc * 7205759403792792) na) as Ea. fold qa in Ea.
  pose proof (rne_error (mc * 7205759403792794) nb) as Eb. fold qb in Eb.
  assert (K : rne (mc * 2 ^ (55 - na) + (Ns - mc * 2 ^ (55 - na))) (55 - na) = mc
              -> rne Ns (55 - na) = mc).
  { intros <-. f_equal. lia. }
  pose proof (rne_near mc (Ns - mc * 2 ^ (55 - na)) (55 - na)) as Near.
  subst Ns. clearbody qa qb.
  destruct Cases as [(-> & -> & C)|[(-> & -> & C)|(-> & -> & C)]];
    specialize (Ea ltac:(lia)); specialize (Eb ltac:(lia));
    pow2_numerals;
    (repeat split; try lia; apply K, Near; [lia|exact Ev|lia]).
Qed.

(** The arithmetic of one blend on the 53-bit significand [mc] of an
    integer coordinate of at most 52 bits: the two products are rounded to
    53 bits ([na] and [nb] bits are dropped), their sum is rounded again,
    and the result is [mc]. *)
Lemma blend_significand (mc : Z) :
  2 ^ 52 <= mc < 2 ^ 53 -> Z.even mc = true ->
  exists na nb : Z,
    let qa := rne (mc * 7205759403792792) na in
    let qb := rne (mc * 7205759403792794) nb in
    let Ns := qa + qb * 2 ^ (2 + nb - na) in
    (52 <= na <= nb /\ nb <= 53)
    /\ 2 ^ (52 + na) <= mc * 7205759403792792 < 2 ^ (53 + na)
    /\ 2 ^ (52 + nb) <= mc * 7205759403792794 < 2 ^ (53 + nb)
    /\ 0 < qa < 2 ^ 53 /\ 0 < qb < 2 ^ 53
    /\ 2 ^ (52 + (55 - na)) <= Ns < 2 ^ (53 + (55 - na))
    /\ rne Ns (55 - na) = mc.
Proof.
  intros R Ev.
  destruct (Z.eq_dec mc (2 ^ 52)) as [->|Ne].
  { exists 52, 52. vm_compute. repeat split; congruence. }
  assert (Cases :
            (mc * 7205759403792794 < 2 ^ 105)
            \/ (mc * 7205759403792792 < 2 ^ 105 <= mc * 7205759403792794)
            \/ (2 ^ 105 <= mc * 7205759403792792)) by lia.
  destruct Cases as [C|[C|C]];
    [exists 52, 52|exists 52, 53|exists 53, 53];
    apply blend_significand_case; auto; lia.
Qed.

End Blend.

Section BlendOfCopies.

Import DetectionSmoother.

(** A coordinate of at most 52 bits, of either sign, blended with the
    average of [k] copies of itself, comes back unchanged. *)
Lemma blend_copies_signed (k : positive) (s : bool) (c : positive) :
  Zpos c < 2 ^ 52 ->
  exists a,
    PyFloat.truediv_int (Zpos k * cond_Zopp s (Zpos c)) (Zpos k) = Ok a
    /\ blend SMOOTHING_FACTOR (cond_Zopp s (Zpos c)) a = Ok (cond_Zopp s (Zpos c)).
Proof.
  intros Hc.
  remember (Zpos (digits2_pos c)) as d eqn:Hd. symmetry in Hd.
  pose proof (digits2_pos_range c) as Rc. rewrite Hd in Rc.
  assert (D0 : 0 < d) by (rewrite <- Hd; lia).
  assert (D52 : d <= 52).
  { destruct (Z_le_gt_dec d 52) as [|G]; [assumption|exfalso].
    assert (2 ^ 52 <= 2 ^ (d - 1)) by (apply Z.pow_le_mono_r; lia). lia. }
  set (mc := Zpos c * 2 ^ (53 - d)).
  assert (Pm : 0 < 2 ^ (53 - d)) by (apply Z.pow_pos_nonneg; lia).
  assert (Rm : 2 ^ 52 <= mc < 2 ^ 53).
  { subst mc.
    replace (2 ^ 52) with (2 ^ (d - 1) * 2 ^ (53 - d))
      by (rewrite <- Z.pow_add_r by lia; f_equal; lia).
    replace (2 ^ 53) with (2 ^ d * 2 ^ (53 - d))
      by (rewrite <- Z.pow_add_r by lia; f_equal; lia).
    nia. }
  assert (Ev : Z.even mc = true).
  { subst mc. replace (53 - d) with (Z.succ (52 - d)) by lia.
    rewrite Z.pow_succ_r by lia.
    replace (Zpos c * (2 * 2 ^ (52 - d))) with (2 * (Zpos c * 2 ^ (52 - d))) by lia.
    apply Z.even_spec. eexists. reflexivity. }
  assert (Im : Zpos (Z.to_pos mc) = mc) by (apply Z2Pos.id; lia).
  exists (S754_finite s (Z.to_pos mc) (d - 53)). split.
  { apply truediv_int_copies; [exact Hd|lia]. }
  destruct (blend_significand mc Rm Ev)
    as (na & nb & Rn & Ba & Bb & Qa & Qb & Bs & Es).
  cbn zeta in Qa, Qb, Bs, Es.
  set (qa := rne (mc * 7205759403792792) na) in *.
  set (qb := rne (mc * 7205759403792794) nb) in *.
  unfold blend, PyFloat.of_int.
  rewrite (of_Z_normal s c d Hd) by lia. fold mc.
  cbn [PyFloat.is_inf bind].
  destruct smoothing_constants as [Esf Eone]. rewrite Eone, Esf.
  rewrite (mul_finite s false (Z.to_pos mc) 7205759403792792 (d - 53) (-55) na);
    rewrite ?Im; try lia.
  rewrite (mul_finite s false (Z.to_pos mc) 7205759403792794 (d - 53) (-53) nb);
    rewrite ?Im; try lia.
  fold qa qb. rewrite xorb_false_r.
  assert (Ia : Zpos (Z.to_pos qa) = qa) by (apply Z2Pos.id; lia).
  assert (Ib : Zpos (Z.to_pos qb) = qb) by (apply Z2Pos.id; lia).
  rewrite (add_same_sign s (Z.to_pos qa) (Z.to_pos qb)
             (d - 53 + -55 + na) (d - 53 + -53 + nb) (55 - na));
    rewrite ?Ia, ?Ib;
    replace (d - 53 + -53 + nb - (d - 53 + -55 + na)) with (2 + nb - na) by lia;
    try lia.
  rewrite Es.
  replace (d - 53 + -55 + na + (55 - na)) with (d - 53) by lia.
  unfold mc. apply to_int_integer. lia.
Qed.

(** The same for any integer coordinate below [2^52] in size and any
    number of copies. *)
Lemma blend_copies_exact (k : nat) (c : Z) :
  (1 <= k)%nat -> Z.abs c < 2 ^ 52 ->
  exists a,
    PyFloat.truediv_int (Z.of_nat k * c) (Z.of_nat k) = Ok a
    /\ blend SMOOTHING_FACTOR c a = Ok c.
Proof.
  intros Hk Hc.
  destruct (Z.of_nat k) as [|kp|kp] eqn:Ek; try lia.
  destruct c as [|cp|cp].
  - exists (S754_zero false). split; reflexivity.
  - apply (blend_copies_signed kp false cp). lia.
  - apply (blend_copies_signed kp true cp). lia.
Qed.

End BlendOfCopies.

Section ConstantStream.

Import DetectionSmoother.

Lemma similar_sym (d h : det) : similar d h = similar h d.
Proof.
  destruct d as [[[[x1 y1] x2] y2] label], h as [[[[hx1 hy1] hx2] hy2] hlabel].
  unfold similar.
  destruct (PyStr.first (PyStr.split label)) as [a|e] eqn:A;
    destruct (PyStr.first (PyStr.split hlabel)) as [b|e'] eqn:B; cbn [bind].
  - rewrite (String.eqb_sym a b).
    replace (Z.abs (hx1 - x1)) with (Z.abs (x1 - hx1)) by lia.
    replace (Z.abs (hy1 - y1)) with (Z.abs (y1 - hy1)) by lia.
    reflexivity.
  - unfold PyStr.first in B. destruct (PyStr.split hlabel); inversion B; reflexivity.
  - unfold PyStr.first in A. destruct (PyStr.split label); inversion A; reflexivity.
  - unfold PyStr.first in A, B.
    destruct (PyStr.split label); inversion A.
    destruct (PyStr.split hlabel); inversion B. reflexivity.
Qed.

Lemma similar_refl (d : det) : labelled d -> similar d d = Ok true.
Proof.
  destruct d as [[[[x1 y1] x2] y2] label]. unfold labelled, similar; cbn [d_label].
  destruct (PyStr.split label) as [|a rest]; [congruence|]. intros _. cbn.
  rewrite String.eqb_refl, !Z.sub_diag. reflexivity.
Qed.

Lemma scan_dets_none (d : det) (l : list det) :
  forall acc, Forall (dissimilar d) l -> scan_dets d acc l = Ok acc.
Proof.
  induction l as [|h l IH]; intros acc F; cbn; [reflexivity|].
  inversion F as [|? ? Hh Hl]; subst. rewrite Hh. cbn [bind]. now apply IH.
Qed.

Lemma scan_dets_one (d : det) (pre post acc : list det) :
  Forall (dissimilar d) pre -> Forall (dissimilar d) post ->
  similar d d = Ok true ->
  scan_dets d acc (pre ++ d :: post) = Ok (acc ++ [d]).
Proof.
  intros Hpre Hpost Hd. revert acc.
  induction Hpre as [|h pre Hh _ IH]; intros acc; cbn.
  - rewrite Hd. cbn [bind]. now apply scan_dets_none.
  - rewrite Hh. cbn [bind]. apply IH.
Qed.

Lemma scan_history_repeat (d : det) (D : list det) (k : nat) :
  (forall acc, scan_dets d acc D = Ok (acc ++ [d])) ->
  forall acc, scan_history d acc (repeat D k) = Ok (acc ++ repeat d k).
Proof.
  intros H. induction k as [|k IH]; intros acc; cbn.
  - now rewrite app_nil_r.
  - rewrite H. cbn [bind]. rewrite IH, <- app_assoc. reflexivity.
Qed.

Lemma far_apart_split (pre post : list det) (d : det) :
  far_apart (pre ++ d :: post) ->
  Forall (dissimilar d) pre /\ Forall (dissimilar d) post.
Proof.
  unfold far_apart. induction pre as [|h pre IH]; cbn; intros F.
  - inversion F; subst. split; [constructor|assumption].
  - inversion F as [|? ? Hh Hrest]; subst.
    destruct (IH Hrest) as [Hpre Hpost]. split; [|assumption].
    constructor; [|assumption].
    rewrite Forall_forall in Hh. unfold dissimilar. rewrite similar_sym.
    apply Hh. apply in_or_app. right. left. reflexivity.
Qed.

Lemma sum_from (l : list Z) : forall a, fold_left Z.add l a = a + sum l.
Proof.
  unfold sum. induction l as [|x l IH]; intros a; cbn; [lia|].
  rewrite IH, (IH x). lia.
Qed.

Lemma sum_copies (coord : det -> Z) (d : det) (k : nat) :
  sum (map coord (repeat d k)) = Z.of_nat k * coord d.
Proof.
  induction k as [|k IH]; [reflexivity|].
  cbn [repeat map]. unfold sum in *. cbn [fold_left].
  rewrite sum_from. unfold sum. rewrite IH. lia.
Qed.

Lemma average_copies (coord : det -> Z) (d : det) (k : nat) :
  average coord (repeat d k)
  = PyFloat.truediv_int (Z.of_nat k * coord d) (Z.of_nat k).
Proof.
  unfold average. rewrite sum_copies, repeat_length. reflexivity.
Qed.

Lemma dissimilar_of_not_near (d h : det) :
  labelled d -> labelled h -> ~ near d h -> dissimilar d h.
Proof.
  destruct d as [[[[x1 y1] x2] y2] label], h as [[[[hx1 hy1] hx2] hy2] hlabel].
  unfold labelled, near, dissimilar, similar; cbn [d_label].
  destruct (PyStr.split label) as [|a rest]; [congruence|].
  destruct (PyStr.split hlabel) as [|b hrest]; [congruence|].
  intros _ _ N. cbn [PyStr.first bind]. f_equal.
  destruct (String.eqb_spec a b) as [->|Ne]; [|reflexivity].
  destruct (Z.ltb_spec (Z.abs (x1 - hx1)) 50) as [Lx|Lx]; [|reflexivity].
  destruct (Z.ltb_spec (Z.abs (y1 - hy1)) 50) as [Ly|Ly]; [|reflexivity].
  exfalso. apply N. split; [|split; assumption].
  exists b, rest, hrest. split; reflexivity.
Qed.

Lemma separate_far_apart (D : list det) :
  Forall labelled D -> separate D -> far_apart D.
Proof.
  unfold separate, far_apart. intros L S.
  induction S as [|d l Hd Hl IH]; [constructor|].
  inversion L as [|? ? Ld Ll]; subst.
  constructor; [|now apply IH].
  rewrite Forall_forall in *. intros h Hh.
  apply dissimilar_of_not_near; auto.
Qed.

Lemma smooth_one_alone (D pre post : list det) (d : det) (k : nat) :
  D = pre ++ d :: post -> far_apart D -> labelled d -> in_52_bits d ->
  (1 <= k)%nat ->
  smooth_one SMOOTHING_FACTOR (repeat D k) d = Ok d.
Proof.
  intros -> Hfar Hlab Hrange Hk.
  destruct (far_apart_split _ _ _ Hfar) as [Hpre Hpost].
  pose proof (similar_refl d Hlab) as Hd.
  assert (Hscan : scan_history d [] (repeat (pre ++ d :: post) k) = Ok (repeat d k)).
  { rewrite scan_history_repeat; [reflexivity|].
    intros acc. now apply scan_dets_one. }
  destruct Hrange as (R1 & R2 & R3 & R4).
  destruct (blend_copies_exact k _ Hk R1) as (a1 & A1 & B1).
  destruct (blend_copies_exact k _ Hk R2) as (a2 & A2 & B2).
  destruct (blend_copies_exact k _ Hk R3) as (a3 & A3 & B3).
  destruct (blend_copies_exact k _ Hk R4) as (a4 & A4 & B4).
  unfold smooth_one.
  destruct d as [[[[x1 y1] x2] y2] label].
  rewrite Hscan. cbn [bind].
  destruct k as [|k]; [lia|].
  cbn [repeat].
  change ((x1, y1, x2, y2, label) :: repeat (x1, y1, x2, y2, label) k)
    with (repeat (x1, y1, x2, y2, label) (S k)).
  rewrite !average_copies.
  cbn [d_x1 d_y1 d_x2 d_y2] in *.
  rewrite A1; cbn [bind]. rewrite A2; cbn [bind].
  rewrite A3; cbn [bind]. rewrite A4; cbn [bind].
  rewrite B1; cbn [bind]. rewrite B2; cbn [bind].
  rewrite B3; cbn [bind]. rewrite B4; cbn [bind].
  reflexivity.
Qed.

Lemma smooth_all_alone (D : list det) (k : nat) :
  far_apart D -> Forall labelled D -> Forall in_52_bits D ->
  (1 <= k)%nat ->
  forall rest pre acc,
    D = pre ++ rest ->
    smooth_all SMOOTHING_FACTOR (repeat D k) acc rest = Ok (acc ++ rest).
Proof.
  intros Hfar Hlab Hrange Hk.
  induction rest as [|d rest IH]; intros pre acc E; cbn [smooth_all].
  - now rewrite app_nil_r.
  - assert (Hin : In d D) by (rewrite E; apply in_or_app; right; left; reflexivity).
    rewrite Forall_forall in Hlab, Hrange.
    rewrite (smooth_one_alone D pre rest d k E Hfar (Hlab d Hin) (Hrange d Hin) Hk).
    cbn [bind]. rewrite (IH (pre ++ [d]) (acc ++ [d])).
    + now rewrite <- app_assoc.
    + now rewrite <- app_assoc.
Qed.

Lemma smooth_detections_state (self : t) (current_dets : list det) :
  fst (smooth_detections self current_dets)
  = mk (smoothing_factor self) (max_history self)
       (deque_append (max_history self) (detection_history self) current_dets).
Proof.
  unfold smooth_detections. destruct (_ <? _)%nat; reflexivity.
Qed.

Lemma deque_append_copies (D : list det) (m : nat) :
  (m <= 5)%nat -> deque_append 5 (repeat D m) D = repeat D (Nat.min (S m) 5).
Proof.
  intros H. unfold deque_append.
  do 6 (destruct m as [|m]; [reflexivity|]). lia.
Qed.

Lemma smoother_after_constant (D : list det) (n : nat) :
  smoother_after n fresh_smoother D
  = mk SMOOTHING_FACTOR 5 (repeat D (Nat.min n 5)).
Proof.
  induction n as [|n IH]; [reflexivity|].
  cbn [smoother_after]. rewrite smooth_detections_state, IH.
  cbn [smoothing_factor max_history detection_history].
  rewrite deque_append_copies by lia.
  f_equal. f_equal. lia.
Qed.

End ConstantStream.

(** C4, as the code has it.  Let [D] be a detection set in which every
    label has a token, every coordinate fits in 52 bits, and no two entries
    have the same leading label token and corners [(x1, y1)] less than 50
    pixels apart on both axes.  Then every call of [smooth_detections] in
    a constant stream of [D], on the smoother [main] builds, returns [D]
    itself: the blend of a coordinate with the average of its own copies
    is the coordinate, with no rounding loss. *)
Theorem constant_stream_of_separate_boxes_is_unchanged :
  forall D : list det,
    Forall labelled D -> Forall in_52_bits D -> separate D ->
    forall n : nat, next_output n fresh_smoother D = Ok D.
Proof.
  intros D Hlab Hrange Hsep n.
  pose proof (separate_far_apart D Hlab Hsep) as Hfar.
  unfold next_output, DetectionSmoother.smooth_detections.
  rewrite smoother_after_constant.
  cbn [DetectionSmoother.smoothing_factor DetectionSmoother.max_history
       DetectionSmoother.detection_history].
  rewrite deque_append_copies by lia.
  rewrite repeat_length.
  destruct (Nat.ltb_spec (Nat.min (S (Nat.min n 5)) 5) 2) as [L|L]; cbn [snd].
  - reflexivity.
  - apply (smooth_all_alone D _ Hfar Hlab Hrange) with (pre := []) (acc := []);
      [lia|reflexivity].
Qed.

Lemma constant_stream_of_separate_boxes_is_unchanged_witness :
  next_output 7 fresh_smoother street = Ok street.
Proof.
  apply (constant_stream_of_separate_boxes_is_unchanged street).
  - repeat constructor; vm_compute; discriminate.
  - repeat constructor; vm_compute; reflexivity.
  - unfold street.
    repeat (constructor; [repeat (constructor; [|]); try constructor|]);
      try constructor;
      intros ((token & rest & hrest & A & B) & X & Y);
      vm_compute in A, B, X, Y; congruence.
Defined.

(** The bound on the coordinates cannot be dropped: at 53 bits the blend
    of a coordinate with the average of its own copies can lose a pixel. *)
Lemma blend_loses_a_pixel_at_53_bits :
  2 ^ 52 < wide_coordinate < 2 ^ 53
  /\ next_output 1 fresh_smoother
       [(wide_coordinate, 0, wide_coordinate, 0, "person 0.90")]
     = Ok [(wide_coordinate - 1, 0, wide_coordinate - 1, 0, "person 0.90")].
Proof.
  split; [unfold wide_coordinate; lia|vm_compute; reflexivity].
Qed.

(** * Further properties of the pipeline *)

(** ** Bounded histories *)

Lemma lastn_length {A : Type} (n : nat) (l : list A) :
  List.length (lastn n l) = Nat.min n (List.length l).
Proof. unfold lastn. rewrite length_skipn. lia. Qed.

Lemma lastn_all {A : Type} (n : nat) (l : list A) :
  (List.length l <= n)%nat -> lastn n l = l.
Proof.
  intros H. unfold lastn. replace (List.length l - n)%nat with 0%nat by lia.
  reflexivity.
Qed.

Lemma lastn_step {A : Type} (n : nat) (l : list A) (x : A) :
  lastn n (lastn n l ++ [x]) = lastn n (l ++ [x]).
Proof.
  destruct (Nat.le_gt_cases (List.length l) n) as [H|H].
  - now rewrite (lastn_all n l H).
  - unfold lastn. rewrite !length_app, length_skipn. cbn [List.length].
    replace (List.length l - (List.length l - n) + 1 - n)%nat with 1%nat by lia.
    replace (List.length l + 1 - n)%nat
      with (1 + (List.length l - n))%nat by lia.
    rewrite <- skipn_skipn. f_equal.
    rewrite skipn_app.
    replace (List.length l - n - List.length l)%nat with 0%nat by lia.
    reflexivity.
Qed.

Lemma deque_append_fold {A : Type} (n : nat) (xs : list A) :
  forall l,
    fold_left (deque_append n) xs (lastn n l) = lastn n (l ++ xs).
Proof.
  induction xs as [|x xs IH]; intros l; cbn [fold_left].
  - now rewrite app_nil_r.
  - change (deque_append n (lastn n l) x) with (lastn n (lastn n l ++ [x])).
    rewrite lastn_step, IH, <- app_assoc. reflexivity.
Qed.

Lemma smoother_fed_state (inputs : list (list det)) :
  forall self,
    smoother_fed self inputs
    = DetectionSmoother.mk
        (DetectionSmoother.smoothing_factor self)
        (DetectionSmoother.max_history self)
        (fold_left (deque_append (DetectionSmoother.max_history self)) inputs
                   (DetectionSmoother.detection_history self)).
Proof.
  induction inputs as [|D inputs IH]; intros self; cbn [smoother_fed fold_left].
  - destruct self; reflexivity.
  - fold (smoother_fed (fst (DetectionSmoother.smooth_detections self D)) inputs).
    rewrite IH, smooth_detections_state. reflexivity.
Qed.

(** X1. The history of a smoother built by [__init__] holds, after any
    sequence of calls, exactly the last [max_history] detection sets it was
    given, oldest first, and so never more than [max_history] of them; a
    call that raises has stored its set all the same. *)
Theorem smoother_history_is_last_inputs :
  forall (smoothing_factor : float) (max_history : nat)
    (inputs : list (list det)),
    let self :=
      smoother_fed (DetectionSmoother.init smoothing_factor max_history) inputs in
    DetectionSmoother.detection_history self = lastn max_history inputs
    /\ (List.length (DetectionSmoother.detection_history self) <= max_history)%nat
    /\ DetectionSmoother.smoothing_factor self = smoothing_factor
    /\ DetectionSmoother.max_history self = max_history.
Proof.
  intros sf m inputs self. subst self. rewrite smoother_fed_state.
  cbn [DetectionSmoother.init DetectionSmoother.detection_history
       DetectionSmoother.smoothing_factor DetectionSmoother.max_history].
  assert (E : fold_left (deque_append m) inputs [] = lastn m inputs).
  { change (@nil (list det)) with (lastn m (@nil (list det))).
    now rewrite deque_append_fold. }
  rewrite E. split; [reflexivity|]. split; [|split; reflexivity].
  rewrite lastn_length. lia.
Qed.

Lemma adaptor_after_window (calls : list (float * float)) :
  forall self,
    PerformanceAdaptor.fps_history (adaptor_after self calls)
    = fold_left (deque_append 8) (map fst calls)
                (PerformanceAdaptor.fps_history self).
Proof.
  unfold adaptor_after.
  induction calls as [|[fps now] calls IH]; intros self; cbn [fold_left map fst snd].
  - reflexivity.
  - rewrite IH. f_equal.
    unfold PerformanceAdaptor.update_performance. cbn [fst].
    destruct (PerformanceAdaptor.gate _ _ _); [|reflexivity].
    destruct (PerformanceAdaptor.adjust _ _); reflexivity.
Qed.

(** X2. The sample window of an adaptor built by [__init__] holds, after
    any sequence of [update_performance] calls, exactly the last 8 fps
    samples it was given, oldest first. *)
Theorem adaptor_window_is_last_samples :
  forall (target interval t0 : float) (calls : list (float * float)),
    let self := adaptor_after (PerformanceAdaptor.init target interval t0) calls in
    PerformanceAdaptor.fps_history self = lastn 8 (map fst calls)
    /\ (List.length (PerformanceAdaptor.fps_history self) <= 8)%nat.
Proof.
  intros target interval t0 calls self. subst self.
  rewrite adaptor_after_window. cbn [PerformanceAdaptor.init PerformanceAdaptor.fps_history].
  assert (E : fold_left (deque_append 8) (map fst calls) []
              = lastn 8 (map fst calls)).
  { change (@nil float) with (lastn 8 (@nil float)).
    now rewrite deque_append_fold. }
  rewrite E. split; [reflexivity|].
  rewrite lastn_length. lia.
Qed.

(** ** What a call of the smoother returns *)

Section SmootherCalls.

Import DetectionSmoother.

Lemma smooth_one_label (sf : float) (history : list (list det)) (d d' : det) :
  smooth_one sf history d = Ok d' -> d_label d' = d_label d.
Proof.
  unfold smooth_one. destruct d as [[[[x1 y1] x2] y2] label].
  destruct (scan_history _ [] history) as [sims|e]; cbn [bind]; [|discriminate].
  destruct sims as [|s sims]; [intros E; inversion E; reflexivity|].
  repeat (match goal with
          | |- context [bind ?r _] => destruct r; cbn [bind]; [|discriminate]
          end).
  intros E. inversion E. reflexivity.
Qed.

Lemma smooth_all_labels (sf : float) (history : list (list det))
  (cur : list det) :
  forall acc out,
    smooth_all sf history acc cur = Ok out ->
    exists new,
      out = acc ++ new /\ Forall2 (fun d o => d_label o = d_label d) cur new.
Proof.
  induction cur as [|d cur IH]; intros acc out; cbn [smooth_all].
  - intros E. inversion E. exists []. rewrite app_nil_r. auto.
  - destruct (smooth_one sf history d) as [d'|e] eqn:S; cbn [bind]; [|discriminate].
    intros E. apply IH in E. destruct E as (new & -> & F).
    exists (d' :: new). rewrite <- app_assoc. split; [reflexivity|].
    constructor; [|exact F]. eapply smooth_one_label; eauto.
Qed.

End SmootherCalls.

(** X3. What [smooth_detections] returns has as many detections as its
    input, in the same order and each with the label of the input
    detection at its place: smoothing moves boxes, it never drops, adds,
    reorders or relabels one. *)
Theorem smoothing_keeps_order_and_labels :
  forall (self : DetectionSmoother.t) (current_dets out : list det),
    snd (DetectionSmoother.smooth_detections self current_dets) = Ok out ->
    Forall2 (fun d o => DetectionSmoother.d_label o = DetectionSmoother.d_label d)
            current_dets out
    /\ List.length out = List.length current_dets.
Proof.
  intros self cur out. unfold DetectionSmoother.smooth_detections.
  assert (G : Forall2 (fun d o => DetectionSmoother.d_label o
                                  = DetectionSmoother.d_label d) cur out ->
              Forall2 (fun d o => DetectionSmoother.d_label o
                                  = DetectionSmoother.d_label d) cur out
              /\ List.length out = List.length cur).
  { intros F. split; [exact F|]. symmetry. eapply Forall2_length; eauto. }
  destruct (_ <? _)%nat; cbn [snd]; intros E; apply G.
  - inversion E; subst. clear. induction out; constructor; auto.
  - apply smooth_all_labels in E. destruct E as (new & -> & F). exact F.
Qed.

Lemma smoothing_keeps_order_and_labels_witness :
  Forall2 (fun d o => DetectionSmoother.d_label o = DetectionSmoother.d_label d)
          crowd crowd_smoothed
  /\ List.length crowd_smoothed = List.length crowd.
Proof.
  apply (smoothing_keeps_order_and_labels
           (smoother_after 1 fresh_smoother crowd) crowd crowd_smoothed).
  vm_compute. reflexivity.
Defined.

Lemma deque_append_length {A : Type} (n : nat) (l : list A) (x : A) :
  List.length (deque_append n l x) = Nat.min n (S (List.length l)).
Proof.
  unfold deque_append. rewrite length_skipn, length_app. cbn [List.length]. lia.
Qed.

Lemma deque_append_keeps_new {A : Type} (n : nat) (l : list A) (x : A) :
  (1 <= n)%nat -> In x (deque_append n l x).
Proof.
  intros H. unfold deque_append. rewrite skipn_app, length_app.
  cbn [List.length].
  replace (List.length l + 1 - n - List.length l)%nat with 0%nat by lia.
  apply in_or_app. right. left. reflexivity.
Qed.

(** X4. A smoother built with [max_history] 0 or 1 never smooths: whatever
    it holds and whatever the labels and coordinates, [smooth_detections]
    returns its input unchanged and raises nothing. *)
Theorem short_history_disables_smoothing :
  forall (self : DetectionSmoother.t) (current_dets : list det),
    (DetectionSmoother.max_history self <= 1)%nat ->
    snd (DetectionSmoother.smooth_detections self current_dets)
    = Ok current_dets.
Proof.
  intros self cur H. unfold DetectionSmoother.smooth_detections.
  rewrite deque_append_length.
  destruct (Nat.ltb_spec
              (Nat.min (DetectionSmoother.max_history self)
                       (S (List.length (DetectionSmoother.detection_history self))))
              2); [reflexivity|lia].
Qed.

Lemma short_history_disables_smoothing_witness :
  snd (DetectionSmoother.smooth_detections
         (smoother_fed forgetful_smoother [crowd; crowd; [blank_label]])
         crowd)
  = Ok crowd.
Proof.
  apply (short_history_disables_smoothing
           (smoother_fed forgetful_smoother [crowd; crowd; [blank_label]]) crowd).
  vm_compute. lia.
Defined.

Section SmootherScan.

Import DetectionSmoother.

Lemma similar_outcomes (d h : det) :
  (labelled d /\ labelled h /\ exists b, similar d h = Ok b)
  \/ ((~ labelled d \/ ~ labelled h) /\ similar d h = Raise IndexError).
Proof.
  destruct d as [[[[x1 y1] x2] y2] label], h as [[[[hx1 hy1] hx2] hy2] hlabel].
  unfold labelled, similar; cbn [d_label].
  destruct (PyStr.split label) as [|a ra]; cbn.
  - right. split; [left; congruence|reflexivity].
  - destruct (PyStr.split hlabel) as [|b rb]; cbn.
    + right. split; [right; congruence|reflexivity].
    + left. repeat split; try congruence. eauto.
Qed.

Lemma similar_self (d : det) (b : bool) : similar d d = Ok b -> b = true.
Proof.
  intros E. destruct (similar_outcomes d d) as [(L & _ & _)|(_ & R)].
  - rewrite (similar_refl d L) in E. now inversion E.
  - congruence.
Qed.

Lemma scan_dets_grows (d : det) (l : list det) :
  forall acc out, scan_dets d acc l = Ok out ->
    incl acc out /\ (In d l -> In d out).
Proof.
  induction l as [|h l IH]; intros acc out; cbn [scan_dets].
  - intros E. inversion E; subst. split; [apply incl_refl|intros []].
  - destruct (similar d h) as [s|e] eqn:S; cbn [bind]; [|discriminate].
    intros E. destruct (IH _ _ E) as [I K]. split.
    + destruct s; [|exact I].
      intros x Hx. apply I. apply in_or_app. now left.
    + intros [->|Hin]; [|auto].
      apply similar_self in S. subst s.
      apply I. apply in_or_app. right. left. reflexivity.
Qed.

Lemma scan_history_grows (d : det) (history : list (list det)) :
  forall acc out, scan_history d acc history = Ok out ->
    incl acc out /\ (forall set, In set history -> In d set -> In d out).
Proof.
  induction history as [|set0 history IH]; intros acc out; cbn [scan_history].
  - intros E. inversion E; subst. split; [apply incl_refl|intros ? []].
  - destruct (scan_dets d acc set0) as [acc'|e] eqn:S; cbn [bind]; [|discriminate].
    intros E. destruct (IH _ _ E) as [I K].
    destruct (scan_dets_grows _ _ _ _ S) as [I0 K0]. split.
    + intros x Hx. apply I, I0, Hx.
    + intros set [->|Hin] Hd; [apply I, K0, Hd|eapply K; eauto].
Qed.

Lemma scan_dets_raises (d : det) (l : list det) :
  forall acc e, scan_dets d acc l = Raise e -> e = IndexError.
Proof.
  induction l as [|h l IH]; intros acc e; cbn [scan_dets]; [discriminate|].
  destruct (similar_outcomes d h) as [(_ & _ & b & ->)|(_ & ->)]; cbn [bind].
  - apply IH.
  - intros E. now inversion E.
Qed.

Lemma scan_dets_blank (d h : det) (l : list det) :
  In h l -> ~ labelled h ->
  forall acc, scan_dets d acc l = Raise IndexError.
Proof.
  induction l as [|x l IH]; intros Hin Hh acc; [destruct Hin|].
  cbn [scan_dets].
  destruct (similar_outcomes d x) as [(_ & Lx & b & ->)|(_ & ->)]; cbn [bind];
    [|reflexivity].
  destruct Hin as [->|Hin]; [contradiction|]. now apply IH.
Qed.

Lemma scan_history_blank (d h : det) (set : list det) (history : list (list det)) :
  In set history -> In h set -> ~ labelled h ->
  forall acc, scan_history d acc history = Raise IndexError.
Proof.
  induction history as [|set0 history IH]; intros Hs Hin Hh acc; [destruct Hs|].
  cbn [scan_history].
  destruct (scan_dets d acc set0) as [acc'|e] eqn:S; cbn [bind].
  - destruct Hs as [->|Hs]; [|now apply IH].
    rewrite (scan_dets_blank d h set Hin Hh) in S. discriminate.
  - apply scan_dets_raises in S. now subst.
Qed.

End SmootherScan.

(** X5. Inside [smooth_detections] the branch that passes a detection
    through unsmoothed is never taken once the history holds two sets: the
    set just appended is part of the history that is scanned, so whenever
    the scan for a detection of the input returns, the detection itself is
    among the similar ones. *)
Theorem detection_is_always_similar_to_itself :
  forall (self : DetectionSmoother.t) (current_dets : list det) (d : det),
    let history :=
      deque_append (DetectionSmoother.max_history self)
                   (DetectionSmoother.detection_history self) current_dets in
    (2 <= List.length history)%nat ->
    In d current_dets ->
    forall similar_dets,
      DetectionSmoother.scan_history d [] history = Ok similar_dets ->
      In d similar_dets.
Proof.
  intros self cur d history L Hin sims E.
  apply scan_history_grows in E. destruct E as [_ K].
  apply (K cur); [|exact Hin].
  apply deque_append_keeps_new.
  subst history. rewrite deque_append_length in L. lia.
Qed.

Lemma detection_is_always_similar_to_itself_witness :
  In bat [glove; bat].
Proof.
  apply (detection_is_always_similar_to_itself
           (fst (DetectionSmoother.smooth_detections fresh_smoother [glove]))
           [bat] bat).
  - vm_compute. lia.
  - left. reflexivity.
  - vm_compute. reflexivity.
Defined.

(** X6. One label without a token poisons the smoother: while a set that
    holds such a label is among at least two sets in the history (the set
    of the call included), every call with a non-empty input raises
    [IndexError], whatever the other labels are. *)
Theorem blank_label_raises_index_error :
  forall (self : DetectionSmoother.t) (current_dets set : list det) (h : det),
    let history :=
      deque_append (DetectionSmoother.max_history self)
                   (DetectionSmoother.detection_history self) current_dets in
    (2 <= List.length history)%nat ->
    current_dets <> [] ->
    In set history -> In h set -> ~ labelled h ->
    snd (DetectionSmoother.smooth_detections self current_dets)
    = Raise IndexError.
Proof.
  intros self cur set h history L Hne Hs Hin Hh.
  unfold DetectionSmoother.smooth_detections. fold history.
  destruct (Nat.ltb_spec (List.length history) 2) as [C|_]; [lia|]. cbn [snd].
  destruct cur as [|d cur]; [congruence|].
  cbn [DetectionSmoother.smooth_all]. unfold DetectionSmoother.smooth_one.
  destruct d as [[[[x1 y1] x2] y2] label].
  rewrite (scan_history_blank _ h set history Hs Hin Hh). reflexivity.
Qed.

Lemma blank_label_raises_index_error_witness :
  snd (DetectionSmoother.smooth_detections
         (smoother_fed fresh_smoother [[blank_label]; crowd]) crowd)
  = Raise IndexError.
Proof.
  apply (blank_label_raises_index_error
           (smoother_fed fresh_smoother [[blank_label]; crowd]) crowd
           [blank_label] blank_label).
  - vm_compute. lia.
  - discriminate.
  - left. reflexivity.
  - left. reflexivity.
  - vm_compute. intros H. apply H. reflexivity.
Defined.

(** ** The adaptor under sustained load *)

Section AdaptorPaths.

Import PerformanceAdaptor.

Lemma adaptor_after_cons (self : t) (c : float * float)
  (calls : list (float * float)) :
  adaptor_after self (c :: calls)
  = adaptor_after (fst (update_performance self (fst c) (snd c))) calls.
Proof. reflexivity. Qed.

Lemma degrade_step (self : t) (fps now : float) :
  knobs_ok self ->
  let window := deque_append 8 (fps_history self) fps in
  gate self window now = true -> degrades self (avg window) ->
  let self' := fst (update_performance self fps now) in
  current_skip self' = Z.min 4 (current_skip self + 1)
  /\ current_img_size self'
     = (if 4 - current_skip self <? 1 then 320 else current_img_size self).
Proof.
  intros [Hk Hs] window G D self'.
  destruct (update_performance_knobs self fps now) as (_ & _ & Hon).
  fold window self' in Hon. specialize (Hon G).
  unfold degrades in D. unfold adjust in Hon. rewrite D in Hon.
  unfold IMG_SIZE in Hs.
  destruct (Z.ltb_spec (current_skip self) 4).
  - inversion Hon as [[Ek Es]]. rewrite Ek, Es.
    destruct (Z.ltb_spec (4 - current_skip self) 1); lia.
  - destruct (Z.ltb_spec 320 (current_img_size self));
      inversion Hon as [[Ek Es]]; rewrite Ek, Es;
      destruct (Z.ltb_spec (4 - current_skip self) 1); lia.
Qed.

Lemma improve_step (self : t) (fps now : float) :
  knobs_ok self ->
  let window := deque_append 8 (fps_history self) fps in
  gate self window now = true -> improves self (avg window) ->
  let self' := fst (update_performance self fps now) in
  current_skip self' = Z.max 1 (current_skip self - 1)
  /\ current_img_size self'
     = (if current_skip self - 1 <? 1 then IMG_SIZE else current_img_size self).
Proof.
  intros [Hk Hs] window G [D I] self'.
  destruct (update_performance_knobs self fps now) as (_ & _ & Hon).
  fold window self' in Hon. specialize (Hon G).
  unfold adjust in Hon. rewrite D, I in Hon.
  unfold IMG_SIZE in *.
  destruct (Z.ltb_spec 1 (current_skip self)).
  - inversion Hon as [[Ek Es]]. rewrite Ek, Es.
    destruct (Z.ltb_spec (current_skip self - 1) 1); lia.
  - destruct (Z.ltb_spec (current_img_size self) 416);
      inversion Hon as [[Ek Es]]; rewrite Ek, Es;
      destruct (Z.ltb_spec (current_skip self - 1) 1); lia.
Qed.

End AdaptorPaths.

(** X7. Under sustained low throughput the adaptor walks down one fixed
    path.  From knobs inside their ranges, if every evaluation of a run
    finds the average below 0.8 times the target, then after [g]
    evaluations the decimation factor is [min 4 (skip + g)] and the
    resolution is 320 once [g] exceeds [4 - skip], and unchanged before:
    from the initial (2, 416) the knobs pass (3, 416) and (4, 416) and stay
    at (4, 320) from the third evaluation on. *)
Theorem sustained_low_fps_path :
  forall (calls : list (float * float)) (self : PerformanceAdaptor.t),
    knobs_ok self -> always_slow self calls ->
    let g := Z.of_nat (evaluations self calls) in
    let self' := adaptor_after self calls in
    PerformanceAdaptor.current_skip self'
    = Z.min 4 (PerformanceAdaptor.current_skip self + g)
    /\ PerformanceAdaptor.current_img_size self'
       = (if 4 - PerformanceAdaptor.current_skip self <? g then 320
          else PerformanceAdaptor.current_img_size self).
Proof.
  induction calls as [|[fps now] calls IH]; intros self K S.
  - unfold adaptor_after. cbn [fold_left evaluations Z.of_nat].
    destruct K as [Hk _].
    destruct (Z.ltb_spec (4 - PerformanceAdaptor.current_skip self) 0); lia.
  - cbn [always_slow fst snd] in S. destruct S as [Sd Sr].
    pose proof (knobs_ok_update self fps now K) as K'.
    specialize (IH _ K' Sr). cbn zeta in IH.
    cbn [evaluations fst snd]. rewrite adaptor_after_cons. cbn [fst snd].
    destruct IH as [IHk IHs]. rewrite IHk, IHs. clear IHk IHs.
    destruct K as [Hk Hs]. unfold IMG_SIZE in Hs.
    destruct (PerformanceAdaptor.gate self _ now) eqn:G.
    + destruct (degrade_step self fps now (conj Hk Hs) G (Sd eq_refl)) as [Ek Es].
      rewrite Ek, Es. rewrite Nat2Z.inj_add. cbn [Z.of_nat Pos.of_succ_nat].
      set (n := Z.of_nat (evaluations _ calls)).
      assert (0 <= n) by (subst n; lia).
      repeat match goal with
             | |- context [?a <? ?b] => destruct (Z.ltb_spec a b)
             end; lia.
    + destruct (update_performance_knobs self fps now) as (_ & Hoff & _).
      destruct (Hoff G) as [Ek Es]. rewrite Ek, Es. cbn [Nat.add].
      split; reflexivity.
Qed.

Lemma sustained_low_fps_path_witness :
  PerformanceAdaptor.current_skip
    (adaptor_after main_adaptor (steady_stream PyFloat.f3_0 eleven_seconds))
  = Z.min 4 (2 + 3)
  /\ PerformanceAdaptor.current_img_size
       (adaptor_after main_adaptor (steady_stream PyFloat.f3_0 eleven_seconds))
     = (if 4 - 2 <? 3 then 320 else 416).
Proof.
  apply (sustained_low_fps_path (steady_stream PyFloat.f3_0 eleven_seconds)
           main_adaptor).
  - vm_compute. repeat split; try discriminate. right. reflexivity.
  - vm_compute. repeat split; intros; try reflexivity; try discriminate.
Defined.

(** X8. Under sustained high throughput the adaptor walks the opposite
    path: if every evaluation of a run finds the average above 1.3 times the
    target, then after [g] evaluations the decimation factor is
    [max 1 (skip - g)] and the resolution is back at [IMG_SIZE] once [g]
    exceeds [skip - 1], and unchanged before; it never rises above
    [IMG_SIZE]. *)
Theorem sustained_high_fps_path :
  forall (calls : list (float * float)) (self : PerformanceAdaptor.t),
    knobs_ok self -> always_fast self calls ->
    let g := Z.of_nat (evaluations self calls) in
    let self' := adaptor_after self calls in
    PerformanceAdaptor.current_skip self'
    = Z.max 1 (PerformanceAdaptor.current_skip self - g)
    /\ PerformanceAdaptor.current_img_size self'
       = (if PerformanceAdaptor.current_skip self - 1 <? g then IMG_SIZE
          else PerformanceAdaptor.current_img_size self).
Proof.
  induction calls as [|[fps now] calls IH]; intros self K S.
  - unfold adaptor_after. cbn [fold_left evaluations Z.of_nat].
    destruct K as [Hk _].
    destruct (Z.ltb_spec (PerformanceAdaptor.current_skip self - 1) 0); lia.
  - cbn [always_fast fst snd] in S. destruct S as [Sd Sr].
    pose proof (knobs_ok_update self fps now K) as K'.
    specialize (IH _ K' Sr). cbn zeta in IH.
    cbn [evaluations fst snd]. rewrite adaptor_after_cons. cbn [fst snd].
    destruct IH as [IHk IHs]. rewrite IHk, IHs. clear IHk IHs.
    destruct K as [Hk Hs]. unfold IMG_SIZE in *.
    destruct (PerformanceAdaptor.gate self _ now) eqn:G.
    + destruct (improve_step self fps now (conj Hk Hs) G (Sd eq_refl)) as [Ek Es].
      rewrite Ek, Es. rewrite Nat2Z.inj_add. cbn [Z.of_nat Pos.of_succ_nat].
      set (n := Z.of_nat (evaluations _ calls)).
      assert (0 <= n) by (subst n; lia).
      unfold IMG_SIZE.
      repeat match goal with
             | |- context [?a <? ?b] => destruct (Z.ltb_spec a b)
             end; lia.
    + destruct (update_performance_knobs self fps now) as (_ & Hoff & _).
      destruct (Hoff G) as [Ek Es]. rewrite Ek, Es. cbn [Nat.add].
      split; reflexivity.
Qed.

Lemma sustained_high_fps_path_witness :
  PerformanceAdaptor.current_skip
    (adaptor_after main_adaptor (steady_stream (PyFloat.of_Z 20) eleven_seconds))
  = Z.max 1 (2 - 3)
  /\ PerformanceAdaptor.current_img_size
       (adaptor_after main_adaptor (steady_stream (PyFloat.of_Z 20) eleven_seconds))
     = (if 2 - 1 <? 3 then IMG_SIZE else 416).
Proof.
  apply (sustained_high_fps_path (steady_stream (PyFloat.of_Z 20) eleven_seconds)
           main_adaptor).
  - vm_compute. repeat split; try discriminate. right. reflexivity.
  - vm_compute. repeat split; intros; try reflexivity; try discriminate.
Defined.

(** ** The capture stage without a consumer *)

Lemma firstn_full {A : Type} (n : nat) (l l' : list A) :
  List.length l = n -> firstn n (l ++ l') = l.
Proof.
  intros <-. rewrite firstn_app, Nat.sub_diag, firstn_all. cbn.
  now rewrite app_nil_r.
Qed.

Lemma capture_pass_ok (x : XFrame) (stop : bool) (q : Queue.t Frame) :
  fst (FrameCapture.run_body (Ok x) stop q)
  = if Queue.full q then q
    else Queue.mk (Queue.items q ++ [to_rgb x]) (Queue.maxsize q).
Proof.
  unfold FrameCapture.run_body, Queue.put.
  destruct (Queue.full q); reflexivity.
Qed.

Lemma capture_frames_cons (x : XFrame) (xs : list XFrame) (q : Queue.t Frame) :
  capture_frames (x :: xs) q
  = capture_frames xs
      (if Queue.full q then q
       else Queue.mk (Queue.items q ++ [to_rgb x]) (Queue.maxsize q)).
Proof.
  unfold capture_frames. cbn [fold_left]. now rewrite capture_pass_ok.
Qed.

(** X9. The frame channel keeps the oldest frames.  From a channel that
    holds no more than its capacity, after the capture thread has made a
    pass for each of a sequence of delivered frames with nothing consumed
    in between, the channel holds what it held followed by the first
    delivered frames up to its capacity; every later frame is gone. *)
Theorem frame_channel_keeps_oldest :
  forall (xs : list XFrame) (q : Queue.t Frame),
    0 < Queue.maxsize q -> Queue.qsize q <= Queue.maxsize q ->
    Queue.items (capture_frames xs q)
    = firstn (Z.to_nat (Queue.maxsize q)) (Queue.items q ++ map to_rgb xs)
    /\ Queue.maxsize (capture_frames xs q) = Queue.maxsize q.
Proof.
  induction xs as [|x xs IH]; intros q Hm Hs.
  - cbn [capture_frames fold_left map]. rewrite app_nil_r.
    split; [|reflexivity]. rewrite firstn_all2; [reflexivity|].
    unfold Queue.qsize in Hs. lia.
  - rewrite capture_frames_cons. cbn [map].
    destruct (Queue.full q) eqn:F.
    + destruct (IH q Hm Hs) as [Ei Em]. split; [|exact Em].
      rewrite Ei. unfold Queue.full in F. apply andb_true_iff in F.
      destruct F as [_ F]. apply Z.leb_le in F. unfold Queue.qsize in *.
      assert (L : List.length (Queue.items q) = Z.to_nat (Queue.maxsize q)) by lia.
      now rewrite !(firstn_full _ _ _ L).
    + assert (Hlt : Queue.qsize q < Queue.maxsize q).
      { unfold Queue.full in F. apply andb_false_iff in F.
        destruct F as [F|F]; [apply Z.ltb_ge in F; lia|apply Z.leb_gt in F; lia]. }
      set (q' := Queue.mk (Queue.items q ++ [to_rgb x]) (Queue.maxsize q)).
      destruct (IH q') as [Ei Em].
      * exact Hm.
      * unfold Queue.qsize, q' in *. cbn [Queue.items Queue.maxsize].
        rewrite length_app. cbn [List.length]. lia.
      * split; [|exact Em]. rewrite Ei. unfold q'.
        cbn [Queue.items Queue.maxsize]. now rewrite <- app_assoc.
Qed.

Lemma frame_channel_keeps_oldest_witness :
  Queue.items
    (capture_frames
       [numbered_xbgr 1; numbered_xbgr 2; numbered_xbgr 3; numbered_xbgr 4;
        numbered_xbgr 5]
       (Queue.create Frame BUFFER_SIZE))
  = firstn (Z.to_nat BUFFER_SIZE)
      ([] ++ map to_rgb
               [numbered_xbgr 1; numbered_xbgr 2; numbered_xbgr 3;
                numbered_xbgr 4; numbered_xbgr 5])
  /\ Queue.maxsize
       (capture_frames
          [numbered_xbgr 1; numbered_xbgr 2; numbered_xbgr 3; numbered_xbgr 4;
           numbered_xbgr 5]
          (Queue.create Frame BUFFER_SIZE))
     = BUFFER_SIZE.
Proof.
  apply (frame_channel_keeps_oldest
           [numbered_xbgr 1; numbered_xbgr 2; numbered_xbgr 3; numbered_xbgr 4;
            numbered_xbgr 5]
           (Queue.create Frame BUFFER_SIZE)).
  - reflexivity.
  - vm_compute. discriminate.
Defined.

(** ** Decimation in the inference stage *)

Lemma div_succ (k c : Z) :
  0 < k -> 0 <= c ->
  (c + 1) / k - c / k = if (c + 1) mod k =? 0 then 1 else 0.
Proof.
  intros Hk Hc.
  pose proof (Z.div_mod (c + 1) k ltac:(lia)) as E.
  pose proof (Z.mod_pos_bound (c + 1) k Hk) as B.
  destruct (Z.eqb_spec ((c + 1) mod k) 0) as [Z0|NZ].
  - assert (c / k = (c + 1) / k - 1); [|lia].
    symmetry. apply (Z.div_unique c k _ (k - 1)); lia.
  - assert (c / k = (c + 1) / k); [|lia].
    symmetry. apply (Z.div_unique c k _ ((c + 1) mod k - 1)); lia.
Qed.

Lemma decimated_length (k : Z) (frames : list Frame) :
  0 < k ->
  forall c, 0 <= c ->
    Z.of_nat (List.length (decimated k c frames))
    = (c + Z.of_nat (List.length frames)) / k - c / k.
Proof.
  intros Hk. induction frames as [|f frames IH]; intros c Hc.
  - cbn. replace (c + 0) with c by lia. lia.
  - cbn [decimated List.length]. pose proof (div_succ k c Hk Hc) as Hstep.
    specialize (IH (c + 1) ltac:(lia)).
    replace (c + Z.of_nat (S (List.length frames)))
      with (c + 1 + Z.of_nat (List.length frames)) by lia.
    destruct ((c + 1) mod k =? 0); cbn [List.length]; lia.
Qed.

Lemma infer_passes_decimate (model : Frame -> result (list Results))
  (frames : list Frame) :
  forall (self : YOLOProcessor.t) (m : Z) (rq : Queue.t (Frame * list det)),
    0 < YOLOProcessor.frame_skip self ->
    Queue.maxsize rq <= 0 ->
    (forall f, In f frames ->
       exists dets, detect model (YOLOProcessor.conf_thres self) f = Ok dets) ->
    exists self' new,
      infer_passes model (List.length frames) self (Queue.mk frames m) rq
      = (self', Queue.mk [] m,
         Queue.mk (Queue.items rq ++ new) (Queue.maxsize rq), Next)
      /\ YOLOProcessor.frame_count self'
         = YOLOProcessor.frame_count self + Z.of_nat (List.length frames)
      /\ YOLOProcessor.frame_skip self' = YOLOProcessor.frame_skip self
      /\ map fst new
         = decimated (YOLOProcessor.frame_skip self)
                     (YOLOProcessor.frame_count self) frames.
Proof.
  induction frames as [|f frames IH]; intros self m rq Hk Hm Hd.
  - exists self, []. cbn [infer_passes List.length decimated map].
    rewrite app_nil_r. destruct rq. cbn. repeat split. lia.
  - cbn [infer_passes List.length].
    unfold YOLOProcessor.run_body.
    cbn [Queue.get Queue.items Queue.maxsize YOLOProcessor.frame_count
         YOLOProcessor.frame_skip YOLOProcessor.conf_thres].
    unfold py_mod.
    destruct (Z.eqb_spec (YOLOProcessor.frame_skip self) 0) as [|_]; [lia|].
    assert (Hd' : forall f0, In f0 frames ->
              exists dets,
                detect model (YOLOProcessor.conf_thres (counted self)) f0 = Ok dets).
    { intros f0 Hin. apply Hd. now right. }
    cbn [decimated].
    destruct (Z.eqb_spec ((YOLOProcessor.frame_count self + 1)
                            mod YOLOProcessor.frame_skip self) 0) as [Z0|NZ];
      cbn [negb].
    + destruct (Hd f (or_introl eq_refl)) as (dets & D).
      unfold detect in D. rewrite D.
      assert (F : Queue.full rq = false).
      { unfold Queue.full. apply andb_false_iff. left. apply Z.ltb_ge. exact Hm. }
      unfold Queue.put. rewrite F. cbn [negb].
      destruct (IH (counted self) m
                  (Queue.mk (Queue.items rq ++ [(f, dets)]) (Queue.maxsize rq))
                  Hk Hm Hd') as (self' & new & E & Ec & Ek & En).
      exists self', ((f, dets) :: new).
      fold (counted self). rewrite E.
      cbn [Queue.items Queue.maxsize counted YOLOProcessor.frame_count
           YOLOProcessor.frame_skip map fst] in *.
      rewrite <- app_assoc. cbn [app].
      repeat split; try assumption; [lia|now rewrite En].
    + destruct (IH (counted self) m rq Hk Hm Hd') as (self' & new & E & Ec & Ek & En).
      exists self', new. fold (counted self). rewrite E.
      cbn [counted YOLOProcessor.frame_count YOLOProcessor.frame_skip] in *.
      repeat split; try assumption. lia.
Qed.

(** X10. Decimation lets through one frame in [frame_skip].  With a
    positive [frame_skip], a detection model that answers every frame and a
    result channel without bound, the inference thread that takes [n]
    frames from its channel, its counter standing at [c >= 0], empties the
    channel, advances the counter to [c + n] and publishes exactly the
    frames whose ordinal is a multiple of [frame_skip], in order:
    [(c + n) / frame_skip - c / frame_skip] of them. *)
Theorem decimation_lets_one_in_k_through :
  forall (model : Frame -> result (list Results)) (self : YOLOProcessor.t)
    (fq : Queue.t Frame) (rq : Queue.t (Frame * list det)),
    0 < YOLOProcessor.frame_skip self ->
    0 <= YOLOProcessor.frame_count self ->
    Queue.maxsize rq <= 0 ->
    (forall f, In f (Queue.items fq) ->
       exists dets, detect model (YOLOProcessor.conf_thres self) f = Ok dets) ->
    let n := List.length (Queue.items fq) in
    exists self' new,
      infer_passes model n self fq rq
      = (self', Queue.mk [] (Queue.maxsize fq),
         Queue.mk (Queue.items rq ++ new) (Queue.maxsize rq), Next)
      /\ YOLOProcessor.frame_count self'
         = YOLOProcessor.frame_count self + Z.of_nat n
      /\ map fst new
         = decimated (YOLOProcessor.frame_skip self)
                     (YOLOProcessor.frame_count self) (Queue.items fq)
      /\ Z.of_nat (List.length new)
         = (YOLOProcessor.frame_count self + Z.of_nat n)
             / YOLOProcessor.frame_skip self
           - YOLOProcessor.frame_count self / YOLOProcessor.frame_skip self.
Proof.
  intros model self [frames m] rq Hk Hc Hm Hd n.
  cbn [Queue.items Queue.maxsize] in *. subst n.
  destruct (infer_passes_decimate model frames self m rq Hk Hm Hd)
    as (self' & new & E & Ec & _ & En).
  exists self', new. repeat split; try assumption.
  rewrite <- (decimated_length _ frames Hk _ Hc), <- En, length_map.
  reflexivity.
Qed.

Lemma decimation_lets_one_in_k_through_witness :
  exists self' new,
    infer_passes calm_model 5
      (YOLOProcessor.init IMG_SIZE CONF_THRES FRAME_SKIP)
      (Queue.mk (map to_rgb
                   [numbered_xbgr 1; numbered_xbgr 2; numbered_xbgr 3;
                    numbered_xbgr 4; numbered_xbgr 5]) 0)
      (Queue.create (Frame * list det) 0)
    = (self', Queue.mk [] 0, Queue.mk ([] ++ new) 0, Next)
    /\ YOLOProcessor.frame_count self' = 0 + 5
    /\ map fst new
       = decimated 2 0
           (map to_rgb
              [numbered_xbgr 1; numbered_xbgr 2; numbered_xbgr 3;
               numbered_xbgr 4; numbered_xbgr 5])
    /\ Z.of_nat (List.length new) = (0 + 5) / 2 - 0 / 2.
Proof.
  apply (decimation_lets_one_in_k_through calm_model
           (YOLOProcessor.init IMG_SIZE CONF_THRES FRAME_SKIP)
           (Queue.mk (map to_rgb
                        [numbered_xbgr 1; numbered_xbgr 2; numbered_xbgr 3;
                         numbered_xbgr 4; numbered_xbgr 5]) 0)
           (Queue.create (Frame * list det) 0)).
  - reflexivity.
  - vm_compute. discriminate.
  - vm_compute. discriminate.
  - intros f _. eexists. vm_compute. reflexivity.
Defined.

(** ** Errors in the inference stage *)

Lemma to_int_raises (x : float) (e : exn) :
  PyFloat.to_int x = Raise e -> e = ValueError \/ e = OverflowError.
Proof.
  destruct x; cbn; intros E; inversion E; auto.
Qed.

Lemma dict_get_raises (names : list (Z * string)) (k : Z) (e : exn) :
  dict_get names k = Raise e -> e = KeyError.
Proof.
  induction names as [|[k' v] names IH]; cbn.
  - intros E. now inversion E.
  - destruct (k' =? k); [discriminate|exact IH].
Qed.

Lemma add_box_raises (thres : float) (names : list (Z * string))
  (dets : list det) (b : Box) (e : exn) :
  YOLOProcessor.add_box thres names dets b = Raise e ->
  e = ValueError \/ e = OverflowError \/ e = KeyError.
Proof.
  unfold YOLOProcessor.add_box.
  destruct (xyxy b) as [[[x1 y1] x2] y2].
  destruct (PyFloat.to_int (cls b)) as [k|e0] eqn:C; cbn [bind];
    [|intros E; inversion E; subst; apply to_int_raises in C; tauto].
  destruct (PyFloat.leb thres (conf b)); [|discriminate].
  destruct (PyFloat.to_int x1) as [ix1|e0] eqn:X1; cbn [bind];
    [|intros E; inversion E; subst; apply to_int_raises in X1; tauto].
  destruct (PyFloat.to_int y1) as [iy1|e0] eqn:Y1; cbn [bind];
    [|intros E; inversion E; subst; apply to_int_raises in Y1; tauto].
  destruct (PyFloat.to_int x2) as [ix2|e0] eqn:X2; cbn [bind];
    [|intros E; inversion E; subst; apply to_int_raises in X2; tauto].
  destruct (PyFloat.to_int y2) as [iy2|e0] eqn:Y2; cbn [bind];
    [|intros E; inversion E; subst; apply to_int_raises in Y2; tauto].
  destruct (dict_get names k) as [name|e0] eqn:N; cbn [bind];
    [discriminate|].
  intros E; inversion E; subst. apply dict_get_raises in N. tauto.
Qed.

Lemma add_box_bad (thres : float) (names : list (Z * string))
  (dets : list det) (b : Box) :
  bad_box thres names b ->
  exists e, YOLOProcessor.add_box thres names dets b = Raise e.
Proof.
  unfold bad_box, YOLOProcessor.add_box, confident, box_ints.
  destruct (xyxy b) as [[[x1 y1] x2] y2].
  intros [(e & C)|(Hc & [(e & B)|(k & C & N)])].
  - rewrite C. cbn. eauto.
  - destruct (PyFloat.to_int (cls b)) as [k|e0]; cbn [bind]; [|eauto].
    rewrite Hc.
    destruct (PyFloat.to_int x1) as [ix1|e1]; cbn [bind] in *; [|eauto].
    destruct (PyFloat.to_int y1) as [iy1|e1]; cbn [bind] in *; [|eauto].
    destruct (PyFloat.to_int x2) as [ix2|e1]; cbn [bind] in *; [|eauto].
    destruct (PyFloat.to_int y2) as [iy2|e1]; cbn [bind] in *; [|eauto].
    discriminate.
  - rewrite C. cbn [bind]. rewrite Hc.
    destruct (PyFloat.to_int x1) as [ix1|e1]; cbn [bind]; [|eauto].
    destruct (PyFloat.to_int y1) as [iy1|e1]; cbn [bind]; [|eauto].
    destruct (PyFloat.to_int x2) as [ix2|e1]; cbn [bind]; [|eauto].
    destruct (PyFloat.to_int y2) as [iy2|e1]; cbn [bind]; [|eauto].
    rewrite N. cbn. eauto.
Qed.

Lemma add_boxes_bad (thres : float) (names : list (Z * string)) (b : Box)
  (bs : list Box) :
  In b bs -> bad_box thres names b ->
  forall dets,
    exists e,
      YOLOProcessor.add_boxes thres names dets bs = Raise e
      /\ (e = ValueError \/ e = OverflowError \/ e = KeyError).
Proof.
  induction bs as [|b0 bs IH]; intros Hin Hb dets; [destruct Hin|].
  cbn [YOLOProcessor.add_boxes].
  destruct (YOLOProcessor.add_box thres names dets b0) as [dets'|e] eqn:A;
    cbn [bind].
  - destruct Hin as [->|Hin]; [|now apply IH].
    destruct (add_box_bad thres names dets b Hb) as (e & E). congruence.
  - exists e. split; [reflexivity|]. eapply add_box_raises; eauto.
Qed.

(** X11. One box the loop cannot get past ends the inference thread.  When
    the frame that is due for inference comes back from the model with, in
    [results[0]], a box whose class index is NaN or infinite, or a confident
    box with such a coordinate or with a class index that has no name, the
    pass consumes the frame, publishes nothing of it (the good boxes
    included), prints one line unless the stop event is set, and leaves the
    loop. *)
Theorem bad_box_ends_inference_thread :
  forall (model : Frame -> result (list Results)) (self : YOLOProcessor.t)
    (fq fq' : Queue.t Frame) (rq : Queue.t (Frame * list det)) (rgb : Frame)
    (r : Results) (rest : list Results) (b : Box),
    Queue.get fq = Ok (rgb, fq') ->
    py_mod (YOLOProcessor.frame_count self + 1) (YOLOProcessor.frame_skip self)
    = Ok 0 ->
    model rgb = Ok (r :: rest) ->
    In b (boxes r) ->
    bad_box (YOLOProcessor.conf_thres self) (names r) b ->
    exists e,
      (e = ValueError \/ e = OverflowError \/ e = KeyError)
      /\ forall stop,
          YOLOProcessor.run_body model stop self fq rq
          = (counted self, fq', rq,
             (Break, if stop then [] else [("YOLO processing error", e)])).
Proof.
  intros model self fq fq' rq rgb r rest b G M R Hin Hb.
  destruct (add_boxes_bad _ _ b (boxes r) Hin Hb []) as (e & E & He).
  exists e. split; [exact He|]. intros stop.
  unfold YOLOProcessor.run_body. rewrite G.
  cbn [YOLOProcessor.frame_count YOLOProcessor.frame_skip YOLOProcessor.conf_thres].
  rewrite M. cbn [Z.eqb negb]. rewrite R. cbn [bind YOLOProcessor.process_results].
  rewrite E. unfold counted.
  destruct He as [ -> | [ -> | -> ] ]; reflexivity.
Qed.

Lemma bad_box_ends_inference_thread_witness :
  exists e,
    (e = ValueError \/ e = OverflowError \/ e = KeyError)
    /\ forall stop,
        YOLOProcessor.run_body nameless_model stop ready_processor
          one_frame_queue empty_results
        = (counted ready_processor, Queue.mk [] BUFFER_SIZE, empty_results,
           (Break, if stop then [] else [("YOLO processing error", e)])).
Proof.
  apply (bad_box_ends_inference_thread nameless_model ready_processor
           one_frame_queue (Queue.mk [] BUFFER_SIZE) empty_results tiny_rgb
           (mkResults [(0, "person")]
              [mkBox (PyFloat.of_Z 10, PyFloat.of_Z 10, PyFloat.of_Z 50,
                      PyFloat.of_Z 50)
                     (PyFloat.of_ratio 9 10) (PyFloat.of_Z 7)])
           []
           (mkBox (PyFloat.of_Z 10, PyFloat.of_Z 10, PyFloat.of_Z 50,
                   PyFloat.of_Z 50)
                  (PyFloat.of_ratio 9 10) (PyFloat.of_Z 7))).
  - reflexivity.
  - reflexivity.
  - reflexivity.
  - left. reflexivity.
  - right. split; [vm_compute; reflexivity|].
    right. exists 7. split; vm_compute; reflexivity.
Defined.

(** ** Labels made by the inference stage *)

Lemma string_app_assoc (a b c : string) :
  ((a ++ b) ++ c = a ++ (b ++ c))%string.
Proof.
  induction a as [|x a IH]; cbn; [reflexivity|]. now rewrite IH.
Qed.

Lemma split_from_pending (s : string) :
  forall cur, cur <> EmptyString -> PyStr.split_from cur s <> [].
Proof.
  induction s as [|c s IH]; intros cur H; cbn [PyStr.split_from].
  - destruct cur; [congruence|cbn; discriminate].
  - destruct (PyStr.isspace c).
    + destruct cur; [congruence|cbn; discriminate].
    + apply IH. destruct cur; cbn; discriminate.
Qed.

Lemma split_from_visible (a : string) (c : ascii) (b : string) :
  PyStr.isspace c = false ->
  forall cur, PyStr.split_from cur (a ++ String c b)%string <> [].
Proof.
  intros Hc. induction a as [|x a IH]; intros cur; cbn [String.append PyStr.split_from].
  - rewrite Hc. apply split_from_pending. destruct cur; cbn; discriminate.
  - destruct (PyStr.isspace x); [|apply IH].
    destruct (PyStr.is_empty cur); [apply IH|discriminate].
Qed.

Lemma format_fixed_visible (k : nat) (x : float) :
  exists a c b,
    PyFloat.format_fixed k x = (a ++ String c b)%string
    /\ PyStr.isspace c = false.
Proof.
  unfold PyFloat.format_fixed. destruct x as [s|s| |s m e].
  - eexists _, "."%char, _. rewrite <- string_app_assoc. split; reflexivity.
  - destruct s; [exists EmptyString, "-"%char, "inf"|exists EmptyString, "i"%char, "nf"];
      split; reflexivity.
  - exists EmptyString, "n"%char, "an". split; reflexivity.
  - eexists _, "."%char, _. rewrite <- string_app_assoc. split; reflexivity.
Qed.

Lemma built_label_has_token (name : string) (k : nat) (x : float) :
  PyStr.split (name ++ " " ++ PyFloat.format_fixed k x)%string <> [].
Proof.
  destruct (format_fixed_visible k x) as (a & c & b & -> & Hc).
  unfold PyStr.split.
  replace (name ++ " " ++ a ++ String c b)%string
    with ((name ++ " " ++ a) ++ String c b)%string.
  - now apply split_from_visible.
  - rewrite !string_app_assoc. reflexivity.
Qed.

Lemma add_box_labelled (thres : float) (names : list (Z * string))
  (dets dets' : list det) (b : Box) :
  YOLOProcessor.add_box thres names dets b = Ok dets' ->
  Forall labelled dets -> Forall labelled dets'.
Proof.
  unfold YOLOProcessor.add_box.
  destruct (xyxy b) as [[[x1 y1] x2] y2].
  destruct (PyFloat.to_int (cls b)) as [k|e]; cbn [bind]; [|discriminate].
  destruct (PyFloat.leb thres (conf b)); [|intros E; inversion E; subst; auto].
  destruct (PyFloat.to_int x1) as [ix1|e]; cbn [bind]; [|discriminate].
  destruct (PyFloat.to_int y1) as [iy1|e]; cbn [bind]; [|discriminate].
  destruct (PyFloat.to_int x2) as [ix2|e]; cbn [bind]; [|discriminate].
  destruct (PyFloat.to_int y2) as [iy2|e]; cbn [bind]; [|discriminate].
  destruct (dict_get names k) as [name|e]; cbn [bind]; [|discriminate].
  intros E F. inversion E; subst. apply Forall_app. split; [exact F|].
  constructor; [|constructor]. unfold labelled. cbn [DetectionSmoother.d_label].
  apply built_label_has_token.
Qed.

Lemma add_boxes_labelled (thres : float) (names : list (Z * string))
  (bs : list Box) :
  forall dets out,
    YOLOProcessor.add_boxes thres names dets bs = Ok out ->
    Forall labelled dets -> Forall labelled out.
Proof.
  induction bs as [|b bs IH]; intros dets out; cbn [YOLOProcessor.add_boxes].
  - intros E F. now inversion E; subst.
  - destruct (YOLOProcessor.add_box thres names dets b) as [dets'|e] eqn:A;
      cbn [bind]; [|discriminate].
    intros E F. eapply IH; eauto. eapply add_box_labelled; eauto.
Qed.

Lemma process_results_labelled (thres : float) (results : list Results)
  (dets : list det) :
  YOLOProcessor.process_results thres results = Ok dets -> Forall labelled dets.
Proof.
  unfold YOLOProcessor.process_results.
  destruct results as [|r rest]; [intros E; inversion E; constructor|].
  intros E. eapply add_boxes_labelled; eauto.
Qed.

(** X12. Every label the inference stage builds has a token: whatever the
    class name (empty, or made of spaces) and whatever the confidence (NaN
    and infinities included), the label [name + " " + confidence] splits
    into at least one word, so [label.split()[0]] in the smoother cannot
    fail on a detection that came through [process_results]. *)
Theorem inference_labels_have_a_token :
  forall (conf_thres : float) (results : list Results) (dets : list det),
    YOLOProcessor.process_results conf_thres results = Ok dets ->
    Forall labelled dets
    /\ Forall (fun d => DetectionSmoother.similar d d = Ok true) dets.
Proof.
  intros thres results dets E.
  pose proof (process_results_labelled thres results dets E) as F.
  split; [exact F|].
  eapply Forall_impl; [|exact F].
  intros d L. now apply similar_refl.
Qed.

Lemma inference_labels_have_a_token_witness :
  Forall labelled [glove]
  /\ Forall (fun d => DetectionSmoother.similar d d = Ok true) [glove].
Proof.
  apply (inference_labels_have_a_token CONF_THRES
           [mkResults coco_names [glove_box]] [glove]).
  vm_compute. reflexivity.
Defined.

(** ** The smoother on labels that have a token *)

Section SmootherExceptions.

Import DetectionSmoother.

Lemma scan_dets_labelled (d : det) (l : list det) :
  labelled d -> Forall labelled l ->
  forall acc, exists out, scan_dets d acc l = Ok out.
Proof.
  intros Ld F. induction F as [|h l Lh _ IH]; intros acc; cbn [scan_dets].
  - eauto.
  - destruct (similar_outcomes d h) as [(_ & _ & b & ->)|([N|N] & _)];
      [|contradiction|contradiction].
    cbn [bind]. apply IH.
Qed.

Lemma scan_history_labelled (d : det) (history : list (list det)) :
  labelled d -> Forall (Forall labelled) history ->
  forall acc, exists out, scan_history d acc history = Ok out.
Proof.
  intros Ld F. induction F as [|set history Ls _ IH]; intros acc;
    cbn [scan_history].
  - eauto.
  - destruct (scan_dets_labelled d set Ld Ls acc) as (out & ->). cbn [bind].
    apply IH.
Qed.

Lemma average_raises (coord : det -> Z) (l : list det) (e : exn) :
  average coord l = Raise e -> e = ZeroDivisionError \/ e = OverflowError.
Proof.
  unfold average, PyFloat.truediv_int.
  destruct (_ =? 0); [intros E; inversion E; auto|].
  destruct (PyFloat.is_inf _); [intros E; inversion E; auto|discriminate].
Qed.

Lemma blend_raises (sf : float) (x : Z) (a : float) (e : exn) :
  blend sf x a = Raise e -> e = ValueError \/ e = OverflowError.
Proof.
  unfold blend, PyFloat.of_int.
  destruct (PyFloat.is_inf (PyFloat.of_Z x)); cbn [bind].
  - intros E; inversion E; auto.
  - apply to_int_raises.
Qed.

Lemma smooth_one_no_index (sf : float) (history : list (list det)) (d : det) :
  labelled d -> Forall (Forall labelled) history ->
  smooth_one sf history d <> Raise IndexError.
Proof.
  intros Ld F. unfold smooth_one. destruct d as [[[[x1 y1] x2] y2] label].
  destruct (scan_history_labelled _ history Ld F []) as (sims & ->). cbn [bind].
  destruct sims as [|s sims]; [discriminate|].
  repeat match goal with
         | |- context [bind (average ?c ?l) _] =>
             let A := fresh "A" in
             destruct (average c l) eqn:A; cbn [bind];
             [|apply average_raises in A; destruct A; subst; discriminate]
         | |- context [bind (blend ?s ?x ?a) _] =>
             let B := fresh "B" in
             destruct (blend s x a) eqn:B; cbn [bind];
             [|apply blend_raises in B; destruct B; subst; discriminate]
         end.
  discriminate.
Qed.

Lemma smooth_all_no_index (sf : float) (history : list (list det))
  (cur : list det) :
  Forall labelled cur -> Forall (Forall labelled) history ->
  forall acc, smooth_all sf history acc cur <> Raise IndexError.
Proof.
  intros Fc Fh. induction Fc as [|d cur Ld _ IH]; intros acc; cbn [smooth_all].
  - discriminate.
  - pose proof (smooth_one_no_index sf history d Ld Fh) as N.
    destruct (smooth_one sf history d) as [d'|e]; cbn [bind]; [apply IH|].
    intros E. apply N. inversion E. reflexivity.
Qed.

Lemma deque_append_forall {A : Type} (P : A -> Prop) (n : nat) (l : list A) (x : A) :
  Forall P l -> P x -> Forall P (deque_append n l x).
Proof.
  intros Fl Px. unfold deque_append.
  assert (F : Forall P (l ++ [x])) by (apply Forall_app; auto).
  rewrite Forall_forall in *. intros y Hy. apply F.
  rewrite <- (firstn_skipn (List.length (l ++ [x]) - n) (l ++ [x])).
  apply in_or_app. now right.
Qed.

Lemma smooth_detections_no_index (self : t) (cur : list det) :
  Forall labelled cur -> Forall (Forall labelled) (detection_history self) ->
  snd (smooth_detections self cur) <> Raise IndexError
  /\ Forall (Forall labelled) (detection_history (fst (smooth_detections self cur))).
Proof.
  intros Fc Fh.
  pose proof (deque_append_forall _ (max_history self) _ _ Fh Fc) as F'.
  split.
  - unfold smooth_detections. destruct (_ <? _)%nat; cbn [snd]; [discriminate|].
    now apply smooth_all_no_index.
  - rewrite smooth_detections_state. exact F'.
Qed.

End SmootherExceptions.

Section PipelineLabels.

Variable model : Frame -> result (list Results).
Variable py_float : string -> option float.
Variable textbbox : string -> Z * Z.

Lemma capture_step_labels (c : result XFrame) (stop : bool) (p : Main.t) :
  labels_ok p -> labels_ok (Main.capture_step c stop p).
Proof.
  intros H. unfold Main.capture_step.
  destruct (Main.capture_alive p); [|exact H].
  destruct (FrameCapture.run_body c stop (Main.frame_queue p)) as [q [f out]].
  exact H.
Qed.

Lemma processor_body_labels (stop : bool) (self : YOLOProcessor.t)
  (fq : Queue.t Frame) (rq : Queue.t (Frame * list det)) :
  Forall (fun item : Frame * list det => Forall labelled (snd item))
         (Queue.items rq) ->
  forall self' fq' rq' out,
    YOLOProcessor.run_body model stop self fq rq = (self', fq', rq', out) ->
    Forall (fun item : Frame * list det => Forall labelled (snd item))
           (Queue.items rq').
Proof.
  intros F self' fq' rq' out. unfold YOLOProcessor.run_body.
  destruct (Queue.get fq) as [[rgb fq1]|e]; [|intros E; inversion E; subst; auto].
  destruct (py_mod _ _) as [r|e]; [|intros E; inversion E; subst; auto].
  destruct (negb (r =? 0)); [intros E; inversion E; subst; auto|].
  destruct (model rgb) as [results|e]; cbn [bind];
    [|intros E; inversion E; subst; auto].
  destruct (YOLOProcessor.process_results _ results) as [dets|e] eqn:P;
    [|intros E; inversion E; subst; auto].
  destruct (negb (Queue.full rq)); [|intros E; inversion E; subst; auto].
  destruct (Queue.put rq (rgb, dets) false) as [q'| |] eqn:Q;
    intros E; inversion E; subst; auto.
  apply put_stored_items in Q. rewrite Q. apply Forall_app. split; [exact F|].
  constructor; [|constructor]. cbn [snd].
  now apply process_results_labelled in P.
Qed.

Lemma infer_step_labels (stop : bool) (p : Main.t) :
  labels_ok p -> labels_ok (Main.infer_step model stop p).
Proof.
  intros [Hq Hh]. unfold Main.infer_step.
  destruct (Main.processor_alive p); [|split; assumption].
  destruct (YOLOProcessor.run_body model stop (Main.processor p)
              (Main.frame_queue p) (Main.result_queue p))
    as [[[self fq] rq] [f out]] eqn:E.
  split; cbn; [|exact Hh].
  eapply processor_body_labels; eauto.
Qed.

Lemma of_int_raises (z : Z) (e : exn) :
  PyFloat.of_int z = Raise e -> e = OverflowError.
Proof.
  unfold PyFloat.of_int. destruct (PyFloat.is_inf _); intros E; now inversion E.
Qed.

Ltac finish_display Hq Hh :=
  match goal with
  | |- context [PyFloat.leb PyFloat.f1_0 ?x] =>
      destruct (PyFloat.leb PyFloat.f1_0 x)
  end;
  [ match goal with
    | |- context [PyFloat.of_int ?z] =>
        let O := fresh "O" in
        destruct (PyFloat.of_int z) eqn:O; cbn [bind];
        [ match goal with
          | |- context [PerformanceAdaptor.update_performance ?a ?b ?c] =>
              destruct (PerformanceAdaptor.update_performance a b c)
          end
        | apply of_int_raises in O; subst ]
    end
  | ];
  try match goal with
      | |- context [if PyFloat.leb ?a ?b then _ else _] =>
          destruct (PyFloat.leb a b)
      end;
  cbn [fst snd]; (split; [split; [exact Hq|exact Hh]|discriminate]).

Lemma display_step_labels (now now' : float) (p : Main.t) :
  labels_ok p ->
  labels_ok (fst (Main.display_step py_float textbbox now now' p))
  /\ snd (Main.display_step py_float textbbox now now' p) <> Some IndexError.
Proof.
  intros [Hq Hh]. unfold Main.display_step.
  destruct (Queue.get (Main.result_queue p)) as [[[rgb dets] rq']|e] eqn:G.
  - assert (Hd : Forall labelled dets /\
                 Forall (fun item : Frame * list det => Forall labelled (snd item))
                        (Queue.items rq')).
    { unfold Queue.get in G.
      destruct (Queue.items (Main.result_queue p)) as [|x l]; [discriminate|].
      inversion G; subst. inversion Hq; subst. split; assumption. }
    destruct Hd as [Hd Hq'].
    destruct (smooth_detections_no_index (Main.smoother p) dets Hd Hh) as [N Hh'].
    destruct (DetectionSmoother.smooth_detections (Main.smoother p) dets)
      as [sm' [smoothed|e]]; cbn [fst snd] in *.
    + finish_display Hq' Hh'.
    + split; [split; assumption|]. intros E. inversion E; subst. now apply N.
  - finish_display Hq Hh.
Qed.

Lemma run_labels (evs : list Main.event) :
  forall p, labels_ok p ->
    snd (Main.run model py_float textbbox p evs) <> Some IndexError.
Proof.
  induction evs as [|ev evs IH]; intros p H; cbn [Main.run]; [discriminate|].
  assert (S : labels_ok (fst (Main.step model py_float textbbox p ev))
              /\ snd (Main.step model py_float textbbox p ev) <> Some IndexError).
  { destruct ev; cbn [Main.step fst snd].
    - split; [now apply capture_step_labels|discriminate].
    - split; [now apply infer_step_labels|discriminate].
    - now apply display_step_labels. }
  destruct (Main.step model py_float textbbox p ev) as [p' [e|]];
    cbn [fst snd] in *.
  - tauto.
  - apply IH. tauto.
Qed.

End PipelineLabels.

(** X13. In the pipeline [main] builds, the smoother's [label.split()[0]]
    never fails: whatever the detection model returns, whatever the camera
    delivers and however the threads interleave, no run of the pipeline
    leaves [main]'s loop by an [IndexError]. *)
Theorem main_loop_never_raises_index_error :
  forall (model : Frame -> result (list Results))
    (py_float : string -> option float) (textbbox : string -> Z * Z)
    (now now' : float) (evs : list Main.event),
    snd (Main.run model py_float textbbox (Main.start now now') evs)
    <> Some IndexError.
Proof.
  intros. apply run_labels. split; constructor.
Qed.

(** ** The pipeline after the capture thread has gone *)

Section Starvation.

Variable model : Frame -> result (list Results).
Variable py_float : string -> option float.
Variable textbbox : string -> Z * Z.



End Starvation.



(** ** What the compositor draws *)

(** X15. The compositor draws nothing of its own and leaves nothing out:
    a drawing call is in an overlay exactly when it is, for some detection
    [(x1, y1, x2, y2, label)] of the input that the filter kept, the green
    rectangle [x1, y1, x2, y2] of width 2 or, the box area exceeding
    2000, its filled label box or its label text; or else the box or the
    text of the FPS readout. *)
Theorem overlay_draws_only_kept_detections :
  forall (py_float : string -> option float) (textbbox : string -> Z * Z)
    (size_wh : Z * Z) (dets : list det) (fps : option float)
    (op : Overlay.draw_op),
    In op (Overlay.ops (Overlay.make_overlay py_float textbbox size_wh dets fps))
    <->
    ((exists x1 y1 x2 y2 label,
         In (x1, y1, x2, y2, label) dets
         /\ several_tokens label && below_floor py_float label = false
         /\ (op = Overlay.Rectangle (x1, y1, x2, y2) None (Some (0, 255, 0, 255)) 2
             \/ (2000 < (x2 - x1) * (y2 - y1)
                 /\ let ylab := Z.max 0 (y1 - snd (textbbox label) - 4) in
                    (op = Overlay.Rectangle
                            (x1, ylab, x1 + fst (textbbox label) + 4,
                             ylab + snd (textbbox label) + 2)
                            (Some (0, 255, 0, 180)) None 1
                     \/ op = Overlay.Text (x1 + 2, ylab) label (0, 0, 0, 255)))))
     \/ (exists f,
           fps = Some f
           /\ let s := ("FPS: " ++ PyFloat.format_fixed 1 f)%string in
              (op = Overlay.Rectangle
                      (8, 8, 8 + fst (textbbox s) + 6, 8 + snd (textbbox s) + 4)
                      (Some (0, 0, 0, 140)) None 1
               \/ op = Overlay.Text (10, 10) s (255, 255, 255, 255)))).
Proof.
  intros py_float textbbox size_wh dets fps op.
  rewrite make_overlay_ops, in_app_iff, in_flat_map, fps_ops_calls.
  split.
  - intros [H|H].
    + left. destruct H as ([[[[x1 y1] x2] y2] label] & Hd & Hop).
      exists x1, y1, x2, y2, label. split; [exact Hd|].
      rewrite skipped_spec in Hop. cbn [DetectionSmoother.d_label] in Hop.
      destruct (several_tokens label && below_floor py_float label);
        [destruct Hop|].
      split; [reflexivity|].
      rewrite box_ops_calls in Hop.
      destruct Hop as [<-|Hop]; [left; reflexivity|right].
      destruct (Z.ltb_spec 2000 ((x2 - x1) * (y2 - y1))); [|destruct Hop].
      split; [assumption|]. cbn zeta.
      destruct Hop as [<-|[<-|[]]]; auto.
    + right. destruct fps as [f|]; [|destruct H].
      exists f. split; [reflexivity|]. cbn zeta in *.
      destruct H as [<-|[<-|[]]]; auto.
  - intros [(x1 & y1 & x2 & y2 & label & Hd & Hk & Hop)|(f & Ef & Hop)];
      [|subst fps].
    + left. exists (x1, y1, x2, y2, label). split; [exact Hd|].
      rewrite skipped_spec. cbn [DetectionSmoother.d_label]. rewrite Hk.
      rewrite box_ops_calls.
      destruct Hop as [->|(Ha & Hop)]; [left; reflexivity|right].
      apply Z.ltb_lt in Ha. rewrite Ha. cbn zeta in Hop.
      destruct Hop as [ -> | -> ]; cbn; auto.
    + right. cbn zeta in *. destruct Hop as [ -> | -> ]; cbn; auto.
Qed.

Lemma overlay_draws_only_kept_detections_witness :
  (exists x1 y1 x2 y2 label,
      In (x1, y1, x2, y2, label) [(10, 10, 100, 100, "person 0.40");
                                  (10, 10, 30, 30, "person 0.90")]
      /\ several_tokens label && below_floor decimal_float label = false
      /\ (Overlay.Rectangle (10, 10, 30, 30) None (Some (0, 255, 0, 255)) 2
          = Overlay.Rectangle (x1, y1, x2, y2) None (Some (0, 255, 0, 255)) 2
          \/ (2000 < (x2 - x1) * (y2 - y1)
              /\ let ylab := Z.max 0 (y1 - snd (fixed_font label) - 4) in
                 (Overlay.Rectangle (10, 10, 30, 30) None (Some (0, 255, 0, 255)) 2
                  = Overlay.Rectangle
                      (x1, ylab, x1 + fst (fixed_font label) + 4,
                       ylab + snd (fixed_font label) + 2)
                      (Some (0, 255, 0, 180)) None 1
                  \/ Overlay.Rectangle (10, 10, 30, 30) None (Some (0, 255, 0, 255)) 2
                     = Overlay.Text (x1 + 2, ylab) label (0, 0, 0, 255)))))
  \/ (exists f,
        @None float = Some f
        /\ let s := ("FPS: " ++ PyFloat.format_fixed 1 f)%string in
           (Overlay.Rectangle (10, 10, 30, 30) None (Some (0, 255, 0, 255)) 2
            = Overlay.Rectangle
                (8, 8, 8 + fst (fixed_font s) + 6, 8 + snd (fixed_font s) + 4)
                (Some (0, 0, 0, 140)) None 1
            \/ Overlay.Rectangle (10, 10, 30, 30) None (Some (0, 255, 0, 255)) 2
               = Overlay.Text (10, 10) s (255, 255, 255, 255))).
Proof.
  apply (proj1 (overlay_draws_only_kept_detections decimal_float fixed_font CAM_RES
                  [(10, 10, 100, 100, "person 0.40"); (10, 10, 30, 30, "person 0.90")]
                  None
                  (Overlay.Rectangle (10, 10, 30, 30) None (Some (0, 255, 0, 255)) 2))).
  vm_compute. left. reflexivity.
Defined.

(** ** Printed confidences and the compositor's floor *)

Lemma split_from_at_space (b : string) (sp : ascii) (a : string) :
  PyStr.isspace sp = true ->
  forall cur,
    PyStr.split_from cur (a ++ String sp b)%string
    = PyStr.split_from cur a ++ PyStr.split_from EmptyString b.
Proof.
  intros Hs. induction a as [|x a IH]; intros cur;
    cbn [String.append PyStr.split_from].
  - rewrite Hs. destruct (PyStr.is_empty cur); reflexivity.
  - destruct (PyStr.isspace x); [|apply IH].
    destruct (PyStr.is_empty cur); rewrite IH; reflexivity.
Qed.

Lemma scores_read_back_spec (k : nat) :
  scores_read_back k = true ->
  forall n, 0 <= n <= Z.of_nat k -> score_reads_back n = true.
Proof.
  induction k as [|k IH]; cbn [scores_read_back]; intros H n Hn.
  - replace n with 0 by lia. exact H.
  - apply andb_true_iff in H. destruct H as [Hk Hr].
    destruct (Z.eq_dec n (Z.of_nat (S k))) as [->|Hne]; [exact Hk|].
    apply IH; [exact Hr|lia].
Qed.

Lemma scores_up_to_one : scores_read_back 100 = true.
Proof. vm_compute. reflexivity. Qed.

Lemma format_two_decimals (c : float) (n : Z) :
  hundredths c = Some n -> PyFloat.format_fixed 2 c = two_decimals n.
Proof.
  destruct c as [[|]|s| |[|] m e]; cbn [hundredths]; intros E;
    inversion E; subst; reflexivity.
Qed.

(** X16. The compositor's floor acts on the confidence as the inference
    stage printed it.  For a confidence that is not negative and prints as
    [n <= 100] hundredths, the label [name + " " + f"{conf:.2f}"] is
    skipped by [make_overlay] exactly when the class name has a token and
    [n < 50]: a confidence of 0.4951, printed "0.50", is drawn, and every
    box published with a printed confidence from 0.35 to 0.49 never is. *)
Theorem printed_confidence_decides_drawing :
  forall (name : string) (c : float) (n : Z),
    hundredths c = Some n -> 0 <= n <= 100 ->
    let label := (name ++ " " ++ PyFloat.format_fixed 2 c)%string in
    (PyStr.split name <> [] -> Overlay.skipped decimal_float label = (n <? 50))
    /\ (PyStr.split name = [] -> Overlay.skipped decimal_float label = false).
Proof.
  intros name c n Hc Hn label. subst label.
  rewrite (format_two_decimals c n Hc).
  pose proof (scores_read_back_spec 100 scores_up_to_one n ltac:(lia)) as R.
  unfold score_reads_back in R. apply andb_true_iff in R. destruct R as [Rs Rv].
  assert (S1 : PyStr.split (two_decimals n) = [two_decimals n]).
  { destruct (PyStr.split (two_decimals n)) as [|t [|t' l]]; try discriminate.
    apply String.eqb_eq in Rs. now subst. }
  assert (Sp : PyStr.split (name ++ " " ++ two_decimals n)%string
               = PyStr.split name ++ [two_decimals n]).
  { unfold PyStr.split.
    change (name ++ " " ++ two_decimals n)%string
      with (name ++ String " " (two_decimals n))%string.
    rewrite split_from_at_space by reflexivity.
    fold (PyStr.split (two_decimals n)). now rewrite S1. }
  unfold Overlay.skipped. rewrite Sp, length_app. cbn [List.length].
  unfold PyStr.last. rewrite rev_app_distr. cbn [rev app].
  destruct (decimal_float (two_decimals n)) as [v|]; [|discriminate].
  apply Bool.eqb_prop in Rv.
  split; intros Hname.
  - destruct (PyStr.split name) as [|t l]; [congruence|].
    cbn [List.length Nat.add]. replace (1 <? S (List.length l + 1))%nat with true.
    + exact Rv.
    + symmetry. apply Nat.ltb_lt. lia.
  - rewrite Hname. reflexivity.
Qed.

Lemma printed_confidence_decides_drawing_witness :
  (PyStr.split "person" <> [] ->
   Overlay.skipped decimal_float
     ("person" ++ " " ++ PyFloat.format_fixed 2 nearly_half)%string
   = (50 <? 50))
  /\ (PyStr.split "person" = [] ->
      Overlay.skipped decimal_float
        ("person" ++ " " ++ PyFloat.format_fixed 2 nearly_half)%string
      = false).
Proof.
  apply (printed_confidence_decides_drawing "person" nearly_half 50).
  - vm_compute. reflexivity.
  - lia.
Defined.

(** ** What the adaptor measures *)

Section Measurement.

Variable model1 : Frame -> result (list Results).
Variable model2 : Frame -> result (list Results).
Variable py_float1 : string -> option float.
Variable py_float2 : string -> option float.
Variable textbbox1 : string -> Z * Z.
Variable textbbox2 : string -> Z * Z.

Ltac clock_cases :=
  repeat match goal with
         | |- context [PyFloat.leb ?a ?b] => destruct (PyFloat.leb a b)
         | |- context [PyFloat.of_int ?z] =>
             destruct (PyFloat.of_int z); cbn [bind]
         | |- context [PerformanceAdaptor.update_performance ?a ?b ?c] =>
             destruct (PerformanceAdaptor.update_performance a b c)
         end.

Lemma display_step_clock (now now' : float) (p q : Main.t) :
  same_clock p q ->
  snd (Main.display_step py_float1 textbbox1 now now' p) = None ->
  snd (Main.display_step py_float2 textbbox2 now now' q) = None ->
  same_clock (fst (Main.display_step py_float1 textbbox1 now now' p))
             (fst (Main.display_step py_float2 textbbox2 now now' q)).
Proof.
  intros (Et & Ef & Es & El & Ea & Ek).
  unfold Main.display_step. rewrite <- Et, <- Ef, <- Es, <- El, <- Ea, <- Ek.
  destruct (Queue.get (Main.result_queue p)) as [[[rgb dets] rq']|e];
    [destruct (DetectionSmoother.smooth_detections (Main.smoother p) dets)
       as [sm [sd|e]]|];
    (destruct (Queue.get (Main.result_queue q)) as [[[rgb2 dets2] rq2]|e2];
     [destruct (DetectionSmoother.smooth_detections (Main.smoother q) dets2)
        as [sm2 [sd2|e2]]|]);
    cbn [fst snd]; try discriminate;
    clock_cases; cbn [fst snd]; try discriminate;
    intros _ _; repeat split.
Qed.

Lemma run_clock (evs : list Main.event) :
  forall p q,
    same_clock p q ->
    snd (Main.run model1 py_float1 textbbox1 p evs) = None ->
    snd (Main.run model2 py_float2 textbbox2 q evs) = None ->
    same_clock (fst (Main.run model1 py_float1 textbbox1 p evs))
               (fst (Main.run model2 py_float2 textbbox2 q evs)).
Proof.
  induction evs as [|ev evs IH]; intros p q R; cbn [Main.run].
  - intros _ _. exact R.
  - destruct ev as [c| |now now']; cbn [Main.step].
    + apply IH. destruct R as (Et & Ef & Es & El & Ea & Ek).
      unfold Main.capture_step.
      destruct (Main.capture_alive p);
        [destruct (FrameCapture.run_body c false (Main.frame_queue p))
           as [? [? ?]]|];
        (destruct (Main.capture_alive q);
         [destruct (FrameCapture.run_body c false (Main.frame_queue q))
            as [? [? ?]]|]);
        repeat split; assumption.
    + apply IH. destruct R as (Et & Ef & Es & El & Ea & Ek).
      unfold Main.infer_step.
      destruct (Main.processor_alive p);
        [destruct (YOLOProcessor.run_body model1 false (Main.processor p)
                     (Main.frame_queue p) (Main.result_queue p))
           as [[[? ?] ?] [? ?]]|];
        (destruct (Main.processor_alive q);
         [destruct (YOLOProcessor.run_body model2 false (Main.processor q)
                      (Main.frame_queue q) (Main.result_queue q))
            as [[[? ?] ?] [? ?]]|]);
        repeat split; assumption.
    + pose proof (display_step_clock now now' p q R) as D.
      destruct (Main.display_step py_float1 textbbox1 now now' p) as [p' [e|]];
        [discriminate|].
      destruct (Main.display_step py_float2 textbbox2 now now' q) as [q' [e|]];
        [intros _; discriminate|].
      cbn [fst snd] in D. apply IH. now apply D.
Qed.

End Measurement.

(** X17. The adaptor measures the display loop, not inference.  Two runs of
    the pipeline on the same schedule of passes and clock readings, neither
    ended by an exception, leave the same adaptor, the same displayed fps
    and the same tick state, whatever the two detection models return: the
    fps the adaptor is fed counts passes of [main]'s loop and never looks
    at a detection result. *)
Theorem adaptor_is_blind_to_the_model :
  forall (model1 model2 : Frame -> result (list Results))
    (py_float1 py_float2 : string -> option float)
    (textbbox1 textbbox2 : string -> Z * Z)
    (now now' : float) (evs : list Main.event),
    snd (Main.run model1 py_float1 textbbox1 (Main.start now now') evs) = None ->
    snd (Main.run model2 py_float2 textbbox2 (Main.start now now') evs) = None ->
    same_clock
      (fst (Main.run model1 py_float1 textbbox1 (Main.start now now') evs))
      (fst (Main.run model2 py_float2 textbbox2 (Main.start now now') evs)).
Proof.
  intros. apply run_clock; try assumption. repeat split.
Qed.

Lemma adaptor_is_blind_to_the_model_witness :
  same_clock
    (fst (Main.run calm_model decimal_float fixed_font pipeline_start
            (two_frames ++ slow_display)))
    (fst (Main.run wild_model decimal_float fixed_font pipeline_start
            (two_frames ++ slow_display))).
Proof.
  apply (adaptor_is_blind_to_the_model calm_model wild_model
           decimal_float decimal_float fixed_font fixed_font
           (PyFloat.of_Z 1000) (PyFloat.of_Z 1000) (two_frames ++ slow_display)).
  - vm_compute. reflexivity.
  - vm_compute. reflexivity.
Defined.

(** ** What the inference stage publishes *)

(** X18. Whenever a pass of the inference stage changes the result channel,
    it has appended one pair [(rgb, dets)] to it, where [dets] lists, in
    the model's order, the boxes of [results[0]] with
    [conf >= conf_thres] and no others, each with its four coordinates
    truncated toward zero by [int]. *)
Theorem published_boxes_are_model_boxes :
  forall (model : Frame -> result (list Results)) (stop : bool)
    (self self' : YOLOProcessor.t) (fq fq' : Queue.t Frame)
    (rq rq' : Queue.t (Frame * list det)) (out : flow * console),
    YOLOProcessor.run_body model stop self fq rq = (self', fq', rq', out) ->
    rq' <> rq ->
    exists rgb results dets,
      Queue.items rq' = Queue.items rq ++ [(rgb, dets)]
      /\ model rgb = Ok results
      /\ Forall2 (fun b d => box_ints b = Ok (coords d))
                 (filter (confident (YOLOProcessor.conf_thres self))
                         (boxes_of results))
                 dets.
Proof.
  intros model stop self self' fq fq' rq rq' out.
  unfold YOLOProcessor.run_body.
  destruct (Queue.get fq) as [[rgb fq1]|e]; [|intros E; inversion E; congruence].
  cbn [YOLOProcessor.frame_count YOLOProcessor.frame_skip YOLOProcessor.conf_thres].
  destruct (py_mod _ _) as [r|e]; [|intros E; inversion E; congruence].
  destruct (negb (r =? 0)); [intros E; inversion E; congruence|].
  destruct (model rgb) as [results|e] eqn:M; cbn [bind];
    [|intros E; inversion E; congruence].
  destruct (YOLOProcessor.process_results _ results) as [dets|e] eqn:P;
    [|intros E; inversion E; congruence].
  destruct (negb (Queue.full rq)); [|intros E; inversion E; congruence].
  destruct (Queue.put rq (rgb, dets) false) as [q'| |] eqn:Q;
    intros E; inversion E; subst; try congruence.
  intros _. exists rgb, results, dets.
  apply put_stored_items in Q. apply process_results_truncates in P.
  split; [exact Q|]. split; [exact M|exact P].
Qed.

Lemma published_boxes_are_model_boxes_witness :
  exists rgb results dets,
    Queue.items wild_results = Queue.items empty_results ++ [(rgb, dets)]
    /\ wild_model rgb = Ok results
    /\ Forall2 (fun b d => box_ints b = Ok (coords d))
               (filter (confident (YOLOProcessor.conf_thres ready_processor))
                       (boxes_of results))
               dets.
Proof.
  apply (published_boxes_are_model_boxes wild_model false ready_processor
           (counted ready_processor) one_frame_queue (Queue.mk [] BUFFER_SIZE)
           empty_results wild_results (Next, [])).
  - vm_compute. reflexivity.
  - discriminate.
Defined.
